(** * Orchestration runtime: verified properties of the core components

    A shallow embedding of the Python sources of the assistant runtime:

    - [src/mcp/d365_tool.py]         circuit breaker and retry loop
    - [src/security/rate_limiter.py] sliding-window rate limiter
    - [src/security/input_validator.py] input validation
    - [src/loaders/workflows.py]     condition evaluator and edge routing
    - [src/memory/manager.py]        chat history manager

    Conventions.  Python [int] is [Z]; a Python [float] that holds a
    clock reading or a time-out is an exact rational [Q]; the burst
    multiplier of the rate limiter, whose product with a limit is rounded
    before it is truncated, is an IEEE 754 binary64 ([spec_float]);
    [str] is [string];
    a [dict] used as a keyed store is a [gmap]; a JSON-like [dict] whose
    insertion order is observable is an association list.  A function that
    may raise returns a sum or a dedicated outcome type.  Calls into
    collaborators (the wrapped coroutine, the chat agent, the clock) are
    passed as functions on an explicit world. *)

From Stdlib Require Import ZArith QArith Lia Lqa Bool Ascii String List Sorted.
From Stdlib Require Import SpecFloat.
Import ListNotations.
From stdpp Require Import base option list gmap strings pretty.

Local Open Scope Z_scope.
Set Warnings "-register-all".

(** Strict comparison of rationals as a boolean: Python [x < y] on floats. *)
Definition Qlt_bool (x y : Q) : bool := negb (Qle_bool y x).

(** * Part I: the embedding *)

(** ** Python values and the built-in operations the sources use *)

Module Py.

(** Exceptions, by class.  [JSONDecodeError] is a subclass of
    [ValueError]; every class here is a subclass of [Exception]. *)
Inductive exn :=
| TypeError
| AttributeError
| ValueError
| JSONDecodeError
| KeyError
| RecursionError
| RuntimeError (msg : string)
| OtherError (cls : string).

(** A computation that returns or raises. *)
Definition result (A : Type) : Type := exn + A.
Definition ret {A} (a : A) : result A := inr a.
Definition raise {A} (e : exn) : result A := inl e.
Definition bind {A B} (m : result A) (k : A -> result B) : result B :=
  match m with inl e => inl e | inr a => k a end.

(** JSON-like values: what [json.loads] produces and what thread blobs,
    agent outputs and parsed literals are made of.  A [dict] keeps its
    insertion order; its keys are strings and are pairwise distinct. *)
Inductive pyval :=
| PyNone
| PyBool (b : bool)
| PyInt (z : Z)
| PyFloat (q : Q)
| PyStr (s : string)
| PyList (l : list pyval)
| PyDict (d : list (string * pyval)).

Definition dict := list (string * pyval).

(** [bool(v)] *)
Definition truthy (v : pyval) : bool :=
  match v with
  | PyNone => false
  | PyBool b => b
  | PyInt z => negb (z =? 0)
  | PyFloat q => negb (Qeq_bool q 0)
  | PyStr s => negb (String.eqb s EmptyString)
  | PyList l => match l with [] => false | _ => true end
  | PyDict d => match d with [] => false | _ => true end
  end.

(** *** dict operations *)

(** [d.get(k)] as an option; [k in d] is [is_Some]. *)
Fixpoint dict_get (k : string) (d : dict) : option pyval :=
  match d with
  | [] => None
  | (k', v) :: d' => if String.eqb k k' then Some v else dict_get k d'
  end.

Definition dict_mem (k : string) (d : dict) : bool :=
  match dict_get k d with Some _ => true | None => false end.

(** [d.get(k, default)] *)
Definition dict_get_default (k : string) (default : pyval) (d : dict) : pyval :=
  match dict_get k d with Some v => v | None => default end.

(** [d[k] = v]: overwrite in place, or append a new key. *)
Fixpoint dict_set (k : string) (v : pyval) (d : dict) : dict :=
  match d with
  | [] => [(k, v)]
  | (k', v') :: d' =>
      if String.eqb k k' then (k', v) :: d' else (k', v') :: dict_set k v d'
  end.

(** [{**a, **b}] *)
Definition dict_merge (a b : dict) : dict :=
  fold_left (fun acc kv => dict_set (fst kv) (snd kv) acc) b a.

(** *** str operations (on ASCII text) *)

Definition chars (s : string) : list ascii := list_ascii_of_string s.
Definition of_chars (l : list ascii) : string := string_of_list_ascii l.

Definition dquote : ascii := ascii_of_nat 34.

Definition is_upper (c : ascii) : bool :=
  (65 <=? nat_of_ascii c)%nat && (nat_of_ascii c <=? 90)%nat.
Definition is_lower (c : ascii) : bool :=
  (97 <=? nat_of_ascii c)%nat && (nat_of_ascii c <=? 122)%nat.

(** [str.isspace] on one character: tab, LF, VT, FF, CR, the four
    separators 0x1c-0x1f and the space. *)
Definition is_space (c : ascii) : bool :=
  let n := nat_of_ascii c in
  ((9 <=? n)%nat && (n <=? 13)%nat) || ((28 <=? n)%nat && (n <=? 32)%nat).

Definition lower_char (c : ascii) : ascii :=
  if is_upper c then ascii_of_nat (nat_of_ascii c + 32) else c.
Definition upper_char (c : ascii) : ascii :=
  if is_lower c then ascii_of_nat (nat_of_ascii c - 32) else c.

(** [s.lower()], [s.upper()] *)
Definition lower (s : string) : string := of_chars (map lower_char (chars s)).
Definition upper (s : string) : string := of_chars (map upper_char (chars s)).

Fixpoint lstrip_chars (l : list ascii) : list ascii :=
  match l with
  | c :: l' => if is_space c then lstrip_chars l' else l
  | [] => []
  end.

(** [s.strip()] *)
Definition strip (s : string) : string :=
  of_chars (rev (lstrip_chars (rev (lstrip_chars (chars s))))).

Fixpoint is_prefix (p l : list ascii) : bool :=
  match p, l with
  | [], _ => true
  | a :: p', b :: l' => Ascii.eqb a b && is_prefix p' l'
  | _ :: _, [] => false
  end.

(** [s.startswith(p)], [s.endswith(p)] *)
Definition startswith (s p : string) : bool := is_prefix (chars p) (chars s).
Definition endswith (s p : string) : bool :=
  is_prefix (rev (chars p)) (rev (chars s)).

Fixpoint is_infix (p l : list ascii) : bool :=
  is_prefix p l || match l with [] => false | _ :: l' => is_infix p l' end.

(** [p in s] for two strings *)
Definition str_contains (s p : string) : bool := is_infix (chars p) (chars s).

(** [s.replace(a, b)] for single characters *)
Definition replace_char (a b : ascii) (s : string) : string :=
  of_chars (map (fun c => if Ascii.eqb c a then b else c) (chars s)).

Fixpoint split_chars (sep : ascii) (cur : list ascii) (l : list ascii)
  : list (list ascii) :=
  match l with
  | [] => [rev cur]
  | c :: l' =>
      if Ascii.eqb c sep then rev cur :: split_chars sep [] l'
      else split_chars sep (c :: cur) l'
  end.

(** [s.split(sep)] for a one-character separator *)
Definition split (sep : ascii) (s : string) : list string :=
  map of_chars (split_chars sep [] (chars s)).

(** [s[1:-1]] *)
Definition slice_1_m1 (s : string) : string :=
  of_chars (removelast (tl (chars s))).

(** [s[:n]] for [n >= 0] *)
Definition slice_to (n : nat) (s : string) : string :=
  of_chars (firstn n (chars s)).

(** [sep.join(parts)] *)
Fixpoint join (sep : string) (parts : list string) : string :=
  match parts with
  | [] => EmptyString
  | [p] => p
  | p :: ps => p ++ sep ++ join sep ps
  end.

(** [len(s)] *)
Definition str_len (s : string) : Z := Z.of_nat (String.length s).

(** *** float arithmetic: IEEE 754 binary64, round to nearest, ties to even *)

Definition float : Type := spec_float.
Definition prec : Z := 53.
Definition emax : Z := 1024.

Definition OverflowError : exn := OtherError "OverflowError".

(** The double nearest to [m * 2^e]; an infinity beyond the range. *)
Definition float_of_scaled (m e : Z) : float :=
  binary_normalize prec emax m e false.

(** The double a decimal literal [digits / 10^places] denotes, for
    [digits] and [10^places] below [2^53] (both are then doubles, and
    their quotient rounds as the literal does). *)
Definition float_of_decimal (digits : Z) (places : Z) : float :=
  SFdiv prec emax (float_of_scaled digits 0) (float_of_scaled (10 ^ places) 0).

(** The conversion of an [int] operand of a float operation: the nearest
    double, or [OverflowError] ("int too large to convert to float"). *)
Definition float_of_int (z : Z) : result float :=
  match float_of_scaled z 0 with
  | S754_infinity _ => raise OverflowError
  | x => ret x
  end.

(** [x * y] on floats; an overflow gives an infinity. *)
Definition float_mul (x y : float) : float := SFmul prec emax x y.

(** [z * y] for an [int] and a [float] *)
Definition int_mul_float (z : Z) (y : float) : result float :=
  bind (float_of_int z) (fun x => ret (float_mul x y)).

(** [int(x)] on a float: truncation toward zero; [OverflowError] on an
    infinity, [ValueError] on a NaN. *)
Definition int_of_float (x : float) : result Z :=
  match x with
  | S754_zero _ => ret 0
  | S754_finite s m e =>
      let a := Z.shiftl (Z.pos m) e in
      ret (if s then - a else a)
  | S754_infinity _ => raise OverflowError
  | S754_nan => raise ValueError
  end.

(** *** Comparison and membership *)

(** [int], [float] and [bool] compare by numeric value. *)
Definition num_of (v : pyval) : option Q :=
  match v with
  | PyBool b => Some (if b then 1%Q else 0%Q)
  | PyInt z => Some (inject_Z z)
  | PyFloat q => Some q
  | _ => None
  end.

(** [a == b]; never raises. *)
Fixpoint py_eq (a b : pyval) {struct a} : bool :=
  match a, b with
  | PyNone, PyNone => true
  | PyStr s, PyStr t => String.eqb s t
  | PyList l, PyList m =>
      (fix go (l m : list pyval) : bool :=
         match l, m with
         | [], [] => true
         | x :: l', y :: m' => py_eq x y && go l' m'
         | _, _ => false
         end) l m
  | PyDict d, PyDict e =>
      Nat.eqb (length d) (length e) &&
      (fix go (d : list (string * pyval)) : bool :=
         match d with
         | [] => true
         | (k, v) :: d' =>
             match dict_get k e with
             | Some v' => py_eq v v' && go d'
             | None => false
             end
         end) d
  | _, _ =>
      match num_of a, num_of b with
      | Some x, Some y => Qeq_bool x y
      | _, _ => false
      end
  end.

(** Three-way ordering behind [<], [<=], [>], [>=]: numbers with numbers,
    strings with strings, lists element-wise; anything else is a
    [TypeError]. *)
Fixpoint py_order (a b : pyval) {struct a} : result comparison :=
  match a, b with
  | PyStr s, PyStr t => ret (String.compare s t)
  | PyList l, PyList m =>
      (fix go (l m : list pyval) : result comparison :=
         match l, m with
         | [], [] => ret Eq
         | [], _ :: _ => ret Lt
         | _ :: _, [] => ret Gt
         | x :: l', y :: m' => if py_eq x y then go l' m' else py_order x y
         end) l m
  | _, _ =>
      match num_of a, num_of b with
      | Some x, Some y => ret (x ?= y)%Q
      | _, _ => raise TypeError
      end
  end.

Definition py_lt (a b : pyval) : result bool :=
  bind (py_order a b) (fun c => ret match c with Lt => true | _ => false end).
Definition py_le (a b : pyval) : result bool :=
  bind (py_order a b) (fun c => ret match c with Gt => false | _ => true end).
Definition py_gt (a b : pyval) : result bool :=
  bind (py_order a b) (fun c => ret match c with Gt => true | _ => false end).
Definition py_ge (a b : pyval) : result bool :=
  bind (py_order a b) (fun c => ret match c with Lt => false | _ => true end).

(** [a in b] *)
Definition py_in (a b : pyval) : result bool :=
  match b with
  | PyStr s =>
      match a with
      | PyStr p => ret (str_contains s p)
      | _ => raise TypeError
      end
  | PyList l => ret (existsb (py_eq a) l)
  | PyDict d =>
      match a with
      | PyList _ | PyDict _ => raise TypeError      (* unhashable *)
      | PyStr k => ret (dict_mem k d)
      | _ => ret false
      end
  | _ => raise TypeError
  end.

(** [len(v)] *)
Definition py_len (v : pyval) : result Z :=
  match v with
  | PyStr s => ret (str_len s)
  | PyList l => ret (Z.of_nat (length l))
  | PyDict d => ret (Z.of_nat (length d))
  | _ => raise TypeError
  end.

(** [str(v)], given [repr] for the values that are not strings. *)
Definition py_str (repr : pyval -> string) (v : pyval) : string :=
  match v with PyStr s => s | _ => repr v end.

End Py.

(** ** Circuit breaker ([class CircuitBreaker], src/mcp/d365_tool.py) *)

Module CircuitBreaker.

(** [self._state]: one of the strings "closed", "open", "half-open". *)
Inductive State := closed | open | half_open.

Record t := mk {
  _failure_count : Z;
  _failure_threshold : Z;
  _recovery_timeout : Q;
  _state : State;
  _last_failure_time : option Q   (* Optional[float], None at start *)
}.

(** [__init__] *)
Definition init (failure_threshold : Z) (recovery_timeout : Q) : t :=
  mk 0 failure_threshold recovery_timeout closed None.

Definition set_state (b : t) (s : State) : t :=
  mk (_failure_count b) (_failure_threshold b) (_recovery_timeout b) s
     (_last_failure_time b).

(** [reset] *)
Definition reset (b : t) : t :=
  mk 0 (_failure_threshold b) (_recovery_timeout b) closed None.

(** How the awaited coroutine ends: it returns a value, it raises an
    [Exception], or it raises a [BaseException] that is not an
    [Exception] ([asyncio.CancelledError] when the task is cancelled,
    [KeyboardInterrupt], [SystemExit]). *)
Inductive completion (V E X : Type) :=
| Returns (v : V)
| RaisesException (e : E)
| RaisesBase (x : X).
Arguments Returns {V E X} v.
Arguments RaisesException {V E X} e.
Arguments RaisesBase {V E X} x.

(** How a [call] ends.  [Returned], [Raised] and [Interrupted] carry what
    the wrapped function produced: a value, an [Exception] re-raised by
    the handler, a [BaseException] that no handler of [call] catches;
    [CircuitBreakerOpen] is the breaker's own exception; [TypeError] is
    the subtraction [time.time() - None]. *)
Inductive outcome (V E X : Type) :=
| Returned (v : V)
| Raised (e : E)
| Interrupted (x : X)
| CircuitBreakerOpen
| TypeError.
Arguments Returned {V E X} v.
Arguments Raised {V E X} e.
Arguments Interrupted {V E X} x.
Arguments CircuitBreakerOpen {V E X}.
Arguments TypeError {V E X}.

Section Call.
(** The world the wrapped coroutine acts on; [time.time()] reads it. *)
Context {World V E X : Type}.
Variable clock : World -> Q.

(** The wrapped coroutine: returns a value or raises, and changes the
    world (at least, time passes). *)
Definition func : Type := World -> completion V E X * World.

(** First locked block of [call]: the admission decision. *)
Definition admission (b : t) (w : World) : outcome V E X + t :=
  match _state b with
  | open =>
      match _last_failure_time b with
      | None => inl TypeError
      | Some last =>
          if Qlt_bool (_recovery_timeout b) (clock w - last)
          then inr (set_state b half_open)
          else inl CircuitBreakerOpen
      end
  | _ => inr b
  end.

(** Locked block after a successful [await func(...)]. *)
Definition on_success (b : t) : t :=
  mk 0 (_failure_threshold b) (_recovery_timeout b) closed
     (_last_failure_time b).

(** Locked block of the [except Exception] handler. *)
Definition on_failure (b : t) (w : World) : t :=
  let count := _failure_count b + 1 in
  mk count (_failure_threshold b) (_recovery_timeout b)
     (if count >=? _failure_threshold b then open else _state b)
     (Some (clock w)).

(** [async def call(self, func, *args, **kwargs)].  The [try] has the one
    handler [except Exception]: a [BaseException] raised by the coroutine
    runs neither the success block nor the handler, so the breaker stays
    as the admission block left it. *)
Definition call (b : t) (f : func) (w : World) : outcome V E X * t * World :=
  match admission b w with
  | inl err => (err, b, w)
  | inr b1 =>
      match f w with
      | (Returns v, w') => (Returned v, on_success b1, w')
      | (RaisesException e, w') => (Raised e, on_failure b1 w', w')
      | (RaisesBase x, w') => (Interrupted x, b1, w')
      end
  end.

(** A call that was admitted and whose wrapped function raised an
    [Exception]. *)
Definition failing_call (b b' : t) : Prop :=
  exists (f : func) (w w' : World) (e : E),
    call b f w = (Raised e, b', w').

(** [n] failing calls in a row. *)
Inductive consecutive_failures : nat -> t -> t -> Prop :=
| cf_nil b : consecutive_failures O b b
| cf_cons n b b1 b2 :
    failing_call b b1 ->
    consecutive_failures n b1 b2 ->
    consecutive_failures (S n) b b2.

End Call.
End CircuitBreaker.

(** ** Retry loop of the external-tool adapter
    ([D365MCPTool._execute_with_retry], src/mcp/d365_tool.py) *)

Module D365MCPTool.

(** The part of an HTTP error response the loop reads:
    [e.response.status_code] and [e.response.headers.get("Retry-After")]. *)
Record Response := mkResponse {
  status_code : Z;
  retry_after_header : option string
}.

(** What an attempt can raise, by [except] clause. *)
Inductive error :=
| HTTPStatusError (r : Response)
| TransientError (name : string)   (* ConnectionError, TimeoutError, OSError *)
| OtherException (e : Py.exn).

(** What the loop does besides calling the tool. *)
Inductive event :=
| EvAttempt (attempt : Z)
| EvRefresh
| EvSleep (seconds : Q).

Definition is_refresh (ev : event) : bool :=
  match ev with EvRefresh => true | _ => false end.

(** [range(n)] *)
Definition range (n : Z) : list Z := map Z.of_nat (seq 0 (Z.to_nat n)).

Definition Qmin (x y : Q) : Q := if Qle_bool x y then x else y.

Section Retry.
Context {World V : Type}.

(** Collaborators: one tool call without retry, the token provider's
    refresh, [asyncio.sleep] and the builtin [int] on a header string. *)
Variable _execute_tool_call : World -> (error + V) * World.
Variable provider_refresh_token : World -> (error + string) * World.
Variable sleep : Q -> World -> World.
Variable int_of_str : string -> option Z.

Record tool := mkTool {
  _max_retries : Z;
  _retry_backoff_base : Q;
  _retry_backoff_max : Q;
  _http_client : option string;    (* the Authorization header, if a client exists *)
  world : World;
  trace : list event               (* most recent first *)
}.

Definition with_world (t : tool) (w : World) : tool :=
  mkTool (_max_retries t) (_retry_backoff_base t) (_retry_backoff_max t)
         (_http_client t) w (trace t).
Definition log (ev : event) (t : tool) : tool :=
  mkTool (_max_retries t) (_retry_backoff_base t) (_retry_backoff_max t)
         (_http_client t) (world t) (ev :: trace t).
Definition set_header (h : string) (t : tool) : tool :=
  mkTool (_max_retries t) (_retry_backoff_base t) (_retry_backoff_max t)
         (Some h) (world t) (trace t).

(** [async def refresh_token(self)] *)
Definition refresh_token (t : tool) : option error * tool :=
  match _http_client t with
  | None => (None, t)
  | Some _ =>
      let t := log EvRefresh t in
      match provider_refresh_token (world t) with
      | (inr token, w') => (None, set_header ("Bearer " ++ token) (with_world t w'))
      | (inl e, w') => (Some e, with_world t w')
      end
  end.

(** [int(e.response.headers.get("Retry-After", 5))] *)
Definition retry_after_of (r : Response) : option Z :=
  match retry_after_header r with
  | None => Some 5
  | Some s => int_of_str s
  end.

(** The body of [for attempt in range(self._max_retries + 1)], on the
    attempts that remain. *)
Fixpoint attempts (todo : list Z) (last_error : option error) (t : tool)
  : (error + V) * tool :=
  match todo with
  | [] =>
      (* raise last_error or RuntimeError("Max retries exceeded") *)
      match last_error with
      | Some e => (inl e, t)
      | None => (inl (OtherException (Py.RuntimeError "Max retries exceeded")), t)
      end
  | attempt :: todo' =>
      let t := log (EvAttempt attempt) t in
      match _execute_tool_call (world t) with
      | (inr v, w') => (inr v, with_world t w')
      | (inl (HTTPStatusError r), w') =>
          let t := with_world t w' in
          if (status_code r =? 401) && (attempt <? _max_retries t) then
            match refresh_token t with
            | (None, t') => attempts todo' last_error t'
            | (Some e, t') => (inl e, t')
            end
          else if status_code r =? 429 then
            match retry_after_of r with
            | None => (inl (OtherException Py.ValueError), t)
            | Some retry_after =>
                if attempt <? _max_retries t then
                  let t := log (EvSleep (inject_Z retry_after)) t in
                  attempts todo' last_error
                           (with_world t (sleep (inject_Z retry_after) (world t)))
                else (inl (HTTPStatusError r), t)
            end
          else (inl (HTTPStatusError r), t)
      | (inl (TransientError n), w') =>
          let t := with_world t w' in
          if attempt <? _max_retries t then
            let backoff :=
              Qmin (_retry_backoff_base t * inject_Z (2 ^ attempt))
                   (_retry_backoff_max t) in
            let t := log (EvSleep backoff) t in
            attempts todo' (Some (TransientError n))
                     (with_world t (sleep backoff (world t)))
          else (inl (TransientError n), t)
      | (inl (OtherException e), w') => (inl (OtherException e), with_world t w')
      end
  end.

(** [async def _execute_with_retry(self, tool_name, arguments, chat_id, user_id)] *)
Definition _execute_with_retry (t : tool) : (error + V) * tool :=
  attempts (range (_max_retries t + 1)) None t.

(** The token refreshes in the trace of the tool. *)
Definition refreshes (t : tool) : nat :=
  length (List.filter is_refresh (trace t)).

End Retry.
End D365MCPTool.

(** ** Rate limiter ([class RateLimiter], src/security/rate_limiter.py) *)

Module RateLimiter.

Record RateLimitConfig := mkConfig {
  enabled : bool;
  requests_per_minute : Z;
  requests_per_hour : Z;
  tokens_per_minute : Z;
  tokens_per_hour : Z;
  max_concurrent_requests : Z;
  per_user : bool;
  burst_multiplier : Py.float
}.

(** The literal [1.5]. *)
Definition one_and_a_half : Py.float := Py.float_of_decimal 15 1.

(** The dataclass defaults. *)
Definition default_config : RateLimitConfig :=
  mkConfig true 60 1000 100000 1000000 10 true one_and_a_half.

(** [int(limit * self.config.burst_multiplier)]: the limit is converted
    to a double, the product is rounded to a double, and [int] truncates
    it; the conversions raise outside their range. *)
Definition burst_ceiling (limit : Z) (burst_multiplier : Py.float) : Py.result Z :=
  Py.bind (Py.int_mul_float limit burst_multiplier) Py.int_of_float.

Record RateLimitState := mkState {
  count : Z;
  tokens : Z;
  window_start : Q;
  concurrent : Z
}.

(** [RateLimitState()], whose [window_start] defaults to [time.time()]. *)
Definition fresh_state (t : Q) : RateLimitState := mkState 0 0 t 0.

Inductive limit_kind :=
| concurrent_limit | requests_per_minute_limit
| requests_per_hour_limit | tokens_per_minute_limit.

(** [RateLimitExceeded]: the limit type, [retry_after], and the two
    numbers its message shows ("{shown_used}/{shown_limit} ..."). *)
Record RateLimitExceeded := mkExceeded {
  limit_type : limit_kind;
  retry_after : Q;
  shown_used : Z;
  shown_limit : Z
}.

Record t := mk {
  config : RateLimitConfig;
  _user_minute_state : gmap string RateLimitState;
  _user_hour_state : gmap string RateLimitState;
  _global_minute_state : RateLimitState;
  _global_hour_state : RateLimitState;
  _concurrent_requests : gmap string Z;
  _global_concurrent : Z
}.

(** [__init__]; [t0] is the clock when the two global windows are built. *)
Definition init (cfg : RateLimitConfig) (t0 : Q) : t :=
  mk cfg ∅ ∅ (fresh_state t0) (fresh_state t0) ∅ 0.

Definition set_user_minute (l : t) (m : gmap string RateLimitState) : t :=
  mk (config l) m (_user_hour_state l) (_global_minute_state l)
     (_global_hour_state l) (_concurrent_requests l) (_global_concurrent l).
Definition set_user_hour (l : t) (m : gmap string RateLimitState) : t :=
  mk (config l) (_user_minute_state l) m (_global_minute_state l)
     (_global_hour_state l) (_concurrent_requests l) (_global_concurrent l).
Definition set_global_minute (l : t) (s : RateLimitState) : t :=
  mk (config l) (_user_minute_state l) (_user_hour_state l) s
     (_global_hour_state l) (_concurrent_requests l) (_global_concurrent l).
Definition set_global_hour (l : t) (s : RateLimitState) : t :=
  mk (config l) (_user_minute_state l) (_user_hour_state l)
     (_global_minute_state l) s (_concurrent_requests l) (_global_concurrent l).
Definition set_concurrent_requests (l : t) (m : gmap string Z) : t :=
  mk (config l) (_user_minute_state l) (_user_hour_state l)
     (_global_minute_state l) (_global_hour_state l) m (_global_concurrent l).
Definition set_global_concurrent (l : t) (z : Z) : t :=
  mk (config l) (_user_minute_state l) (_user_hour_state l)
     (_global_minute_state l) (_global_hour_state l) (_concurrent_requests l) z.

(** [user_id or "global"] *)
Definition identifier_of (user_id : option string) : string :=
  match user_id with
  | Some s => if String.eqb s EmptyString then "global" else s
  | None => "global"
  end.

(** Reading [d[k]] on a [defaultdict]: a missing key is first inserted
    with the factory's value. *)
Definition dd_read {A} (default : A) (k : string) (m : gmap string A)
  : A * gmap string A :=
  match m !! k with
  | Some v => (v, m)
  | None => (default, <[k := default]> m)
  end.

(** The minute window an operation works on, and how it writes it back:
    [self._user_minute_state[identifier] if self.config.per_user else
    self._global_minute_state].  [tm] is the clock the factory reads if
    it has to build the window. *)
Definition minute_state (l : t) (identifier : string) (tm : Q) : RateLimitState :=
  if per_user (config l)
  then fst (dd_read (fresh_state tm) identifier (_user_minute_state l))
  else _global_minute_state l.
Definition put_minute_state (l : t) (identifier : string) (s : RateLimitState) : t :=
  if per_user (config l)
  then set_user_minute l (<[identifier := s]> (_user_minute_state l))
  else set_global_minute l s.
Definition hour_state (l : t) (identifier : string) (th : Q) : RateLimitState :=
  if per_user (config l)
  then fst (dd_read (fresh_state th) identifier (_user_hour_state l))
  else _global_hour_state l.
Definition put_hour_state (l : t) (identifier : string) (s : RateLimitState) : t :=
  if per_user (config l)
  then set_user_hour l (<[identifier := s]> (_user_hour_state l))
  else set_global_hour l s.

(** [if now - state.window_start >= length: state.count = 0;
    state.window_start = now] *)
Definition roll (length now : Q) (s : RateLimitState) : RateLimitState :=
  if Qle_bool length (now - window_start s)
  then mkState 0 (tokens s) now (concurrent s)
  else s.

(** [max(0, x)] on floats *)
Definition Qmax0 (x : Q) : Q := if Qle_bool 0 x then x else 0%Q.

(** [_cleanup_windows] *)
Definition _cleanup_windows (l : t) (now : Q) : t :=
  let l := set_user_minute l
    (filter (fun kv => ¬ (Qlt_bool 120 (now - window_start kv.2) = true))
            (_user_minute_state l)) in
  let l := set_user_hour l
    (filter (fun kv => ¬ (Qlt_bool 7200 (now - window_start kv.2) = true))
            (_user_hour_state l)) in
  set_concurrent_requests l
    (filter (fun kv => kv.2 ≠ 0) (_concurrent_requests l)).

(** [current] as [_check_concurrent_limit] reads it. *)
Definition current_concurrent (l : t) (identifier : string) : Z :=
  if per_user (config l)
  then fst (dd_read 0 identifier (_concurrent_requests l))
  else _global_concurrent l.

(** [_check_concurrent_limit] *)
Definition _check_concurrent_limit (l : t) (identifier : string)
  : option RateLimitExceeded * t :=
  let l' := if per_user (config l)
            then set_concurrent_requests l
                   (snd (dd_read 0 identifier (_concurrent_requests l)))
            else l in
  let current := current_concurrent l identifier in
  if current >=? max_concurrent_requests (config l)
  then (Some (mkExceeded concurrent_limit 1 current
                         (max_concurrent_requests (config l))), l')
  else (None, l').

(** [_check_request_limit]: [inr None] is the plain return, [inr (Some e)]
    raises [RateLimitExceeded], [inl ex] is an exception of the ceiling's
    arithmetic, raised after the minute window was rolled. *)
Definition _check_request_limit (l : t) (identifier : string) (now tm th : Q)
  : Py.result (option RateLimitExceeded) * t :=
  let minute := roll 60 now (minute_state l identifier tm) in
  let l := put_minute_state l identifier minute in
  match burst_ceiling (requests_per_minute (config l))
                      (burst_multiplier (config l)) with
  | inl ex => (inl ex, l)
  | inr max_requests =>
  if count minute >=? max_requests then
    (inr (Some (mkExceeded requests_per_minute_limit
                  (Qmax0 (60 - (now - window_start minute)))
                  (count minute) (requests_per_minute (config l)))), l)
  else
    let hour := roll 3600 now (hour_state l identifier th) in
    let l := put_hour_state l identifier hour in
    if count hour >=? requests_per_hour (config l) then
      (inr (Some (mkExceeded requests_per_hour_limit
                    (Qmax0 (3600 - (now - window_start hour)))
                    (count hour) (requests_per_hour (config l)))), l)
    else (inr None, l)
  end.

(** [_check_token_limit], with the same three ways to end. *)
Definition _check_token_limit (l : t) (identifier : string) (tokens_ : Z)
  (now tm : Q) : Py.result (option RateLimitExceeded) * t :=
  let minute := minute_state l identifier tm in
  let l := put_minute_state l identifier minute in
  match burst_ceiling (tokens_per_minute (config l))
                      (burst_multiplier (config l)) with
  | inl ex => (inl ex, l)
  | inr max_tokens =>
  if tokens minute + tokens_ >? max_tokens then
    (inr (Some (mkExceeded tokens_per_minute_limit
                  (Qmax0 (60 - (now - window_start minute)))
                  (tokens minute + tokens_) (tokens_per_minute (config l)))), l)
  else (inr None, l)
  end.

(** [check_limit]: [inr (inr true)] is [return True], [inl e] raises
    [RateLimitExceeded], [inr (inl ex)] is another exception, one of the
    ceiling's arithmetic.  [now] is [time.time()]; [tm], [th] are the
    readings the window factories take if they run. *)
Definition check_limit (l : t) (user_id : option string) (estimated_tokens : Z)
  (now tm th : Q) : (RateLimitExceeded + Py.result bool) * t :=
  if negb (enabled (config l)) then (inr (Py.ret true), l) else
  let identifier := identifier_of user_id in
  let l := _cleanup_windows l now in
  match _check_concurrent_limit l identifier with
  | (Some e, l) => (inl e, l)
  | (None, l) =>
      match _check_request_limit l identifier now tm th with
      | (inl ex, l) => (inr (Py.raise ex), l)
      | (inr (Some e), l) => (inl e, l)
      | (inr None, l) =>
          if estimated_tokens >? 0 then
            match _check_token_limit l identifier estimated_tokens now tm with
            | (inl ex, l) => (inr (Py.raise ex), l)
            | (inr (Some e), l) => (inl e, l)
            | (inr None, l) => (inr (Py.ret true), l)
            end
          else (inr (Py.ret true), l)
      end
  end.

(** [record_request] *)
Definition record_request (l : t) (user_id : option string) (tokens_used : Z)
  (tm th : Q) : t :=
  if negb (enabled (config l)) then l else
  let identifier := identifier_of user_id in
  let minute := minute_state l identifier tm in
  let l := put_minute_state l identifier
             (mkState (count minute + 1) (tokens minute + tokens_used)
                      (window_start minute) (concurrent minute)) in
  let hour := hour_state l identifier th in
  put_hour_state l identifier
    (mkState (count hour + 1) (tokens hour + tokens_used)
             (window_start hour) (concurrent hour)).

(** [acquire_concurrent_slot] *)
Definition acquire_concurrent_slot (l : t) (user_id : option string) : t :=
  if negb (enabled (config l)) then l else
  let identifier := identifier_of user_id in
  if per_user (config l) then
    set_concurrent_requests l
      (<[identifier := fst (dd_read 0 identifier (_concurrent_requests l)) + 1]>
         (_concurrent_requests l))
  else set_global_concurrent l (_global_concurrent l + 1).

(** [release_concurrent_slot] *)
Definition release_concurrent_slot (l : t) (user_id : option string) : t :=
  if negb (enabled (config l)) then l else
  let identifier := identifier_of user_id in
  if per_user (config l) then
    set_concurrent_requests l
      (<[identifier :=
           Z.max 0 (fst (dd_read 0 identifier (_concurrent_requests l)) - 1)]>
         (_concurrent_requests l))
  else set_global_concurrent l (Z.max 0 (_global_concurrent l - 1)).

(** One entry of the [get_usage] report. *)
Record usage_entry := mkUsage { used : Z; limit : Z; remaining : Z }.
Record usage := mkReport {
  requests_minute : usage_entry;
  requests_hour : usage_entry;
  tokens_minute : usage_entry;
  concurrent_used : Z;
  concurrent_cap : Z
}.

(** [get_usage]; [t0] is the clock the two throw-away defaults read. *)
Definition get_usage (l : t) (user_id : option string) (t0 : Q) : usage :=
  let identifier := identifier_of user_id in
  let minute := default (fresh_state t0) (_user_minute_state l !! identifier) in
  let hour := default (fresh_state t0) (_user_hour_state l !! identifier) in
  let cfg := config l in
  mkReport
    (mkUsage (count minute) (requests_per_minute cfg)
             (Z.max 0 (requests_per_minute cfg - count minute)))
    (mkUsage (count hour) (requests_per_hour cfg)
             (Z.max 0 (requests_per_hour cfg - count hour)))
    (mkUsage (tokens minute) (tokens_per_minute cfg)
             (Z.max 0 (tokens_per_minute cfg - tokens minute)))
    (default 0 (_concurrent_requests l !! identifier))
    (max_concurrent_requests cfg).

(** [reset]; [t0] is the clock for the rebuilt global windows. *)
Definition reset (l : t) (user_id : option string) (t0 : Q) : t :=
  match user_id with
  | Some u =>
      if String.eqb u EmptyString then init (config l) t0 else
      set_concurrent_requests
        (set_user_hour
           (set_user_minute l (delete u (_user_minute_state l)))
           (delete u (_user_hour_state l)))
        (delete u (_concurrent_requests l))
  | None => init (config l) t0
  end.

(** The operations a client can interleave. *)
Inductive op :=
| OpCheck (user_id : option string) (estimated_tokens : Z) (now tm th : Q)
| OpRecord (user_id : option string) (tokens_used : Z) (tm th : Q)
| OpAcquire (user_id : option string)
| OpRelease (user_id : option string)
| OpReset (user_id : option string) (t0 : Q).

Definition step (l : t) (o : op) : t :=
  match o with
  | OpCheck u est now tm th => snd (check_limit l u est now tm th)
  | OpRecord u n tm th => record_request l u n tm th
  | OpAcquire u => acquire_concurrent_slot l u
  | OpRelease u => release_concurrent_slot l u
  | OpReset u t0 => reset l u t0
  end.

Definition run (l : t) (ops : list op) : t := fold_left step ops l.

(** The counter the admission check compares with the cap, read without
    touching the store. *)
Definition concurrent_of (l : t) (user_id : option string) : Z :=
  if per_user (config l)
  then default 0 (_concurrent_requests l !! identifier_of user_id)
  else _global_concurrent l.

(** No stored concurrent counter is negative. *)
Definition counters_nonneg (l : t) : Prop :=
  (forall k v, _concurrent_requests l !! k = Some v -> 0 <= v) /\
  0 <= _global_concurrent l.

End RateLimiter.

(** ** Input validator ([class InputValidator], src/security/input_validator.py) *)

Module InputValidator.

Record ValidationConfig := mkConfig {
  max_question_length : Z;
  max_tool_param_length : Z;
  block_prompt_injection : bool;
  injection_patterns : list string;
  block_pii : bool;
  redact_pii : bool;
  blocked_patterns : list string
}.

(** The dataclass defaults. *)
Definition default_config : ValidationConfig :=
  mkConfig 32000 10000 true [] false false [].

Definition DEFAULT_INJECTION_PATTERNS : list string := [
  "ignore\s+(all\s+)?(previous|above|prior)\s+(instructions?|prompts?|rules?)";
  "disregard\s+(all\s+)?(previous|above|prior)\s+(instructions?|prompts?|rules?)";
  "forget\s+(all\s+)?(previous|above|prior)\s+(instructions?|prompts?|rules?)";
  "new\s+instructions?\s*:";
  "system\s*:\s*you\s+are";
  "<\s*system\s*>";
  "\[\s*system\s*\]";
  "override\s+(system|instructions?|rules?)";
  "pretend\s+you\s+are";
  "act\s+as\s+(if\s+you\s+are\s+)?a";
  "roleplay\s+as";
  "you\s+are\s+now\s+a";
  "from\s+now\s+on\s+you\s+are";
  "do\s+anything\s+now";
  "dan\s+mode";
  "developer\s+mode";
  "jailbreak";
  "bypass\s+(safety|filter|restriction)";
  "(print|show|reveal|display|output)\s+(your\s+)?(system\s+)?(prompt|instructions?)";
  "what\s+(are|is)\s+your\s+(system\s+)?(prompt|instructions?)";
  "```\s*(python|bash|shell|javascript|js)\s*\n\s*(import\s+os|subprocess|eval|exec)"
].

Definition PII_PATTERNS : list (string * string) := [
  ("email", "[a-zA-Z0-9._%+-]+@[a-zA-Z0-9.-]+\.[a-zA-Z]{2,}");
  ("phone", "(\+?1[-.\s]?)?\(?\d{3}\)?[-.\s]?\d{3}[-.\s]?\d{4}");
  ("ssn", "\b\d{3}[-.\s]?\d{2}[-.\s]?\d{4}\b");
  ("credit_card", "\b(?:4\d{3}|5[1-5]\d{2}|6011|3[47]\d{2})[-.\s]?\d{4}[-.\s]?\d{4}[-.\s]?\d{4}\b");
  ("ip_address", "\b(?:(?:25[0-5]|2[0-4][0-9]|[01]?[0-9][0-9]?)\.){3}(?:25[0-5]|2[0-4][0-9]|[01]?[0-9][0-9]?)\b");
  ("passport", "\b[A-Z]?\d{8,9}\b");
  ("drivers_license", "\b[A-Z]{1,2}\d{5,8}\b");
  ("bank_account", "\b\d{9}[-.\s]?\d{8,17}\b");
  ("iban", "\b[A-Z]{2}\d{2}[A-Z0-9]{11,30}\b");
  ("aws_access_key", "\bAKIA[0-9A-Z]{16}\b");
  ("aws_secret_key", "\b[A-Za-z0-9/+=]{40}\b");
  ("azure_connection_string", "DefaultEndpointsProtocol=https;AccountName=[^;]+;AccountKey=[^;]+")
].

(** [ValidationError]: the message is not modelled; [details] carries the
    two numbers of the length failure or the matched text. *)
Inductive details :=
| NoDetails
| LengthDetails (length max : Z)
| PatternDetails (pattern : string)
| PiiDetails (pii_types : list string).

Record ValidationError := mkError {
  validation_type : string;
  error_details : details
}.

(** Flags a pattern is compiled with. *)
Inductive flags := IgnoreCaseMultiline | IgnoreCase | NoFlags.

Section Validate.
(** The [re] module: [re.compile(p, flags).search(text)] gives the matched
    text ([match.group(0)]) or nothing; [pattern.sub(repl, text)]. *)
Variable re_search : flags -> string -> string -> option string.
Variable re_sub : string -> string -> string -> string.

(** [__init__]: [config.injection_patterns or DEFAULT_INJECTION_PATTERNS] *)
Definition _injection_patterns (cfg : ValidationConfig) : list string :=
  match injection_patterns cfg with
  | [] => DEFAULT_INJECTION_PATTERNS
  | ps => ps
  end.

(** [_detect_prompt_injection] *)
Fixpoint detect_in (patterns : list string) (text : string) : option string :=
  match patterns with
  | [] => None
  | p :: ps =>
      match re_search IgnoreCaseMultiline p text with
      | Some m => Some m
      | None => detect_in ps text
      end
  end.
Definition _detect_prompt_injection (cfg : ValidationConfig) (text : string)
  : option string :=
  detect_in (_injection_patterns cfg) text.

(** [_detect_pii]: the kinds found, in pattern order. *)
Definition _detect_pii (text : string) : list string :=
  map fst (List.filter
             (fun kp => match re_search NoFlags (snd kp) text with
                        | Some _ => true | None => false end)
             PII_PATTERNS).

(** [_redact_pii] *)
Definition _redact_pii (text : string) : string :=
  fold_left
    (fun text kp => re_sub (snd kp) ("[REDACTED-" ++ Py.upper (fst kp) ++ "]") text)
    PII_PATTERNS text.

(** The cap the length check uses. *)
Definition max_length (cfg : ValidationConfig) (context : string) : Z :=
  if String.eqb context "question"
  then max_question_length cfg
  else max_tool_param_length cfg.

(** [if self.config.block_prompt_injection: injection_match = ...;
    if injection_match:] -- an empty match is falsy. *)
Definition injection_hit (cfg : ValidationConfig) (text : string) : option string :=
  if block_prompt_injection cfg then
    match _detect_prompt_injection cfg text with
    | Some m => if String.eqb m EmptyString then None else Some m
    | None => None
    end
  else None.

(** [for pattern in self._blocked_patterns: if pattern.search(text)] *)
Definition blocked_hit (cfg : ValidationConfig) (text : string) : bool :=
  existsb (fun p => match re_search IgnoreCase p text with
                    | Some _ => true | None => false end)
          (blocked_patterns cfg).

(** [validate(self, text, context="question")] *)
Definition validate (cfg : ValidationConfig) (text context : string)
  : ValidationError + string :=
  if Py.str_len text >? max_length cfg context then
    inl (mkError "length"
                 (LengthDetails (Py.str_len text) (max_length cfg context)))
  else
    match injection_hit cfg text with
    | Some m => inl (mkError "prompt_injection" (PatternDetails m))
    | None =>
        if blocked_hit cfg text then inl (mkError "blocked_content" NoDetails)
        else
          match (if block_pii cfg then _detect_pii text else []) with
          | _ :: _ as found => inl (mkError "pii" (PiiDetails found))
          | [] => inr (if redact_pii cfg then _redact_pii text else text)
          end
    end.

(** [validate_tool_call]: string parameters go through [validate] with
    context "tool_param"; the first failure is raised. *)
Fixpoint validate_params (cfg : ValidationConfig) (parameters : Py.dict)
  : ValidationError + Py.dict :=
  match parameters with
  | [] => inr []
  | (key, value) :: rest =>
      match (match value with
             | Py.PyStr s =>
                 match validate cfg s "tool_param" with
                 | inl e => inl e
                 | inr s' => inr (Py.PyStr s')
                 end
             | _ => inr value
             end) with
      | inl e => inl e
      | inr v =>
          match validate_params cfg rest with
          | inl e => inl e
          | inr rest' => inr ((key, v) :: rest')
          end
      end
  end.

Definition validate_tool_call (cfg : ValidationConfig) (tool_name : string)
  (parameters : Py.dict) (allowed_tools blocked_tools : option (list string))
  : ValidationError + (string * Py.dict) :=
  let mem := fun l => existsb (String.eqb tool_name) l in
  if match allowed_tools with Some allowed => negb (mem allowed) | None => false end
  then inl (mkError "tool_not_allowed" NoDetails)
  else if match blocked_tools with Some blocked => mem blocked | None => false end
  then inl (mkError "tool_blocked" NoDetails)
  else
    match validate_params cfg parameters with
    | inl e => inl e
    | inr ps => inr (tool_name, ps)
    end.

End Validate.
End InputValidator.

(** ** Condition evaluator and edge routing (src/loaders/workflows.py) *)

Module Workflows.
Import Py.

(** [match.groups()] of [CONDITION_PATTERN]: six groups, each of which
    may not have taken part in the match. *)
Record groups := mkGroups {
  g0 : option string; g1 : option string; g2 : option string;
  g3 : option string; g4 : option string; g5 : option string
}.

(** The standard-library functions the evaluator calls.  They are not
    part of the repository; the evaluator is defined for any behaviour
    they may have. *)
Record Runtime := mkRuntime {
  (** [json.loads(s)] *)
  json_loads : string -> result pyval;
  (** [int(s)] and [float(s)]; [None] is [ValueError] *)
  int_of_str : string -> option Z;
  float_of_str : string -> option Q;
  (** [repr(v)] *)
  repr : pyval -> string;
  (** [re.split(pattern, s, flags=re.IGNORECASE)] *)
  re_split : string -> string -> list string;
  (** [re.compile(pattern, re.IGNORECASE).match(s)], as its [groups()] *)
  re_match : string -> string -> option groups;
  (** [sys.getrecursionlimit()], as the frames left for the evaluator *)
  recursion_limit : nat
}.

(** The class attribute [CONDITION_PATTERN], as its source text. *)
Definition CONDITION_PATTERN : string :=
  "^(?:output\.(\w+(?:\.\w+)*))\s*(==|!=|>=?|<=?|in|not in|contains)\s*(.+)$|^(.+?)\s+(in|not in)\s+(?:output\.(\w+(?:\.\w+)*))$".

Section Evaluator.
Variable rt : Runtime.

(** [OPERATORS.get(op_str)] *)
Definition OPERATORS (op_str : string)
  : option (pyval -> pyval -> result bool) :=
  if String.eqb op_str "==" then Some (fun a b => ret (py_eq a b))
  else if String.eqb op_str "!=" then Some (fun a b => ret (negb (py_eq a b)))
  else if String.eqb op_str ">" then Some py_gt
  else if String.eqb op_str ">=" then Some py_ge
  else if String.eqb op_str "<" then Some py_lt
  else if String.eqb op_str "<=" then Some py_le
  else if String.eqb op_str "in" then Some py_in
  else if String.eqb op_str "not in"
       then Some (fun a b => bind (py_in a b) (fun r => ret (negb r)))
  else if String.eqb op_str "contains" then Some (fun a b => py_in b a)
  else None.

(** [_get_field_value] *)
Fixpoint walk (parts : list string) (value : pyval) : pyval :=
  match parts with
  | [] => value
  | part :: parts' =>
      match value with
      | PyDict d => walk parts' (dict_get_default part PyNone d)
      | _ => PyNone
      end
  end.
Definition _get_field_value (obj : pyval) (field_path : string) : pyval :=
  walk (split "." field_path) obj.

(** [_parse_value] *)
Definition _parse_value (value_str : string) : result pyval :=
  let value_str := strip value_str in
  let squote := "'" in
  let dq := String dquote EmptyString in
  if (startswith value_str squote && endswith value_str squote)
     || (startswith value_str dq && endswith value_str dq)
  then ret (PyStr (slice_1_m1 value_str))
  else if startswith value_str "[" && endswith value_str "]" then
    match json_loads rt (replace_char "'" dquote value_str) with
    | inr v => ret v
    | inl ValueError | inl JSONDecodeError => ret (PyStr value_str)
    | inl e => raise e
    end
  else if String.eqb (lower value_str) "true" then ret (PyBool true)
  else if String.eqb (lower value_str) "false" then ret (PyBool false)
  else if String.eqb (lower value_str) "none" || String.eqb (lower value_str) "null"
  then ret PyNone
  else
    match (if str_contains value_str "."
           then option_map PyFloat (float_of_str rt value_str)
           else option_map PyInt (int_of_str rt value_str)) with
    | Some v => ret v
    | None => ret (PyStr value_str)
    end.

(** [all(f(p) for p in parts)] and [any(...)]: left to right, stopping at
    the first deciding element; a raise in an element propagates. *)
Fixpoint all_of (f : string -> result bool) (parts : list string) : result bool :=
  match parts with
  | [] => ret true
  | p :: ps => bind (f p) (fun b => if b then all_of f ps else ret false)
  end.
Fixpoint any_of (f : string -> result bool) (parts : list string) : result bool :=
  match parts with
  | [] => ret false
  | p :: ps => bind (f p) (fun b => if b then ret true else any_of f ps)
  end.

(** [s.lower()] and [s.strip()] on a group that may be [None]. *)
Definition method {A} (f : string -> A) (g : option string) : result A :=
  match g with
  | Some s => ret (f s)
  | None => raise AttributeError
  end.

(** The fallback at the end of [_evaluate_condition]:
    [str(output.get('text', output.get('raw', str(output))))] and the
    substring test. *)
Definition fallback (condition : string) (output : pyval) : result bool :=
  match output with
  | PyDict d =>
      let output_text :=
        py_str (repr rt)
          (dict_get_default "text"
             (dict_get_default "raw" (PyStr (py_str (repr rt) output)) d) d) in
      ret (str_contains (lower output_text) (lower condition))
  | _ => raise AttributeError
  end.

(** [_evaluate_condition]; [depth] is the number of frames left, and
    running out of them is Python's [RecursionError]. *)
Fixpoint _evaluate_condition (depth : nat) (condition : string) (output : pyval)
  : result bool :=
  match depth with
  | O => raise RecursionError
  | S depth' =>
      if str_contains (lower condition) " and " then
        all_of (fun p => _evaluate_condition depth' (strip p) output)
               (re_split rt "\s+and\s+" condition)
      else if str_contains (lower condition) " or " then
        any_of (fun p => _evaluate_condition depth' (strip p) output)
               (re_split rt "\s+or\s+" condition)
      else
        match re_match rt CONDITION_PATTERN condition with
        | Some g =>
            match g0 g, g3 g with
            | Some field_path, _ =>
                bind (method lower (g1 g)) (fun op_str =>
                bind (method strip (g2 g)) (fun value_str =>
                let field_value := _get_field_value output field_path in
                bind (_parse_value value_str) (fun compare_value =>
                match OPERATORS op_str with
                | Some op_func => op_func field_value compare_value
                | None => fallback condition output
                end)))
            | None, Some value =>
                let value_str := strip value in
                bind (method lower (g4 g)) (fun op_str =>
                bind (_parse_value value_str) (fun compare_value =>
                bind (method (_get_field_value output) (g5 g)) (fun field_value =>
                match OPERATORS op_str with
                | Some op_func => op_func compare_value field_value
                | None => fallback condition output
                end)))
            | None, None => fallback condition output
            end
        | None => fallback condition output
        end
  end.

(** The coercion of the output at the start of [evaluate]. *)
Definition coerce_output (output : pyval) : result pyval :=
  match output with
  | PyStr s =>
      match json_loads rt s with
      | inr (PyDict d) => ret (PyDict d)
      | inr _ => ret output
      | inl JSONDecodeError | inl TypeError =>
          ret (PyDict [("text", output); ("raw", output)])
      | inl e => raise e
      end
  | _ => ret output
  end.

(** [ConditionEvaluator.evaluate] *)
Definition evaluate (condition : string) (output : pyval) : result bool :=
  if String.eqb condition EmptyString then ret true else
  let condition := strip condition in
  bind (coerce_output output) (fun output =>
  match _evaluate_condition (recursion_limit rt) condition output with
  | inr b => ret b
  | inl _ => ret false      (* except Exception: ... return False *)
  end).

(** [class ConditionalEdge] *)
Record ConditionalEdge := mkEdge {
  from_agent : string;
  to_agent : string;
  condition : option string;
  priority : Z
}.

(** [sorted(conditional_edges, key=lambda e: e.priority, reverse=True)]:
    a stable sort, higher priority first. *)
Fixpoint insert_edge (e : ConditionalEdge) (l : list ConditionalEdge)
  : list ConditionalEdge :=
  match l with
  | [] => [e]
  | x :: l' =>
      if priority x <=? priority e then e :: l else x :: insert_edge e l'
  end.
Definition sorted_by_priority (l : list ConditionalEdge) : list ConditionalEdge :=
  fold_right insert_edge [] l.

(** [not edge.condition] *)
Definition no_condition (e : ConditionalEdge) : bool :=
  match condition e with
  | None => true
  | Some c => String.eqb c EmptyString
  end.

(** The [for edge in outgoing_edges] loop of [evaluate_next_agent]:
    [Some target] is a [return] from inside the loop, [None] is falling
    out of it. *)
Fixpoint route (outgoing : list ConditionalEdge) (agent_output : pyval)
  : result (option string) :=
  match outgoing with
  | [] => ret None
  | edge :: rest =>
      if no_condition edge then ret (Some (to_agent edge))
      else
        bind (evaluate (default EmptyString (condition edge)) agent_output) (fun hit =>
        if hit then ret (Some (to_agent edge)) else route rest agent_output)
  end.

(** [WorkflowManager.evaluate_next_agent]; [_workflow_edges] holds, per
    workflow, the edges as [_create_custom_workflow] stored them. *)
Definition evaluate_next_agent (_workflow_edges : gmap string (list ConditionalEdge))
  (workflow_name current_agent : string) (agent_output : pyval)
  : result (option string) :=
  let edges := default [] (_workflow_edges !! workflow_name) in
  let outgoing_edges :=
    List.filter (fun e => String.eqb (from_agent e) current_agent) edges in
  match outgoing_edges with
  | [] => ret None
  | _ =>
      bind (route outgoing_edges agent_output) (fun r =>
      match r with
      | Some target => ret (Some target)
      | None =>
          (* default_edge = next((e for e in outgoing_edges if not e.condition), None) *)
          match List.find no_condition outgoing_edges with
          | Some default_edge => ret (Some (to_agent default_edge))
          | None => ret None
          end
      end)
  end.

(** The part of [_create_custom_workflow] that stores the edges. *)
Definition store_edges (_workflow_edges : gmap string (list ConditionalEdge))
  (workflow_name : string) (conditional_edges : list ConditionalEdge)
  : gmap string (list ConditionalEdge) :=
  <[workflow_name := sorted_by_priority conditional_edges]> _workflow_edges.

End Evaluator.
End Workflows.

(** ** Chat history manager ([class ChatHistoryManager], src/memory/manager.py) *)

Module ChatHistory.
Import Py.

Definition AVG_CHARS_PER_TOKEN : Z := 4.
Definition DEFAULT_MAX_TOKENS : Z := 8000.
Definition SUMMARY_TARGET_TOKENS : Z := 2000.
Definition RECENT_MESSAGES_TO_KEEP : Z := 5.

Record SummarizationConfig := mkSummarization {
  enabled : bool;
  max_tokens : Z;
  summary_target_tokens : Z;
  recent_messages_to_keep : Z
}.

Definition default_summarization : SummarizationConfig :=
  mkSummarization true DEFAULT_MAX_TOKENS SUMMARY_TARGET_TOKENS
                  RECENT_MESSAGES_TO_KEEP.

(** The part of [MemoryConfig] the manager reads. *)
Record MemoryConfig := mkMemoryConfig {
  persistence_enabled : bool;       (* config.persistence.enabled *)
  summarization : SummarizationConfig
}.

(** *** Schema validation (pure) *)

Definition allowed_roles : list string :=
  ["system"; "user"; "assistant"; "tool"; "function"].

(** [msg["role"] not in [...]], negated *)
Definition role_allowed (role : pyval) : bool :=
  match role with
  | PyStr s => existsb (String.eqb s) allowed_roles
  | _ => false
  end.

(** [isinstance(content, (str, list, type(None)))] *)
Definition content_allowed (content : pyval) : bool :=
  match content with
  | PyStr _ | PyList _ | PyNone => true
  | _ => false
  end.

(** One turn of the [for i, msg in enumerate(messages)] loop. *)
Definition message_valid (msg : pyval) : bool :=
  match msg with
  | PyDict d =>
      match dict_get "role" d with
      | Some role => role_allowed role
      | None => true
      end
      && match dict_get "content" d with
         | Some content => content_allowed content
         | None => true
         end
  | _ => false
  end.

Definition metadata_fields : list string :=
  ["_created_at"; "_updated_at"; "_persisted_at"].

(** [value is not None and not isinstance(value, str)], negated *)
Definition metadata_valid (d : dict) (field : string) : bool :=
  match dict_get field d with
  | Some PyNone | Some (PyStr _) | None => true
  | Some _ => false
  end.

(** [_validate_thread_data] *)
Definition _validate_thread_data (thread_data : pyval) : bool :=
  match thread_data with
  | PyDict d =>
      match dict_get "messages" d with
      | Some (PyList messages) => forallb message_valid messages
      | Some _ => false
      | None => true
      end
      && forallb (metadata_valid d) metadata_fields
  | _ => false
  end.

(** *** Merge of two thread blobs (pure, may raise) *)

(** The [for msg in existing_msgs + new_msgs] loop, with its [seen] set. *)
Fixpoint dedupe (repr : pyval -> string) (seen : list string) (msgs : list pyval)
  : result (list pyval) :=
  match msgs with
  | [] => ret []
  | msg :: rest =>
      match msg with
      | PyDict d =>
          let key := (py_str repr (dict_get_default "content" (PyStr EmptyString) d)
                      ++ py_str repr (dict_get_default "timestamp" (PyStr EmptyString) d))%string in
          if existsb (String.eqb key) seen
          then dedupe repr seen rest
          else bind (dedupe repr (key :: seen) rest) (fun l => ret (msg :: l))
      | _ => raise AttributeError
      end
  end.

(** [_merge_thread_data(existing, new)] *)
Definition _merge_thread_data (repr : pyval -> string) (existing : pyval)
  (new : dict) : result dict :=
  match existing with
  | PyDict ex =>
      let merged := dict_merge ex new in
      let merged :=
        match dict_get "_created_at" ex with
        | Some c => dict_set "_created_at" c merged
        | None => merged
        end in
      let existing_msgs := dict_get_default "messages" (PyList []) ex in
      let new_msgs := dict_get_default "messages" (PyList []) new in
      bind
        (if dict_mem "messages" ex && dict_mem "messages" new then
           bind (py_len new_msgs) (fun ln =>
           bind (py_len existing_msgs) (fun le =>
           if ln >=? le then ret (dict_set "messages" new_msgs merged)
           else
             match existing_msgs, new_msgs with
             | PyList a, PyList b =>
                 bind (dedupe repr [] (a ++ b)) (fun all_msgs =>
                 ret (dict_set "messages" (PyList all_msgs) merged))
             | PyStr _, PyStr _ => raise AttributeError
             | _, _ => raise TypeError
             end))
         else ret merged)
        (fun merged =>
           (* the three [len(...)] in the arguments of [logger.debug] *)
           bind (py_len existing_msgs) (fun _ =>
           bind (py_len new_msgs) (fun _ =>
           bind (py_len (dict_get_default "messages" (PyList []) merged)) (fun _ =>
           ret merged))))
  | _ => raise TypeError
  end.

(** [existing.get("_merge_count", 0) + 1] *)
Definition next_merge_count (existing : pyval) : result pyval :=
  match existing with
  | PyDict ex =>
      match dict_get_default "_merge_count" (PyInt 0) ex with
      | PyInt n => ret (PyInt (n + 1))
      | PyBool b => ret (PyInt ((if b then 1 else 0) + 1))
      | PyFloat q => ret (PyFloat (q + 1))
      | _ => raise TypeError
      end
  | _ => raise AttributeError
  end.

(** What [_persist_with_merge] hands to the store, before the store is
    called: the merge, the counter and the two stamps.  (When nothing is
    stored the blob is [new_data] itself, which the stamps then change in
    place for the caller too.) *)
Definition merged_blob (repr : pyval -> string) (existing : pyval)
  (new_data : dict) (persisted_at : string) : result dict :=
  bind (if truthy existing then
          bind (_merge_thread_data repr existing new_data) (fun merged =>
          bind (next_merge_count existing) (fun n =>
          ret (dict_set "_merge_count" n merged)))
        else ret new_data)
       (fun merged =>
          ret (dict_set "_persisted_at" (PyStr persisted_at)
                 (dict_set "_persisted" (PyBool true) merged))).

(** *** The manager's state and its collaborators *)

(** How the token estimate sees one element of [thread.messages]:
    an object with a [content] attribute, a dict, or anything else
    (of which only [str(msg)] is used). *)
Inductive message_view :=
| MsgObject (content : pyval)
| MsgDict (d : dict)
| MsgOther (text : string).

(** What [agent.run] returned, as [_generate_summary] inspects it:
    its truth value, its [text] and [content] attributes when it has
    them, and itself when it is a [str]. *)
Record RunResult := mkRunResult {
  result_truthy : bool;
  result_text : option pyval;
  result_content : option pyval;
  result_str : option string
}.

(** Calls that leave the manager. *)
Inductive event :=
| EvGetNewThread
| EvDeserialize (clean_data : dict)
| EvSerialize
| EvRun (prompt : string)
| EvCacheGet (key : string)
| EvCacheSet (key : string) (value : pyval)
| EvPersistenceGet (key : string)
| EvPersistenceSave (key : string) (value : dict).

Definition is_deserialize (ev : event) : bool :=
  match ev with EvDeserialize _ => true | _ => false end.
Definition is_run (ev : event) : bool :=
  match ev with EvRun _ => true | _ => false end.

Section Manager.
Context {World Thread : Type}.

(** The chat agent ([agent_framework.ChatAgent]). *)
Record ChatAgent := mkAgent {
  get_new_thread : World -> result Thread * World;
  (** [None] when the agent has no [deserialize_thread] attribute *)
  deserialize_thread : option (dict -> World -> result Thread * World);
  run : string -> Thread -> World -> result RunResult * World
}.

(** The thread object: [thread.serialize()], the [messages] (or
    [_messages]) attribute when there is one, and [bool(thread)]. *)
Variable serialize : Thread -> World -> result dict * World.
Variable thread_messages : Thread -> option (list message_view).
Variable thread_truthy : Thread -> bool.

(** Modelled from the spec: the hot cache and the cold persistence store
    (src/memory/cache.py and src/memory/persistence.py are not among the
    sources), with the interface of section 6.1: [get(key)],
    [set(key, value)], [save(key, value)].  A missing key reads as
    [None]; [set] and [save] answer whether the write was accepted. *)
Variable cache_get : string -> World -> result pyval * World.
Variable cache_set : string -> pyval -> World -> result bool * World.
Variable persistence_get : string -> World -> result pyval * World.
Variable persistence_save : string -> dict -> World -> result bool * World.

(** [datetime.now(timezone.utc)] as a time stamp, [isoformat],
    [datetime.fromisoformat] ([None] is [ValueError]), [uuid.uuid4()]
    and [repr]. *)
Variable utcnow : World -> Q.
Variable isoformat : Q -> string.
Variable fromisoformat : string -> option Q.
Variable uuid4 : World -> string * World.
Variable repr : pyval -> string.

Record ChatSession := mkSession {
  chat_id : string;
  thread : Thread;
  created_at : Q;
  last_accessed : Q;
  message_count : pyval;
  persisted : pyval;
  summarized : bool;
  summary_count : Z;
  estimated_tokens : Z
}.

Record manager := mkManager {
  config : MemoryConfig;
  _agent : option ChatAgent;
  _sessions : gmap string ChatSession;
  world : World;
  calls : list event          (* most recent first *)
}.

Definition set_sessions (m : manager) (s : gmap string ChatSession) : manager :=
  mkManager (config m) (_agent m) s (world m) (calls m).

(** Assignments to the attributes of a session object. *)
Definition set_last_accessed (t : Q) (s : ChatSession) : ChatSession :=
  mkSession (chat_id s) (thread s) (created_at s) t (message_count s)
            (persisted s) (summarized s) (summary_count s) (estimated_tokens s).
Definition set_message_count (n : pyval) (s : ChatSession) : ChatSession :=
  mkSession (chat_id s) (thread s) (created_at s) (last_accessed s) n
            (persisted s) (summarized s) (summary_count s) (estimated_tokens s).
Definition set_persisted (b : pyval) (s : ChatSession) : ChatSession :=
  mkSession (chat_id s) (thread s) (created_at s) (last_accessed s)
            (message_count s) b (summarized s) (summary_count s)
            (estimated_tokens s).
Definition set_estimated_tokens (n : Z) (s : ChatSession) : ChatSession :=
  mkSession (chat_id s) (thread s) (created_at s) (last_accessed s)
            (message_count s) (persisted s) (summarized s) (summary_count s) n.
(** [session.thread = new_thread; session.summarized = True;
    session.summary_count += 1] *)
Definition set_summarized (new_thread : Thread) (s : ChatSession) : ChatSession :=
  mkSession (chat_id s) new_thread (created_at s) (last_accessed s)
            (message_count s) (persisted s) true (summary_count s + 1)
            (estimated_tokens s).

(** *** A state-and-exception monad over the manager *)

Definition M (A : Type) : Type := manager -> result A * manager.
Definition mret {A} (a : A) : M A := fun m => (inr a, m).
Definition mraise {A} (e : exn) : M A := fun m => (inl e, m).
Definition mbind {A B} (c : M A) (k : A -> M B) : M B :=
  fun m => match c m with
           | (inr a, m') => k a m'
           | (inl e, m') => (inl e, m')
           end.
(** [try: c  except Exception: handler] -- state changes made before the
    raise stay. *)
Definition try_except {A} (c : M A) (handler : exn -> M A) : M A :=
  fun m => match c m with
           | (inr a, m') => (inr a, m')
           | (inl e, m') => handler e m'
           end.
Definition lift {A} (r : result A) : M A := fun m => (r, m).
Definition get_manager : M manager := fun m => (inr m, m).
Definition modify (f : manager -> manager) : M unit := fun m => (inr tt, f m).

(** A call to a collaborator: logged, and run on the world. *)
Definition external {A} (ev : event) (f : World -> result A * World) : M A :=
  fun m =>
    let '(r, w') := f (world m) in
    (r, mkManager (config m) (_agent m) (_sessions m) w' (ev :: calls m)).

Notation "'do' x <- c ; k" := (mbind c (fun x => k))
  (at level 10, x name, c at level 100, k at level 200).
Notation "c ;; k" := (mbind c (fun _ => k))
  (at level 100, k at level 200, right associativity).

(** [self._agent.<method>]: an unset agent is an [AttributeError]. *)
Definition the_agent : M ChatAgent :=
  fun m => match _agent m with
           | Some a => (inr a, m)
           | None => (inl AttributeError, m)
           end.

Definition now : M Q := fun m => (inr (utcnow (world m)), m).

Definition get_session (chat_id : string) : M (option ChatSession) :=
  fun m => (inr (_sessions m !! chat_id), m).
Definition put_session (chat_id : string) (s : ChatSession) : M unit :=
  modify (fun m => set_sessions m (<[chat_id := s]> (_sessions m))).

(** A mutation of the session object held under [chat_id]. *)
Definition update_session (chat_id : string) (f : ChatSession -> ChatSession)
  : M unit :=
  modify (fun m => set_sessions m (alter f chat_id (_sessions m))).

(** [_create_new_session] *)
Definition _create_new_session (chat_id : string) : M (string * Thread) :=
  do agent <- the_agent;
  do thread <- external EvGetNewThread (get_new_thread agent);
  do t <- now;
  put_session chat_id
    (mkSession chat_id thread t t (PyInt 0) (PyBool false) false 0 0) ;;
  mret (chat_id, thread).

(** [{k: v for k in clean_data if not k.startswith('_')}] *)
Definition strip_metadata (d : dict) : dict :=
  List.filter (fun kv => negb (startswith (fst kv) "_")) d.

(** [datetime.fromisoformat(thread_data.get("_created_at", <now>.isoformat()))] *)
Definition parse_created_at (d : dict) (t : Q) : result Q :=
  match dict_get_default "_created_at" (PyStr (isoformat t)) d with
  | PyStr s =>
      match fromisoformat s with
      | Some c => ret c
      | None => raise ValueError
      end
  | _ => raise TypeError
  end.

(** [_restore_session] *)
Definition _restore_session (chat_id : string) (thread_data : pyval)
  : M (string * Thread) :=
  try_except
    (if negb (_validate_thread_data thread_data) then
       _create_new_session chat_id
     else
       match thread_data with
       | PyDict d =>
           let clean_data := strip_metadata d in
           do agent <- the_agent;
           do deserialize <- lift (match deserialize_thread agent with
                                   | Some f => ret f
                                   | None => raise AttributeError
                                   end);
           do thread <- external (EvDeserialize clean_data) (deserialize clean_data);
           do t <- now;
           do created <- lift (parse_created_at d t);
           put_session chat_id
             (mkSession chat_id thread created t
                        (dict_get_default "_message_count" (PyInt 0) d)
                        (dict_get_default "_persisted" (PyBool false) d)
                        false 0 0) ;;
           mret (chat_id, thread)
       | _ => mraise TypeError   (* [dict(thread_data)] on a value that is no dict *)
       end)
    (fun _ => _create_new_session chat_id).

(** [get_or_create_thread] *)
Definition get_or_create_thread (chat_id : option string) : M (string * Thread) :=
  do m <- get_manager;
  match _agent m with
  | None => mraise (RuntimeError "Agent not set. Call set_agent() first.")
  | Some _ =>
      match chat_id with
      | None | Some EmptyString =>
          do fresh <- (fun m => let '(u, w') := uuid4 (world m) in
                                (inr u, mkManager (config m) (_agent m)
                                                  (_sessions m) w' (calls m)));
          _create_new_session fresh
      | Some chat_id =>
          match _sessions m !! chat_id with
          | Some session =>
              do t <- now;
              update_session chat_id (set_last_accessed t) ;;
              mret (chat_id, thread session)
          | None =>
              do cached <- external (EvCacheGet chat_id) (cache_get chat_id);
              if truthy cached then _restore_session chat_id cached
              else
                do found <-
                  (if persistence_enabled (config m) then
                     do persisted <- external (EvPersistenceGet chat_id)
                                              (persistence_get chat_id);
                     if truthy persisted then
                       external (EvCacheSet chat_id persisted)
                                (cache_set chat_id persisted) ;;
                       do r <- _restore_session chat_id persisted;
                       mret (Some r)
                     else mret None
                   else mret None);
                match found with
                | Some r => mret r
                | None => _create_new_session chat_id
                end
          end
      end
  end.

(** [_persist_with_merge] *)
Definition _persist_with_merge (chat_id : string) (new_data : dict) : M bool :=
  try_except
    (do existing <- external (EvPersistenceGet chat_id) (persistence_get chat_id);
     do t <- now;
     do merged <- lift (merged_blob repr existing new_data (isoformat t));
     do success <- external (EvPersistenceSave chat_id merged)
                            (persistence_save chat_id merged);
     (if success then update_session chat_id (set_persisted (PyBool true))
      else mret tt) ;;
     mret success)
    (fun _ => mret false).

(** [session.message_count += 1] *)
Definition py_incr (v : pyval) : result pyval :=
  match v with
  | PyInt n => ret (PyInt (n + 1))
  | PyBool b => ret (PyInt ((if b then 1 else 0) + 1))
  | PyFloat q => ret (PyFloat (q + 1))
  | _ => raise TypeError
  end.

(** [save_thread] *)
Definition save_thread (chat_id : string) (thread : Thread) (force_persist : bool)
  : M bool :=
  try_except
    (do thread_data <- external EvSerialize (serialize thread);
     do session <- get_session chat_id;
     do thread_data <-
       match session with
       | Some s =>
           do t <- now;
           update_session chat_id (set_last_accessed t) ;;
           do n <- lift (py_incr (message_count s));
           update_session chat_id (set_message_count n) ;;
           mret (dict_set "_message_count" n
                   (dict_set "_created_at" (PyStr (isoformat (created_at s)))
                             thread_data))
       | None => mret thread_data
       end;
     do t <- now;
     let thread_data := dict_set "_updated_at" (PyStr (isoformat t)) thread_data in
     do cached <- external (EvCacheSet chat_id (PyDict thread_data))
                           (cache_set chat_id (PyDict thread_data));
     do m <- get_manager;
     (if (force_persist || negb cached) && persistence_enabled (config m)
      then _persist_with_merge chat_id thread_data ;; mret tt
      else mret tt) ;;
     mret true)
    (fun _ => mret false).

(** *** Summarization *)

(** [estimate_tokens] *)
Definition estimate_tokens (text : string) : Z :=
  str_len text / AVG_CHARS_PER_TOKEN.

(** Characters one content block adds to the total. *)
Definition block_chars (block : pyval) : result Z :=
  match block with
  | PyDict b =>
      match dict_get "text" b with
      | Some text => py_len text
      | None => ret 0
      end
  | PyStr s => ret (str_len s)
  | _ => ret 0
  end.

Fixpoint sum_chars {A} (f : A -> result Z) (l : list A) : result Z :=
  match l with
  | [] => ret 0
  | x :: l' => bind (f x) (fun n => bind (sum_chars f l') (fun k => ret (n + k)))
  end.

(** Characters one message adds to the total. *)
Definition message_chars (msg : message_view) : result Z :=
  let content :=
    match msg with
    | MsgObject c => c
    | MsgDict d => dict_get_default "content" (PyStr EmptyString) d
    | MsgOther text => PyStr text
    end in
  match content with
  | PyStr s => ret (str_len s)
  | PyList blocks => sum_chars block_chars blocks
  | _ => ret 0
  end.

(** [estimate_thread_tokens] *)
Definition estimate_thread_tokens (thread : Thread) : Z :=
  match thread_messages thread with
  | Some messages =>
      match sum_chars message_chars messages with
      | inr total_chars => total_chars / AVG_CHARS_PER_TOKEN
      | inl _ => 0
      end
  | None => 0
  end.

(** [needs_summarization] *)
Definition needs_summarization (chat_id : string) : M bool :=
  do m <- get_manager;
  if negb (enabled (summarization (config m))) then mret false else
  match _sessions m !! chat_id with
  | None => mret false
  | Some session =>
      let estimated := estimate_thread_tokens (thread session) in
      update_session chat_id (set_estimated_tokens estimated) ;;
      mret (estimated >? max_tokens (summarization (config m)))
  end.

Definition newline : string := String (ascii_of_nat 10) EmptyString.

(** The text one message contributes to the summary prompt. *)
Definition format_message (msg : pyval) : result string :=
  match msg with
  | PyDict d =>
      let role := dict_get_default "role" (PyStr "unknown") d in
      let content := dict_get_default "content" (PyStr EmptyString) d in
      bind
        (match content with
         | PyList blocks =>
             let text_parts :=
               flat_map (fun block =>
                           match block with
                           | PyDict b =>
                               match dict_get "text" b with
                               | Some text => [text]
                               | None => []
                               end
                           | PyStr _ => [block]
                           | _ => []
                           end) blocks in
             (* ' '.join(text_parts) *)
             if forallb (fun v => match v with PyStr _ => true | _ => false end)
                        text_parts
             then ret (PyStr (join " " (map (py_str repr) text_parts)))
             else raise TypeError
         | _ => ret content
         end)
        (fun content =>
           bind (py_len content) (fun n =>
           bind
             (if n >? 1000 then
                match content with
                | PyStr s => ret (slice_to 1000 s ++ "...[truncated]")%string
                | _ => raise TypeError
                end
              else ret (py_str repr content))
             (fun content =>
                match role with
                | PyStr r => ret (upper r ++ ": " ++ content)%string
                | _ => raise AttributeError
                end)))
  | _ => raise AttributeError
  end.

Fixpoint format_lines (messages : list pyval) : result (list string) :=
  match messages with
  | [] => ret []
  | msg :: rest =>
      bind (format_message msg) (fun line =>
      bind (format_lines rest) (fun lines => ret (line :: lines)))
  end.

(** [_format_messages_for_summary] *)
Definition _format_messages_for_summary (messages : list pyval) : result string :=
  bind (format_lines messages) (fun lines =>
  ret (join (newline ++ newline) lines)).

Definition summary_prompt (target_tokens : Z) (conversation_text : string)
  : string :=
  ("Please provide a concise summary of the following conversation." ++ newline
   ++ "Focus on:" ++ newline
   ++ "1. Key topics discussed" ++ newline
   ++ "2. Important decisions or conclusions" ++ newline
   ++ "3. Any action items or pending questions" ++ newline
   ++ "4. Context that would be needed to continue the conversation" ++ newline
   ++ newline
   ++ "Keep the summary under " ++ pretty target_tokens ++ " tokens." ++ newline
   ++ newline
   ++ "CONVERSATION:" ++ newline
   ++ conversation_text ++ newline
   ++ newline
   ++ "SUMMARY:")%string.

(** [_generate_summary]; [PyNone] is the [None] it returns on failure. *)
Definition _generate_summary (agent : ChatAgent) (messages : list pyval)
  : M pyval :=
  do conversation_text <- lift (_format_messages_for_summary messages);
  do m <- get_manager;
  let prompt :=
    summary_prompt (summary_target_tokens (summarization (config m)))
                   conversation_text in
  try_except
    (do summary_thread <- external EvGetNewThread (get_new_thread agent);
     do result <- external (EvRun prompt) (run agent prompt summary_thread);
     mret (match result_truthy result, result_text result,
                 result_content result, result_str result with
           | true, Some text, _, _ => text
           | true, None, Some content, _ => content
           | _, _, _, Some s => PyStr s
           | _, _, _, None => PyNone
           end))
    (fun _ => mret PyNone).

(** [_create_summarized_thread] *)
Definition _create_summarized_thread (session : ChatSession) (summary : pyval)
  (recent_messages : list pyval) : M (option Thread) :=
  try_except
    (do agent <- the_agent;
     do new_thread <- external EvGetNewThread (get_new_thread agent);
     do t <- now;
     let summary_message :=
       PyDict [("role", PyStr "system");
               ("content",
                PyStr ("[CONVERSATION SUMMARY]" ++ newline
                       ++ py_str repr summary ++ newline
                       ++ "[END SUMMARY]" ++ newline ++ newline
                       ++ "The conversation continues below:")%string)] in
     let new_thread_data :=
       [("messages", PyList (summary_message :: recent_messages));
        ("_summarized", PyBool true);
        ("_summary_timestamp", PyStr (isoformat t));
        ("_original_message_count", message_count session);
        ("_created_at", PyStr (isoformat (created_at session)))] in
     match deserialize_thread agent with
     | Some deserialize =>
         let clean_data := strip_metadata new_thread_data in
         try_except
           (do restored <- external (EvDeserialize clean_data)
                                    (deserialize clean_data);
            mret (Some restored))
           (fun _ => mret (Some new_thread))
     | None => mret (Some new_thread)
     end)
    (fun _ => mret None).

(** [messages[:-keep_count] if keep_count > 0 else messages] and
    [messages[-keep_count:] if keep_count > 0 else []], for a value that
    is longer than [keep_count]. *)
Definition split_messages (keep_count : Z) (messages : pyval)
  : result (list pyval * list pyval) :=
  match messages with
  | PyList l =>
      if keep_count >? 0 then
        let cut := (length l - Z.to_nat keep_count)%nat in
        ret (firstn cut l, skipn cut l)
      else ret (l, [])
  | PyStr s => if String.eqb s EmptyString then ret ([], []) else raise AttributeError
  | PyDict d =>
      if keep_count >? 0 then raise TypeError
      else match d with [] => ret ([], []) | _ => raise AttributeError end
  | _ => raise TypeError
  end.

(** [summarize_if_needed] *)
Definition summarize_if_needed (chat_id : string)
  (summarizer_agent : option ChatAgent) : M bool :=
  do needed <- needs_summarization chat_id;
  if negb needed then mret false else
  do session <- get_session chat_id;
  match session with
  | None => mret false
  | Some session =>
      do m <- get_manager;
      match (match summarizer_agent with Some a => Some a | None => _agent m end) with
      | None => mret false
      | Some agent =>
          try_except
            (do thread_data <- external EvSerialize (serialize (thread session));
             let messages := dict_get_default "messages" (PyList []) thread_data in
             let keep_count := recent_messages_to_keep (summarization (config m)) in
             do n <- lift (py_len messages);
             if n <=? keep_count then mret false else
             do parts <- lift (split_messages keep_count messages);
             do summary <- _generate_summary agent (fst parts);
             if negb (truthy summary) then mret false else
             do new_thread <- _create_summarized_thread session summary (snd parts);
             match new_thread with
             | Some new_thread =>
                 if thread_truthy new_thread then
                   update_session chat_id (set_summarized new_thread) ;;
                   do _ <- save_thread chat_id new_thread false;
                   let new_tokens := estimate_thread_tokens new_thread in
                   update_session chat_id (set_estimated_tokens new_tokens) ;;
                   mret true
                 else mret false
             | None => mret false
             end)
            (fun _ => mret false)
      end
  end.

End Manager.
End ChatHistory.

(** ** What a run of limiter operations has recorded *)

Module Accounting.
Import RateLimiter.

(** [reset(user_id)] rebuilds the whole limiter when [user_id] is falsy. *)
Definition resets_all (user_id : option string) : bool :=
  match user_id with
  | Some u => String.eqb u EmptyString
  | None => true
  end.

(** The tokens passed to [record_request] since the last full reset, on
    top of [acc]. *)
Fixpoint tokens_recorded (acc : Z) (ops : list op) : Z :=
  match ops with
  | [] => acc
  | OpRecord _ n _ _ :: ops' => tokens_recorded (acc + n) ops'
  | OpReset u _ :: ops' => tokens_recorded (if resets_all u then 0 else acc) ops'
  | _ :: ops' => tokens_recorded acc ops'
  end.

End Accounting.

(** ** The evaluator seen from its callers *)

Module EvaluatorView.
Import Py Workflows.

(** The exceptions the guard around [json.loads] in [evaluate] catches:
    [except (json.JSONDecodeError, TypeError)]. *)
Definition is_caught (e : exn) : bool :=
  match e with
  | JSONDecodeError | TypeError => true
  | _ => false
  end.

(** What [json.loads] raises on a string output and the guard lets
    through, if anything: CPython's decoder raises [RecursionError] on
    deeply nested input and a plain [ValueError] on a number of more
    digits than the interpreter converts. *)
Definition json_escape (rt : Runtime) (output : pyval) : option exn :=
  match output with
  | PyStr s =>
      match json_loads rt s with
      | inl e => if is_caught e then None else Some e
      | inr _ => None
      end
  | _ => None
  end.

(** The loop of [evaluate_next_agent] ends at this edge: the edge has no
    condition, or the evaluation of its condition does not return
    [False]. *)
Definition stops (rt : Runtime) (agent_output : pyval) (e : ConditionalEdge) : bool :=
  no_condition e
  || match evaluate rt (default EmptyString (condition e)) agent_output with
     | inr false => false
     | _ => true
     end.

End EvaluatorView.

(** ** Histories of a circuit breaker and of the retry loop *)

Module CircuitBreakerRuns.
Import CircuitBreaker.

Section Runs.
Context {World V E X : Type}.
Variable clock : World -> Q.

(** What a client does with a breaker: a [call] of some coroutine in
    some world, or [reset()]. *)
Inductive op :=
| OpCall (f : @func World V E X) (w : World)
| OpReset.

(** The coroutine of the operation, run in its world, ends with a
    [BaseException] that is not an [Exception]. *)
Definition interrupts (o : op) : bool :=
  match o with
  | OpCall f w =>
      match fst (f w) with RaisesBase _ => true | _ => false end
  | OpReset => false
  end.

(** No coroutine of the run is cancelled or otherwise interrupted. *)
Definition uninterrupted (ops : list op) : bool :=
  forallb (fun o => negb (interrupts o)) ops.

Definition step (b : t) (o : op) : t :=
  match o with
  | OpCall f w => snd (fst (call clock b f w))
  | OpReset => reset b
  end.

Definition run (b : t) (ops : list op) : t := fold_left step ops b.

End Runs.
End CircuitBreakerRuns.

Module RetryTrace.
Import D365MCPTool.

Definition is_attempt (ev : event) : bool :=
  match ev with EvAttempt _ => true | _ => false end.
Definition is_sleep (ev : event) : bool :=
  match ev with EvSleep _ => true | _ => false end.

(** The tool calls and the sleeps in the trace of the tool. *)
Definition attempts_made {World} (t : @tool World) : nat :=
  length (List.filter is_attempt (trace t)).
Definition sleeps {World} (t : @tool World) : nat :=
  length (List.filter is_sleep (trace t)).

(** [min(base * 2**attempt, max)] *)
Definition backoff (base max : Q) (attempt : Z) : Q :=
  Qmin (base * inject_Z (2 ^ attempt)) max.


(** The collaborators of the loop on a world that also keeps what each
    tool call answered, most recent first. *)
Section Recorded.
Context {World V : Type}.
Variable _execute_tool_call : World -> (error + V) * World.
Variable provider_refresh_token : World -> (error + string) * World.
Variable sleep : Q -> World -> World.

Definition recorded_call (w : World * list (error + V))
  : (error + V) * (World * list (error + V)) :=
  let r := _execute_tool_call (fst w) in
  (fst r, (snd r, fst r :: snd w)).

Definition recorded_refresh (w : World * list (error + V))
  : (error + string) * (World * list (error + V)) :=
  let r := provider_refresh_token (fst w) in
  (fst r, (snd r, snd w)).

Definition recorded_sleep (seconds : Q) (w : World * list (error + V))
  : World * list (error + V) :=
  (sleep seconds (fst w), snd w).

End Recorded.

(** The answer is an HTTP error with status 401. *)
Definition is_401 {V} (answer : error + V) : bool :=
  match answer with
  | inl (HTTPStatusError r) => status_code r =? 401
  | _ => false
  end.

(** An attempt and its answer: a 401 while a retry is left. *)
Definition refreshed {V} (max_retries : Z) (p : Z * (error + V)) : bool :=
  is_401 (snd p) && (fst p <? max_retries).

End RetryTrace.

(** ** Module-level helpers of src/security/input_validator.py *)

Module InputHelpers.
Import InputValidator.

(** [text[:n]] for any integer [n]: a negative [n] counts from the end. *)
Definition slice_upto (n : Z) (text : string) : string :=
  if 0 <=? n then Py.slice_to (Z.to_nat n) text
  else Py.slice_to (Z.to_nat (Py.str_len text + n)) text.

Section Helpers.
Variable re_search : flags -> string -> string -> option string.
Variable re_sub : string -> string -> string -> string.

(** [detect_prompt_injection(text)]: [re.search(pattern, text,
    re.IGNORECASE | re.MULTILINE)] over the default patterns. *)
Definition detect_prompt_injection (text : string) : bool :=
  existsb (fun pattern =>
             match re_search IgnoreCaseMultiline pattern text with
             | Some _ => true
             | None => false
             end)
          DEFAULT_INJECTION_PATTERNS.

(** [sanitize_input(text, max_length=32000, redact_pii=False)] *)
Definition sanitize_input (text : string) (max_length : Z) (redact_pii : bool)
  : string :=
  let text := if Py.str_len text >? max_length
              then slice_upto max_length text else text in
  if redact_pii then
    fold_left
      (fun text kp =>
         re_sub (snd kp) ("[REDACTED-" ++ Py.upper (fst kp) ++ "]") text)
      PII_PATTERNS text
  else text.

End Helpers.
End InputHelpers.

(** ** What a manager operation leaves alone *)

Module SessionView.
Import ChatHistory.

Section View.
Context {World Thread : Type}.

(** The part of a session that only summarization writes. *)
Definition summary_state (s : @ChatSession Thread) : Thread * bool * Z :=
  (thread s, summarized s, summary_count s).

(** Two managers with the same configuration and agent whose sessions
    have the same ids, threads and summary marks. *)
Definition same_summaries (m m' : @manager World Thread) : Prop :=
  config m' = config m /\
  _agent m' = _agent m /\
  forall k, summary_state <$> (_sessions m' !! k)
            = summary_state <$> (_sessions m !! k).

(** A computation that changes no session's thread or summary marks,
    and one that does not raise. *)
Definition keeps {A} (c : @M World Thread A) : Prop :=
  forall m, same_summaries m (snd (c m)).
Definition returns {A} (c : @M World Thread A) : Prop :=
  forall m, exists a, fst (c m) = inr a.

End View.
End SessionView.

(** ** The key the merge of two thread blobs dedupes by *)

Module MergeView.
Import Py.


End MergeView.

(** ** Scenarios used to exercise the definitions *)

Module Scenarios.

(** *** Retry loop: the world counts the tool calls made so far. *)

Definition unauthorized : D365MCPTool.Response := D365MCPTool.mkResponse 401 None.

(** The tool answers 401 twice, then succeeds. *)
Definition two_401_then_ok (w : nat) : (D365MCPTool.error + string) * nat :=
  if (w <? 2)%nat
  then (inl (D365MCPTool.HTTPStatusError unauthorized), S w)
  else (inr "ok", S w).

(** The tool answers 401 every time. *)
Definition always_401 (w : nat) : (D365MCPTool.error + string) * nat :=
  (inl (D365MCPTool.HTTPStatusError unauthorized), S w).

Definition provider_ok (w : nat) : (D365MCPTool.error + string) * nat :=
  (inr "token", w).
Definition no_sleep (_ : Q) (w : nat) : nat := w.
Definition no_int (_ : string) : option Z := None.

(** A connected adapter with the default [max_retries=3]. *)
Definition connected_tool : @D365MCPTool.tool nat :=
  D365MCPTool.mkTool 3 1 30 (Some "Bearer old") 0%nat [].


(** *** Rate limiter: ten recorded requests against an hourly limit of ten. *)

Definition hourly_config : RateLimiter.RateLimitConfig :=
  RateLimiter.mkConfig true 60 10 100000 1000000 10 true RateLimiter.one_and_a_half.

Definition ten_requests : RateLimiter.t :=
  RateLimiter.run (RateLimiter.init hourly_config 0)
                  (repeat (RateLimiter.OpRecord (Some "u") 0 0 0) 10).


(** *** Input validator: a cap of three characters and patterns that
    never match. *)

Definition never_matches (_ : InputValidator.flags) (_ _ : string) : option string :=
  None.
Definition sub_nothing (_ _ text : string) : string := text.

Definition cap_three : InputValidator.ValidationConfig :=
  InputValidator.mkConfig 3 2 true [] false false [].


(** *** Condition evaluator: a runtime that answers as CPython does on
    the strings the examples use, and as on malformed input elsewhere. *)

Definition technical : string := "output.category == 'technical'".
Definition confident : string := "output.confidence > 0.8".
Definition not_billing : string := "output.category != 'billing'".
Definition error_in_text : string := "'error' in output.text".

Definition example_match (s : string) : option Workflows.groups :=
  if String.eqb s technical then
    Some (Workflows.mkGroups (Some "category") (Some "==") (Some "'technical'")
                             None None None)
  else if String.eqb s confident then
    Some (Workflows.mkGroups (Some "confidence") (Some ">") (Some "0.8")
                             None None None)
  else if String.eqb s not_billing then
    Some (Workflows.mkGroups (Some "category") (Some "!=") (Some "'billing'")
                             None None None)
  else if String.eqb s error_in_text then
    Some (Workflows.mkGroups None None None
                             (Some "'error'") (Some "in") (Some "text"))
  else None.

Definition example_runtime : Workflows.Runtime :=
  Workflows.mkRuntime
    (fun s => if String.eqb s "42" then inr (Py.PyInt 42)
              else inl Py.JSONDecodeError)
    (fun s => if String.eqb s "42" then Some 42 else None)
    (fun s => if String.eqb s "0.8" then Some (8 # 10) else None)
    (fun v => match v with Py.PyStr s => ("'" ++ s ++ "'")%string | _ => "{}" end)
    (fun _ s => [s])
    (fun pattern s =>
       if String.eqb pattern Workflows.CONDITION_PATTERN then example_match s
       else None)
    1000.

(** A runtime whose [json.loads] gives up, as CPython's does, on an array
    nested a hundred thousand deep ([RecursionError]) and on a number of
    five thousand digits ([ValueError], not a [JSONDecodeError]). *)
Definition deep_json : string :=
  Py.of_chars (repeat "["%char (Z.to_nat 100000)).
Definition long_number : string :=
  Py.of_chars (repeat "1"%char (Z.to_nat 5000)).

Definition cpython_runtime : Workflows.Runtime :=
  Workflows.mkRuntime
    (fun s => if String.eqb s deep_json then inl Py.RecursionError
              else if String.eqb s long_number then inl Py.ValueError
              else Workflows.json_loads example_runtime s)
    (Workflows.int_of_str example_runtime)
    (Workflows.float_of_str example_runtime)
    (Workflows.repr example_runtime)
    (Workflows.re_split example_runtime)
    (Workflows.re_match example_runtime)
    (Workflows.recursion_limit example_runtime).

Definition technical_output : Py.pyval :=
  Py.PyDict [("category", Py.PyStr "technical")].
Definition other_output : Py.pyval :=
  Py.PyDict [("category", Py.PyStr "other")].


(** *** Routing: a default edge declared before a conditional edge of the
    same priority. *)

Definition default_first : list Workflows.ConditionalEdge :=
  [Workflows.mkEdge "Triage" "Default" None 0;
   Workflows.mkEdge "Triage" "TechSupport" (Some technical) 0].

(** The workflow of the routing scenario of the specification: the
    default edge comes last and has the lowest priority. *)
Definition default_last : list Workflows.ConditionalEdge :=
  [Workflows.mkEdge "Triage" "TechSupport" (Some technical) 1;
   Workflows.mkEdge "Triage" "Default" None 0].


(** *** Chat history manager: the world counts the calls that left the
    manager; a thread is the list of its messages. *)

Definition thread_t : Type := list Py.pyval.

Definition clock_of (w : nat) : Q := inject_Z (Z.of_nat w).
Definition iso (_ : Q) : string := "1970-01-01T00:00:00+00:00".
Definition from_iso (_ : string) : option Q := Some 0%Q.
Definition repr_stub (_ : Py.pyval) : string := "<value>".

Definition messages_of (d : Py.dict) : list Py.pyval :=
  match Py.dict_get "messages" d with
  | Some (Py.PyList l) => l
  | _ => []
  end.

(** An agent whose threads deserialize from their message list and whose
    run always answers with the text "summary". *)
Definition scripted_agent : @ChatHistory.ChatAgent nat thread_t :=
  ChatHistory.mkAgent
    (fun w => (inr [], S w))
    (Some (fun d w => (inr (messages_of d), S w)))
    (fun _ _ w =>
       (inr (ChatHistory.mkRunResult true (Some (Py.PyStr "summary")) None None),
        S w)).

Definition serialize_thread (th : thread_t) (w : nat) : Py.result Py.dict * nat :=
  (inr [("messages", Py.PyList th)], S w).

Definition view_message (v : Py.pyval) : ChatHistory.message_view :=
  match v with
  | Py.PyDict d => ChatHistory.MsgDict d
  | _ => ChatHistory.MsgOther EmptyString
  end.
Definition view_thread (th : thread_t) : option (list ChatHistory.message_view) :=
  Some (map view_message th).

Definition cache_accepts (_ : string) (_ : Py.pyval) (w : nat) : Py.result bool * nat :=
  (inr true, S w).
Definition store_empty (_ : string) (w : nat) : Py.result Py.pyval * nat :=
  (inr Py.PyNone, S w).
Definition store_accepts (_ : string) (_ : Py.dict) (w : nat) : Py.result bool * nat :=
  (inr true, S w).

(** Summarize above one token, keep the two most recent messages. *)
Definition tight_budget : ChatHistory.MemoryConfig :=
  ChatHistory.mkMemoryConfig false (ChatHistory.mkSummarization true 1 100 2).

Definition empty_manager : @ChatHistory.manager nat thread_t :=
  ChatHistory.mkManager tight_budget (Some scripted_agent) ∅ 0%nat [].

(** A payload whose only message claims the role "admin". *)
Definition hostile_message : Py.dict :=
  [("role", Py.PyStr "admin"); ("content", Py.PyStr "hi")].
Definition hostile_payload : Py.dict :=
  [("messages", Py.PyList [Py.PyDict hostile_message])].

(** The same payload with an allowed role. *)
Definition friendly_payload : Py.dict :=
  [("messages", Py.PyList [Py.PyDict [("role", Py.PyStr "user");
                                      ("content", Py.PyStr "hi")]])].


(** *** Persist-with-merge: a store that is empty in world 0 and holds
    [stored_blob] in every other world. *)

Definition stored_blob : Py.dict :=
  [("messages", Py.PyList [Py.PyDict [("role", Py.PyStr "user");
                                      ("content", Py.PyStr "hi")]]);
   ("_created_at", Py.PyStr "2024-01-01T00:00:00+00:00");
   ("_persisted", Py.PyBool true);
   ("_merge_count", Py.PyInt 2)].

Definition store_by_world (_ : string) (w : nat) : Py.result Py.pyval * nat :=
  match w with
  | O => (inr Py.PyNone, 10%nat)
  | _ => (inr (Py.PyDict stored_blob), 10%nat)
  end.

Definition manager_at (w : nat) : @ChatHistory.manager nat thread_t :=
  ChatHistory.mkManager tight_budget (Some scripted_agent) ∅ w [].


(** *** Summarization: sessions over the token budget, with two and with
    three messages (two are kept). *)

Definition long_message : Py.pyval :=
  Py.PyDict [("role", Py.PyStr "user"); ("content", Py.PyStr "aaaaaaaa")].

Definition session_with (th : thread_t) : @ChatHistory.ChatSession thread_t :=
  ChatHistory.mkSession "c1" th 0 0 (Py.PyInt 0) (Py.PyBool false) false 0 0.

Definition manager_with (th : thread_t) : @ChatHistory.manager nat thread_t :=
  ChatHistory.mkManager tight_budget (Some scripted_agent)
                        {["c1" := session_with th]} 0%nat [].

Definition two_messages : thread_t := [long_message; long_message].
Definition three_messages : thread_t := [long_message; long_message; long_message].

Definition summarize (m : @ChatHistory.manager nat thread_t)
  : Py.result bool * @ChatHistory.manager nat thread_t :=
  ChatHistory.summarize_if_needed
    serialize_thread view_thread (fun _ => true) cache_accepts store_empty
    store_accepts clock_of iso repr_stub "c1" None m.


(** Three requests a minute with a burst of 1.5 (ceiling int(4.5) = 4),
    after four recorded requests; and ten tokens a minute with the same
    burst (ceiling 15), after ten recorded tokens. *)
Definition fractional_config : RateLimiter.RateLimitConfig :=
  RateLimiter.mkConfig true 3 1000 10 1000000 10 true RateLimiter.one_and_a_half.

Definition four_requests : RateLimiter.t :=
  RateLimiter.run (RateLimiter.init fractional_config 0)
                  (repeat (RateLimiter.OpRecord (Some "u") 0 0 0) 4).

Definition ten_tokens : RateLimiter.t :=
  RateLimiter.run (RateLimiter.init fractional_config 0)
                  [RateLimiter.OpRecord (Some "u") 10 0 0].


(** *** Rate limiter with a multiplier that is not a dyadic number:
    twenty requests a minute, a burst of 1.15, [n] requests recorded. *)

Definition burst_config (burst : Py.float) : RateLimiter.RateLimitConfig :=
  RateLimiter.mkConfig true 20 1000 100000 1000000 10 true burst.

Definition n_requests (n : nat) : RateLimiter.t :=
  RateLimiter.run
    (RateLimiter.init (burst_config (Py.float_of_decimal 115 2)) 0)
    (repeat (RateLimiter.OpRecord (Some "u") 0 0 0) n).

(** *** Rate limiter with [per_user] off: 40 tokens recorded, a check more
    than an hour later, 70 tokens recorded. *)

Definition global_config : RateLimiter.RateLimitConfig :=
  RateLimiter.mkConfig true 60 1000 100 1000000 10 false RateLimiter.one_and_a_half.

Definition global_ops : list RateLimiter.op :=
  [RateLimiter.OpRecord (Some "u") 40 0 0;
   RateLimiter.OpCheck (Some "v") 0 4000 4000 4000;
   RateLimiter.OpRecord None 70 4000 4000].

(** *** Rate limiter with the defaults: user "u" holds one slot. *)

Definition one_slot_held : list RateLimiter.op := [RateLimiter.OpAcquire (Some "u")].


(** *** Retry loop: a tool that times out every time, and one that
    answers 500. *)

(** The tool times out, then answers 401, then succeeds. *)
Definition timeout_401_ok (w : nat) : (D365MCPTool.error + string) * nat :=
  match w with
  | O => (inl (D365MCPTool.TransientError "TimeoutError"), S w)
  | S O => (inl (D365MCPTool.HTTPStatusError unauthorized), S w)
  | _ => (inr "ok", S w)
  end.


Definition server_error : D365MCPTool.Response := D365MCPTool.mkResponse 500 None.

Definition always_500 (w : nat) : (D365MCPTool.error + string) * nat :=
  (inl (D365MCPTool.HTTPStatusError server_error), S w).


(** *** Chat history manager: ids handed out by [uuid.uuid4()]. *)

Definition uuid_of (w : nat) : string * nat := ("generated", S w).

Definition get_or_create (chat_id : option string)
  (m : @ChatHistory.manager nat thread_t)
  : Py.result (string * thread_t) * @ChatHistory.manager nat thread_t :=
  ChatHistory.get_or_create_thread
    store_empty cache_accepts store_empty clock_of iso from_iso uuid_of chat_id m.


(** *** Merge: a stored blob with two messages and a new blob that only
    has the first of them. *)



End Scenarios.

(** * Part II: properties *)

Lemma Qlt_bool_iff (x y : Q) : Qlt_bool x y = true <-> (x < y)%Q.
Proof.
  unfold Qlt_bool. rewrite negb_true_iff. split.
  - intros H. apply Qnot_le_lt. intros Hle.
    apply Qle_bool_iff in Hle. congruence.
  - intros H. destruct (Qle_bool y x) eqn:E; [|reflexivity].
    apply Qle_bool_iff in E. exfalso. exact (Qlt_not_le _ _ H E).
Qed.

Lemma Qlt_bool_false_iff (x y : Q) : Qlt_bool x y = false <-> (y <= x)%Q.
Proof.
  unfold Qlt_bool. rewrite negb_false_iff. apply Qle_bool_iff.
Qed.

(** ** Circuit breaker *)

Section CircuitBreakerFacts.
Import CircuitBreaker.
Context {World V E X : Type}.
Variable clock : World -> Q.

Abbreviation call := (@call World V E X clock).
Abbreviation admission := (@admission World V E X clock).
Abbreviation on_failure := (@on_failure World clock).
Abbreviation failing_call := (@failing_call World V E X clock).
Abbreviation consecutive_failures := (@consecutive_failures World V E X clock).

(** A call on a closed breaker runs the function. *)
Lemma call_closed (b : t) (f : func) (w : World) :
  _state b = closed ->
  call b f w =
    match f w with
    | (Returns v, w') => (Returned v, on_success b, w')
    | (RaisesException e, w') => (Raised e, on_failure b w', w')
    | (RaisesBase x, w') => (Interrupted x, b, w')
    end.
Proof. intros H. unfold CircuitBreaker.call, CircuitBreaker.admission. now rewrite H. Qed.

(** One failure on a closed breaker: the counter goes up by one, the
    failure time is recorded, and the breaker opens exactly when the
    counter reaches the threshold. *)
Lemma failing_call_closed (b b' : t) :
  _state b = closed ->
  failing_call b b' ->
  _failure_count b' = _failure_count b + 1 /\
  _failure_threshold b' = _failure_threshold b /\
  _recovery_timeout b' = _recovery_timeout b /\
  is_Some (_last_failure_time b') /\
  _state b' = (if _failure_count b + 1 >=? _failure_threshold b
               then open else closed).
Proof.
  intros Hc (f & w & w' & e & Hcall).
  rewrite (call_closed b f w Hc) in Hcall.
  destruct (f w) as [[v|e0|x] w0]; inversion Hcall; subst; clear Hcall.
  cbn. rewrite Hc. repeat split; eauto.
Qed.

(** [n] failures in a row on a closed breaker whose counter stays within
    the threshold. *)
Lemma consecutive_failures_closed (n : nat) : forall (b b' : t),
  _state b = closed ->
  _failure_count b + Z.of_nat n <= _failure_threshold b ->
  consecutive_failures n b b' ->
  _failure_count b' = _failure_count b + Z.of_nat n /\
  _failure_threshold b' = _failure_threshold b /\
  _recovery_timeout b' = _recovery_timeout b /\
  (0 < n -> is_Some (_last_failure_time b'))%nat /\
  _state b' = (if (0 <? Z.of_nat n) && (_failure_count b' >=? _failure_threshold b)
               then open else closed).
Proof.
  induction n as [|n IH]; intros b b' Hc Hle Hcf; inversion Hcf; subst.
  - cbn. rewrite Z.add_0_r. repeat split; auto. intros H; inversion H.
  - destruct (failing_call_closed _ _ Hc H0) as (Hfc & Hth & Hto & Hlast & Hst).
    destruct n as [|n].
    + inversion H1; subst. rewrite Hfc, Hst. repeat split; auto.
    + assert (Hc1 : _state b1 = closed).
      { rewrite Hst. destruct (_ >=? _) eqn:Hge; [|reflexivity]. lia. }
      destruct (IH b1 b' Hc1 ltac:(lia) H1) as (Hfc' & Hth' & Hto' & Hlast' & Hst').
      repeat split.
      * lia.
      * congruence.
      * congruence.
      * intros _. apply Hlast'. lia.
      * rewrite Hst', Hth. reflexivity.
Qed.

(** C1. Starting closed, [failure_threshold] consecutive failing calls
    (calls whose coroutine raises an [Exception]) open the breaker, with
    a failure count of [failure_threshold].  From then on: a call made
    while no more than [recovery_timeout] seconds have passed since the
    last failure raises [CircuitBreakerOpen] and leaves the breaker and
    the world as they were (the wrapped function is not run); a call made
    once strictly more than [recovery_timeout] seconds have passed is
    admitted, the admitted breaker is in the half-open state with every
    other field as before, and the function is run; if the function
    returns, the breaker is closed with a failure count of 0; if it
    raises an [Exception], the breaker is open again, its failure count
    is one more and the last failure time is the clock at the failure.
    A [BaseException] that is not an [Exception] (a cancelled task) is
    outside the handler: it leaves the breaker as admitted, half-open. *)
Theorem circuit_breaker_state_machine
  (failure_threshold : Z) (recovery_timeout : Q) (b : t) :
  1 <= failure_threshold ->
  consecutive_failures (Z.to_nat failure_threshold)
                       (init failure_threshold recovery_timeout) b ->
  _state b = open /\
  _failure_count b = failure_threshold /\
  exists last : Q,
    _last_failure_time b = Some last /\
    (forall (f : func) (w : World),
        (clock w - last <= recovery_timeout)%Q ->
        call b f w = (CircuitBreakerOpen, b, w)) /\
    (forall (f : func) (w : World),
        (recovery_timeout < clock w - last)%Q ->
        exists b1 : t,
          admission b w = inr b1 /\
          _state b1 = half_open /\
          _failure_count b1 = failure_threshold /\
          _failure_threshold b1 = failure_threshold /\
          _recovery_timeout b1 = recovery_timeout /\
          _last_failure_time b1 = Some last /\
          (forall v w', f w = (Returns v, w') ->
             exists b', call b f w = (Returned v, b', w') /\
                        _state b' = closed /\ _failure_count b' = 0 /\
                        _failure_threshold b' = failure_threshold /\
                        _recovery_timeout b' = recovery_timeout) /\
          (forall e w', f w = (RaisesException e, w') ->
             exists b', call b f w = (Raised e, b', w') /\
                        _state b' = open /\
                        _failure_count b' = failure_threshold + 1 /\
                        _last_failure_time b' = Some (clock w') /\
                        _failure_threshold b' = failure_threshold /\
                        _recovery_timeout b' = recovery_timeout) /\
          (forall x w', f w = (RaisesBase x, w') ->
             call b f w = (Interrupted x, b1, w'))).
Proof.
  intros Hth Hcf.
  assert (Hroom : _failure_count (init failure_threshold recovery_timeout)
                  + Z.of_nat (Z.to_nat failure_threshold)
                  <= _failure_threshold (init failure_threshold recovery_timeout))
    by (cbn; lia).
  destruct (consecutive_failures_closed
              _ (init failure_threshold recovery_timeout) b eq_refl Hroom Hcf)
    as (Hfc & Hthr & Hto & Hlast & Hst).
  cbn in Hfc, Hthr, Hto, Hst.
  assert (Hopen : _state b = open).
  { rewrite Hst. replace (0 <? _) with true by (symmetry; apply Z.ltb_lt; lia).
    replace (_ >=? _) with true by (symmetry; apply Z.geb_le; lia).
    reflexivity. }
  split; [exact Hopen|]. split; [lia|].
  destruct Hlast as [last Hlast]; [lia|].
  exists last. split; [exact Hlast|]. split.
  - intros f w Hle.
    unfold CircuitBreaker.call, CircuitBreaker.admission.
    rewrite Hopen, Hlast, Hto.
    apply Qlt_bool_false_iff in Hle. now rewrite Hle.
  - intros f w Hlt.
    assert (Hadm : admission b w = inr (set_state b half_open)).
    { unfold CircuitBreaker.admission. rewrite Hopen, Hlast, Hto.
      apply Qlt_bool_iff in Hlt. now rewrite Hlt. }
    exists (set_state b half_open).
    split; [exact Hadm|]. split; [reflexivity|].
    split; [cbn; lia|]. split; [exact Hthr|]. split; [exact Hto|].
    split; [exact Hlast|]. split; [|split].
    + intros v w' Hf. eexists. unfold CircuitBreaker.call.
      rewrite Hadm, Hf. repeat split; assumption.
    + intros e w' Hf. eexists. unfold CircuitBreaker.call.
      rewrite Hadm, Hf. split; [reflexivity|]. cbn.
      rewrite Hthr, Hfc.
      replace (_ >=? _) with true by (symmetry; apply Z.geb_le; lia).
      repeat split; try assumption; lia.
    + intros x w' Hf. unfold CircuitBreaker.call. now rewrite Hadm, Hf.
Qed.

End CircuitBreakerFacts.

(** The theorem at a breaker with threshold 2 and a 30 s time-out, on a
    world that is just the clock: two failures at times 1 and 2. *)
Lemma circuit_breaker_witness :
  let b := CircuitBreaker.mk 2 2 30 CircuitBreaker.open (Some 2%Q) in
  1 <= 2 /\
  CircuitBreaker.consecutive_failures (V:=unit) (E:=unit) (X:=unit)
    (fun w : Q => w) 2 (CircuitBreaker.init 2 30) b /\
  CircuitBreaker._state b = CircuitBreaker.open.
Proof.
  intros b.
  assert (H1 : 1 <= 2) by lia.
  assert (H2 : CircuitBreaker.consecutive_failures (V:=unit) (E:=unit) (X:=unit)
                 (fun w : Q => w) 2 (CircuitBreaker.init 2 30) b).
  { apply CircuitBreaker.cf_cons
      with (b1 := CircuitBreaker.mk 1 2 30 CircuitBreaker.closed (Some 1%Q)).
    - exists (fun w => (CircuitBreaker.RaisesException tt, w)), 1%Q, 1%Q, tt.
      reflexivity.
    - apply CircuitBreaker.cf_cons with (b1 := b).
      + exists (fun w => (CircuitBreaker.RaisesException tt, w)), 2%Q, 2%Q, tt.
        reflexivity.
      + apply CircuitBreaker.cf_nil. }
  split; [exact H1|]. split; [exact H2|].
  exact (proj1 (circuit_breaker_state_machine (fun w : Q => w) 2 30 b H1 H2)).
Defined.

(** The opened breaker of the scenario, probed at time 40: a probe that
    returns closes it, a probe that raises an [Exception] re-opens it with
    the failure time 40, and a cancelled probe leaves it half-open, so
    that the next call is admitted at once, whatever the time. *)
Example probe_outcomes :
  let b := CircuitBreaker.mk 2 2 30 CircuitBreaker.open (Some 2%Q) in
  let clock := fun w : Q => w in
  let ends (c : CircuitBreaker.completion unit unit unit) :=
    snd (fst (CircuitBreaker.call clock b (fun w => (c, w)) 40%Q)) in
  ends (CircuitBreaker.Returns tt)
    = CircuitBreaker.mk 0 2 30 CircuitBreaker.closed (Some 2%Q) /\
  ends (CircuitBreaker.RaisesException tt)
    = CircuitBreaker.mk 3 2 30 CircuitBreaker.open (Some 40%Q) /\
  ends (CircuitBreaker.RaisesBase tt)
    = CircuitBreaker.mk 2 2 30 CircuitBreaker.half_open (Some 2%Q) /\
  CircuitBreaker.call (E:=unit) (X:=unit) clock
    (ends (CircuitBreaker.RaisesBase tt))
    (fun w => (CircuitBreaker.Returns tt, w)) 3%Q
    = (CircuitBreaker.Returned tt,
       CircuitBreaker.mk 0 2 30 CircuitBreaker.closed (Some 2%Q), 3%Q).
Proof. repeat split. Qed.

(** ** Retry loop *)

Section RetryFacts.
Import D365MCPTool.
Context {World V : Type}.
Variable _execute_tool_call : World -> (error + V) * World.
Variable provider_refresh_token : World -> (error + string) * World.
Variable sleep : Q -> World -> World.
Variable int_of_str : string -> option Z.

Abbreviation tool := (@tool World).
Abbreviation refresh_token := (@refresh_token World provider_refresh_token).
Abbreviation attempts :=
  (@attempts World V _execute_tool_call provider_refresh_token sleep int_of_str).
Abbreviation _execute_with_retry :=
  (@_execute_with_retry World V _execute_tool_call provider_refresh_token
                        sleep int_of_str).

(** [refresh_token] performs at most one refresh and keeps the retry
    settings. *)
Lemma refresh_token_effect (t : tool) :
  (refreshes (snd (refresh_token t)) <= S (refreshes t))%nat /\
  _max_retries (snd (refresh_token t)) = _max_retries t.
Proof.
  unfold D365MCPTool.refresh_token.
  destruct (_http_client t); [|cbn; split; [lia|reflexivity]].
  destruct (provider_refresh_token _) as [[e|tok] w']; cbn;
    unfold refreshes; cbn; split; (lia || reflexivity).
Qed.

(** With an HTTP client and a provider that answers, [refresh_token]
    performs exactly one refresh and leaves a client in place. *)
Lemma refresh_token_ok (t : tool) :
  is_Some (_http_client t) ->
  (forall w, exists tok w', provider_refresh_token w = (inr tok, w')) ->
  exists t', refresh_token t = (None, t') /\
             refreshes t' = S (refreshes t) /\
             _max_retries t' = _max_retries t /\
             is_Some (_http_client t').
Proof.
  intros [h Hh] Hprov. unfold D365MCPTool.refresh_token. rewrite Hh.
  destruct (Hprov (world (log EvRefresh t))) as (tok & w' & Hp).
  rewrite Hp. eexists. split; [reflexivity|]. cbn. unfold refreshes. cbn.
  repeat split; eauto.
Qed.

(** The refreshes of a run are bounded by the attempts that still have
    a retry left. *)
Lemma attempts_refreshes (todo : list Z) :
  forall (last_error : option error) (t : tool),
  (refreshes (snd (attempts todo last_error t))
   <= refreshes t
      + length (List.filter (fun a => (a <? _max_retries t)%Z) todo))%nat.
Proof.
  induction todo as [|attempt todo IH]; intros last_error t.
  - cbn. destruct last_error; cbn; lia.
  - cbn [D365MCPTool.attempts List.filter].
    set (t1 := log (EvAttempt attempt) t).
    assert (Hr1 : refreshes t1 = refreshes t) by reflexivity.
    assert (Hm1 : _max_retries t1 = _max_retries t) by reflexivity.
    destruct (_execute_tool_call (world t1)) as [[[r|n|e]|v] w'].
    + (* HTTPStatusError *)
      change (_max_retries (with_world t1 w')) with (_max_retries t).
      destruct (status_code r =? 401) eqn:H401;
        destruct (attempt <? _max_retries t) eqn:Hlt; cbn [andb].
      * destruct (refresh_token_effect (with_world t1 w')) as [Hle Hmax].
        destruct (refresh_token (with_world t1 w')) as [[e|] t'] eqn:Hrt;
          cbn [snd] in *.
        -- cbn [length]. change (refreshes (with_world t1 w')) with (refreshes t) in Hle.
           lia.
        -- specialize (IH last_error t'). rewrite Hmax in IH.
           change (_max_retries (with_world t1 w')) with (_max_retries t) in IH.
           change (refreshes (with_world t1 w')) with (refreshes t) in Hle.
           cbn [length]. lia.
      * destruct (status_code r =? 429); [|cbn; fold (refreshes t); lia].
        destruct (retry_after_of int_of_str r); cbn; fold (refreshes t); lia.
      * destruct (status_code r =? 429); [|cbn; fold (refreshes t); lia].
        destruct (retry_after_of int_of_str r) as [ra|]; [|cbn; fold (refreshes t); lia].
        match goal with |- context [attempts todo last_error ?t2] =>
          specialize (IH last_error t2);
          change (refreshes t2) with (refreshes t) in IH;
          change (_max_retries t2) with (_max_retries t) in IH end.
        cbn [length]. lia.
      * destruct (status_code r =? 429); [|cbn; fold (refreshes t); lia].
        destruct (retry_after_of int_of_str r); cbn; fold (refreshes t); lia.
    + (* transient error *)
      change (_max_retries (with_world t1 w')) with (_max_retries t).
      destruct (attempt <? _max_retries t) eqn:Hlt.
      * match goal with |- context [attempts todo ?le ?t2] =>
          specialize (IH le t2);
          change (refreshes t2) with (refreshes t) in IH;
          change (_max_retries t2) with (_max_retries t) in IH end.
        cbn [length]. lia.
      * cbn. fold (refreshes t). lia.
    + cbn. fold (refreshes t). lia.
    + cbn. fold (refreshes t). lia.
Qed.

(** [range(n + 1)] holds exactly [n] attempts below [n]. *)
Lemma range_below (n : Z) :
  length (List.filter (fun a => a <? n) (range (n + 1))) = Z.to_nat n.
Proof.
  unfold range.
  assert (H : forall (k : nat),
             (Z.of_nat k <= Z.max 0 (n + 1)) ->
             length (List.filter (fun a => a <? n) (map Z.of_nat (seq 0 k)))
             = Nat.min k (Z.to_nat n)).
  { induction k as [|k IH]; intros Hk; [reflexivity|].
    rewrite seq_S, map_app, List.filter_app, length_app, IH by lia.
    cbn [map List.filter Nat.add]. destruct (Z.of_nat k <? n) eqn:E; cbn [length].
    - apply Z.ltb_lt in E. lia.
    - apply Z.ltb_ge in E. lia. }
  rewrite H by lia. lia.
Qed.

(** When every attempt is answered 401 and the provider refreshes, a run
    over attempts [pre ++ [last]] with only [last] out of retries does one
    refresh per element of [pre] and ends in the 401 of the last attempt. *)
Lemma attempts_all_401 (pre : list Z) :
  forall (last : Z) (last_error : option error) (t : tool),
  (forall w, exists r w',
      _execute_tool_call w = (inl (HTTPStatusError r), w') /\ status_code r = 401) ->
  (forall w, exists tok w', provider_refresh_token w = (inr tok, w')) ->
  is_Some (_http_client t) ->
  Forall (fun a => a < _max_retries t) pre ->
  _max_retries t <= last ->
  exists r,
    fst (attempts (pre ++ [last]) last_error t) = inl (HTTPStatusError r) /\
    status_code r = 401 /\
    refreshes (snd (attempts (pre ++ [last]) last_error t))
    = (refreshes t + length pre)%nat.
Proof.
  induction pre as [|a pre IH]; intros last last_error t Hcall Hprov Hcl Hpre Hlast.
  - cbn [app D365MCPTool.attempts].
    destruct (Hcall (world (log (EvAttempt last) t))) as (r & w' & Hc & H401).
    rewrite Hc. rewrite H401. cbn.
    replace (last <? _max_retries t) with false by (symmetry; apply Z.ltb_ge; lia).
    cbn. exists r. repeat split; auto; unfold refreshes; cbn; lia.
  - cbn [app D365MCPTool.attempts].
    destruct (Hcall (world (log (EvAttempt a) t))) as (r & w' & Hc & H401).
    rewrite Hc, H401. cbn [Z.eqb Pos.eqb andb].
    inversion Hpre as [|? ? Ha Hpre']; subst.
    change (_max_retries (with_world (log (EvAttempt a) t) w'))
      with (_max_retries t).
    replace (a <? _max_retries t) with true by (symmetry; apply Z.ltb_lt; lia).
    cbn [andb].
    destruct (refresh_token_ok (with_world (log (EvAttempt a) t) w') Hcl Hprov)
      as (t' & Hrt & Hrf & Hmax & Hcl').
    rewrite Hrt.
    destruct (IH last last_error t' Hcall Hprov Hcl') as (r' & Hres & Hst & Hcount).
    + rewrite Hmax. exact Hpre'.
    + rewrite Hmax. exact Hlast.
    + exists r'. repeat split; auto. rewrite Hcount, Hrf.
      change (refreshes (with_world (log (EvAttempt a) t) w')) with (refreshes t).
      cbn [length]. lia.
Qed.

(** *** What the loop does with each answer *)

Abbreviation rtool := (@D365MCPTool.tool (World * list (error + V))).
Abbreviation rattempts :=
  (@D365MCPTool.attempts (World * list (error + V)) V
     (RetryTrace.recorded_call _execute_tool_call)
     (RetryTrace.recorded_refresh provider_refresh_token)
     (RetryTrace.recorded_sleep sleep) int_of_str).
Abbreviation rexecute :=
  (@D365MCPTool._execute_with_retry (World * list (error + V)) V
     (RetryTrace.recorded_call _execute_tool_call)
     (RetryTrace.recorded_refresh provider_refresh_token)
     (RetryTrace.recorded_sleep sleep) int_of_str).

(** A 401 answered while a retry is left: one refresh, no sleep, and the
    loop goes on with the next attempt, whatever happened before. *)
Lemma attempts_401_refreshes attempt todo last_error (t : tool) r w' h :
  _execute_tool_call (world t) = (inl (HTTPStatusError r), w') ->
  status_code r = 401 ->
  attempt < _max_retries t ->
  _http_client t = Some h ->
  let t1 := log EvRefresh (with_world (log (EvAttempt attempt) t) w') in
  attempts (attempt :: todo) last_error t =
    match provider_refresh_token w' with
    | (inr token, w'') =>
        attempts todo last_error
                 (set_header ("Bearer " ++ token) (with_world t1 w''))
    | (inl e, w'') => (inl e, with_world t1 w'')
    end.
Proof.
  intros Hc H401 Hlt Hh. cbv zeta. cbn [D365MCPTool.attempts].
  change (world (log (EvAttempt attempt) t)) with (world t). rewrite Hc.
  rewrite H401. cbn [Z.eqb Pos.eqb andb].
  change (_max_retries (with_world (log (EvAttempt attempt) t) w'))
    with (_max_retries t).
  replace (attempt <? _max_retries t) with true by (symmetry; apply Z.ltb_lt; lia).
  unfold D365MCPTool.refresh_token.
  change (_http_client (with_world (log (EvAttempt attempt) t) w'))
    with (_http_client t).
  rewrite Hh.
  change (world (log EvRefresh (with_world (log (EvAttempt attempt) t) w')))
    with w'.
  destruct (provider_refresh_token w') as [[e|tok] w'']; reflexivity.
Qed.

(** A 401 answered when no retry is left reaches the caller. *)
Lemma attempts_401_propagates attempt todo last_error (t : tool) r w' :
  _execute_tool_call (world t) = (inl (HTTPStatusError r), w') ->
  status_code r = 401 ->
  _max_retries t <= attempt ->
  attempts (attempt :: todo) last_error t =
    (inl (HTTPStatusError r), with_world (log (EvAttempt attempt) t) w').
Proof.
  intros Hc H401 Hge. cbn [D365MCPTool.attempts].
  change (world (log (EvAttempt attempt) t)) with (world t). rewrite Hc.
  rewrite H401. cbn [Z.eqb Pos.eqb andb].
  change (_max_retries (with_world (log (EvAttempt attempt) t) w'))
    with (_max_retries t).
  replace (attempt <? _max_retries t) with false by (symmetry; apply Z.ltb_ge; lia).
  reflexivity.
Qed.

Lemma recorded_call_eq (w : World * list (error + V)) :
  RetryTrace.recorded_call _execute_tool_call w
  = (fst (_execute_tool_call (fst w)),
     (snd (_execute_tool_call (fst w)), fst (_execute_tool_call (fst w)) :: snd w)).
Proof. reflexivity. Qed.

Lemma recorded_refresh_eq (w : World * list (error + V)) :
  RetryTrace.recorded_refresh provider_refresh_token w
  = (fst (provider_refresh_token (fst w)),
     (snd (provider_refresh_token (fst w)), snd w)).
Proof. reflexivity. Qed.

(** With an HTTP client, the refreshes of a run are exactly the attempts
    that were answered 401 while a retry was left. *)
Lemma attempts_refresh_count (todo : list Z) :
  forall (last_error : option error) (t : rtool),
  is_Some (_http_client t) ->
  exists answers : list (error + V),
    (length answers <= length todo)%nat /\
    snd (world (snd (rattempts todo last_error t)))
    = rev answers ++ snd (world t) /\
    refreshes (snd (rattempts todo last_error t))
    = (refreshes t
       + length (List.filter (RetryTrace.refreshed (_max_retries t))
                             (combine todo answers)))%nat.
Proof.
  induction todo as [|attempt todo IH]; intros last_error t Hcl.
  - exists []. cbn [length rev app combine List.filter D365MCPTool.attempts].
    destruct last_error; cbn [snd]; repeat split; try reflexivity; try lia.
  - cbn [D365MCPTool.attempts].
    set (t1 := log (EvAttempt attempt) t).
    change (world t1) with (world t).
    rewrite recorded_call_eq.
    destruct (_execute_tool_call (fst (world t))) as [a w0]. cbn [fst snd].
    set (w' := (w0, a :: snd (world t))).
    assert (Hone : forall t2 : rtool,
              snd (world t2) = a :: snd (world t) ->
              refreshes t2 = refreshes t ->
              RetryTrace.is_401 a && (attempt <? _max_retries t) = false ->
              exists answers : list (error + V),
                (length answers <= S (length todo))%nat /\
                snd (world t2) = rev answers ++ snd (world t) /\
                refreshes t2
                = (refreshes t
                   + length (List.filter (RetryTrace.refreshed (_max_retries t))
                                         (combine (attempt :: todo) answers)))%nat).
    { intros t2 Hw Hr Hno. exists [a]. cbn [length rev app combine List.filter].
      unfold RetryTrace.refreshed. cbn [fst snd]. rewrite Hno. cbn [length].
      rewrite combine_nil. cbn [List.filter length].
      repeat split; [lia|exact Hw|lia]. }
    assert (Hmore : forall (le : option error) (t2 : rtool),
              snd (world t2) = a :: snd (world t) ->
              _max_retries t2 = _max_retries t ->
              is_Some (_http_client t2) ->
              exists answers : list (error + V),
                (length answers <= S (length todo))%nat /\
                snd (world (snd (rattempts todo le t2)))
                = rev answers ++ snd (world t) /\
                refreshes (snd (rattempts todo le t2))
                = (refreshes t2
                   + length (List.filter (RetryTrace.refreshed (_max_retries t))
                                         (combine todo (tl answers))))%nat /\
                hd_error answers = Some a).
    { intros le t2 Hw Hm Hc2.
      destruct (IH le t2 Hc2) as (answers & Hlen & Hworld & Hcount).
      exists (a :: answers). cbn [length rev tl hd_error].
      rewrite Hworld, Hw, Hcount, Hm, <- app_assoc. cbn [app].
      repeat split; lia. }
    destruct a as [[r|n|e]|v].
    + (* HTTPStatusError *)
      change (_max_retries (with_world t1 w')) with (_max_retries t).
      destruct (status_code r =? 401) eqn:H401;
        destruct (attempt <? _max_retries t) eqn:Hlt; cbn [andb].
      * (* refresh *)
        unfold D365MCPTool.refresh_token.
        change (_http_client (with_world t1 w')) with (_http_client t).
        destruct Hcl as [h Hh]. rewrite Hh.
        change (world (log EvRefresh (with_world t1 w'))) with w'.
        rewrite recorded_refresh_eq.
        destruct (provider_refresh_token (fst w')) as [[e|tok] w1]; cbn [fst snd].
        -- exists [inl (HTTPStatusError r)].
           cbn [length rev app combine List.filter].
           unfold RetryTrace.refreshed. cbn [fst snd RetryTrace.is_401].
           rewrite H401, Hlt, combine_nil. cbn [andb length List.filter].
           repeat split; [lia|]. unfold refreshes. cbn. lia.
        -- match goal with |- context [rattempts todo last_error ?t2] =>
             destruct (Hmore last_error t2 eq_refl eq_refl ltac:(cbn; eauto))
               as (answers & Hlen & Hworld & Hcount & Hhd)
           end.
           exists answers. destruct answers as [|a0 answers]; [discriminate|].
           injection Hhd as ->. cbn [tl] in Hcount.
           split; [exact Hlen|]. split; [exact Hworld|].
           rewrite Hcount. cbn [combine List.filter].
           unfold RetryTrace.refreshed at 2. cbn [fst snd RetryTrace.is_401].
           rewrite H401, Hlt. cbn [andb length].
           unfold refreshes. cbn. lia.
      * destruct (status_code r =? 429);
          [destruct (retry_after_of int_of_str r)|];
          (apply Hone; [reflexivity|reflexivity|apply andb_false_r]).
      * (* not a 401, a retry is left *)
        destruct (status_code r =? 429).
        2:{ apply Hone; [reflexivity|reflexivity|].
            cbn [RetryTrace.is_401]. now rewrite H401. }
        destruct (retry_after_of int_of_str r) as [ra|].
        2:{ apply Hone; [reflexivity|reflexivity|].
            cbn [RetryTrace.is_401]. now rewrite H401. }
        match goal with |- context [rattempts todo last_error ?t2] =>
          destruct (Hmore last_error t2 eq_refl eq_refl Hcl)
            as (answers & Hlen & Hworld & Hcount & Hhd)
        end.
        exists answers. destruct answers as [|a0 answers]; [discriminate|].
        injection Hhd as ->. cbn [tl] in Hcount.
        split; [exact Hlen|]. split; [exact Hworld|].
        rewrite Hcount. cbn [combine List.filter].
        unfold RetryTrace.refreshed at 2. cbn [fst snd RetryTrace.is_401].
        rewrite H401. cbn [andb]. reflexivity.
      * destruct (status_code r =? 429).
        2:{ apply Hone; [reflexivity|reflexivity|].
            cbn [RetryTrace.is_401]. now rewrite H401. }
        destruct (retry_after_of int_of_str r) as [ra|];
          (apply Hone; [reflexivity|reflexivity|];
           cbn [RetryTrace.is_401]; now rewrite H401).
    + (* transient error *)
      change (_max_retries (with_world t1 w')) with (_max_retries t).
      destruct (attempt <? _max_retries t) eqn:Hlt.
      * match goal with |- context [rattempts todo ?le ?t2] =>
          destruct (Hmore le t2 eq_refl eq_refl Hcl)
            as (answers & Hlen & Hworld & Hcount & Hhd)
        end.
        exists answers. destruct answers as [|a0 answers]; [discriminate|].
        injection Hhd as ->. cbn [tl] in Hcount.
        split; [exact Hlen|]. split; [exact Hworld|].
        rewrite Hcount. reflexivity.
      * apply Hone; reflexivity.
    + apply Hone; reflexivity.
    + apply Hone; reflexivity.
Qed.

(** C3 (as the code has it). One request refreshes the token at most
    [max_retries] times: once for each 401 answered while a retry is left.
    At any point of the loop, a 401 answered while a retry is left is
    followed by one refresh and, without a sleep, by the next attempt
    (or by the error of the provider, if the refresh fails); a 401
    answered when no retry is left reaches the caller without a refresh.
    Over a whole request the refreshes are exactly the attempts answered
    401 while a retry was left, whatever the other attempts were
    answered.  When every attempt is answered 401 the bound is met, and
    the 401 of the last attempt is what the caller gets. *)
Theorem retry_refreshes_at_most_max_retries (t : tool) :
  (refreshes (snd (_execute_with_retry t))
   <= refreshes t + Z.to_nat (_max_retries t))%nat /\
  (forall (attempt : Z) (todo : list Z) (last_error : option error)
          (r : Response) (w' : World),
     _execute_tool_call (world t) = (inl (HTTPStatusError r), w') ->
     status_code r = 401 ->
     let t0 := with_world (log (EvAttempt attempt) t) w' in
     (attempt < _max_retries t ->
      is_Some (_http_client t) ->
      attempts (attempt :: todo) last_error t =
        match provider_refresh_token w' with
        | (inr token, w'') =>
            attempts todo last_error
              (set_header ("Bearer " ++ token) (with_world (log EvRefresh t0) w''))
        | (inl e, w'') => (inl e, with_world (log EvRefresh t0) w'')
        end) /\
     (_max_retries t <= attempt ->
      attempts (attempt :: todo) last_error t = (inl (HTTPStatusError r), t0))) /\
  (forall rt : rtool,
     is_Some (_http_client rt) ->
     exists answers : list (error + V),
       snd (world (snd (rexecute rt))) = rev answers ++ snd (world rt) /\
       refreshes (snd (rexecute rt))
       = (refreshes rt
          + length (List.filter (RetryTrace.refreshed (_max_retries rt))
                                (combine (range (_max_retries rt + 1)) answers)))%nat) /\
  (0 <= _max_retries t ->
   is_Some (_http_client t) ->
   (forall w, exists r w',
       _execute_tool_call w = (inl (HTTPStatusError r), w') /\ status_code r = 401) ->
   (forall w, exists tok w', provider_refresh_token w = (inr tok, w')) ->
   exists r,
     fst (_execute_with_retry t) = inl (HTTPStatusError r) /\
     status_code r = 401 /\
     refreshes (snd (_execute_with_retry t))
     = (refreshes t + Z.to_nat (_max_retries t))%nat).
Proof.
  split; [|split; [|split]].
  - unfold D365MCPTool._execute_with_retry.
    pose proof (attempts_refreshes (range (_max_retries t + 1)) None t) as H.
    rewrite range_below in H. exact H.
  - intros attempt todo last_error r w' Hc H401. cbv zeta. split.
    + intros Hlt [h Hh].
      exact (attempts_401_refreshes attempt todo last_error t r w' h Hc H401 Hlt Hh).
    + intros Hge.
      exact (attempts_401_propagates attempt todo last_error t r w' Hc H401 Hge).
  - intros rt Hcl. unfold D365MCPTool._execute_with_retry.
    destruct (attempts_refresh_count (range (_max_retries rt + 1)) None rt Hcl)
      as (answers & _ & Hworld & Hcount).
    exists answers. split; assumption.
  - intros Hmax Hcl Hcall Hprov.
    unfold D365MCPTool._execute_with_retry, range.
    replace (Z.to_nat (_max_retries t + 1)) with (S (Z.to_nat (_max_retries t)))
      by lia.
    rewrite seq_S, map_app. cbn [map Nat.add].
    destruct (attempts_all_401 (map Z.of_nat (seq 0 (Z.to_nat (_max_retries t))))
                (Z.of_nat (Z.to_nat (_max_retries t))) None t Hcall Hprov Hcl)
      as (r & Hres & Hst & Hcount).
    + apply List.Forall_forall. intros a Ha. apply List.in_map_iff in Ha.
      destruct Ha as (k & <- & Hk). apply List.in_seq in Hk. lia.
    + lia.
    + exists r. repeat split; auto.
      rewrite Hcount, length_map, length_seq. reflexivity.
Qed.

End RetryFacts.

(** C3 as stated fails: with the default [max_retries = 3], a tool that
    answers 401 twice and then succeeds makes the loop refresh the token
    twice within the one request; the second 401 is retried, it does not
    reach the caller. *)
Lemma retry_refreshes_twice :
  let r := D365MCPTool._execute_with_retry
             Scenarios.two_401_then_ok Scenarios.provider_ok
             Scenarios.no_sleep Scenarios.no_int Scenarios.connected_tool in
  fst r = inr "ok" /\
  D365MCPTool.refreshes (snd r) = 2%nat /\
  ~ (D365MCPTool.refreshes (snd r) <= 1)%nat.
Proof.
  cbv zeta. split; [reflexivity|]. split; [reflexivity|].
  vm_compute. lia.
Qed.

(** A 401 is refreshed also after an earlier transient error: a tool
    that times out, answers 401 and then succeeds is called three times,
    with the back-off sleep after the time-out and the refresh, without a
    sleep, after the 401. *)
Example refresh_after_transient_error :
  let r := D365MCPTool._execute_with_retry
             Scenarios.timeout_401_ok Scenarios.provider_ok
             Scenarios.no_sleep Scenarios.no_int Scenarios.connected_tool in
  fst r = inr "ok" /\
  D365MCPTool.refreshes (snd r) = 1%nat /\
  D365MCPTool._http_client (snd r) = Some "Bearer token" /\
  rev (D365MCPTool.trace (snd r))
  = [D365MCPTool.EvAttempt 0; D365MCPTool.EvSleep 1;
     D365MCPTool.EvAttempt 1; D365MCPTool.EvRefresh;
     D365MCPTool.EvAttempt 2].
Proof. cbv zeta. repeat split. Qed.

(** The bound is met on a tool that answers 401 every time: three
    refreshes, then the 401 of the fourth attempt. *)
Lemma retry_refreshes_witness :
  0 <= D365MCPTool._max_retries Scenarios.connected_tool /\
  D365MCPTool.refreshes
    (snd (D365MCPTool._execute_with_retry
            Scenarios.always_401 Scenarios.provider_ok
            Scenarios.no_sleep Scenarios.no_int Scenarios.connected_tool))
  = 3%nat.
Proof.
  assert (H0 : 0 <= D365MCPTool._max_retries Scenarios.connected_tool)
    by (cbn; lia).
  split; [exact H0|].
  destruct (proj2 (proj2 (proj2 (retry_refreshes_at_most_max_retries
                     Scenarios.always_401 Scenarios.provider_ok
                     Scenarios.no_sleep Scenarios.no_int
                     Scenarios.connected_tool))) H0)
    as (r & _ & _ & Hcount).
  - cbn. eauto.
  - intros w. exists Scenarios.unauthorized, (S w). split; reflexivity.
  - intros w. exists "token", w. reflexivity.
  - exact Hcount.
Defined.

(** ** Rate limiter *)

Section RateLimiterFacts.
Import RateLimiter.

Lemma config_put_minute_state l id s : config (put_minute_state l id s) = config l.
Proof. unfold put_minute_state. now destruct (per_user (config l)). Qed.

Lemma config_put_hour_state l id s : config (put_hour_state l id s) = config l.
Proof. unfold put_hour_state. now destruct (per_user (config l)). Qed.

Lemma hour_state_put_minute_state l id s th :
  hour_state (put_minute_state l id s) id th = hour_state l id th.
Proof.
  unfold hour_state, put_minute_state.
  destruct (per_user (config l)) eqn:E; cbn; rewrite E; reflexivity.
Qed.

Lemma minute_state_put_minute_state l id s tm :
  minute_state (put_minute_state l id s) id tm = s.
Proof.
  unfold minute_state, put_minute_state.
  destruct (per_user (config l)) eqn:E; cbn; rewrite E; [|reflexivity].
  unfold dd_read. now rewrite lookup_insert_eq.
Qed.

Lemma minute_state_put_hour_state l id s tm :
  minute_state (put_hour_state l id s) id tm = minute_state l id tm.
Proof.
  unfold minute_state, put_hour_state.
  destruct (per_user (config l)) eqn:E; cbn; rewrite E; reflexivity.
Qed.

Lemma hour_state_put_hour_state l id s th :
  hour_state (put_hour_state l id s) id th = s.
Proof.
  unfold hour_state, put_hour_state.
  destruct (per_user (config l)) eqn:E; cbn; rewrite E; [|reflexivity].
  unfold dd_read. now rewrite lookup_insert_eq.
Qed.

(** What the request check returns, given the ceiling. *)
Lemma check_request_limit_fst l id now tm th :
  fst (_check_request_limit l id now tm th) =
  let minute := roll 60 now (minute_state l id tm) in
  let hour := roll 3600 now (hour_state l id th) in
  match burst_ceiling (requests_per_minute (config l))
                      (burst_multiplier (config l)) with
  | inl ex => inl ex
  | inr max_requests =>
      if count minute >=? max_requests then
        inr (Some (mkExceeded requests_per_minute_limit
                     (Qmax0 (60 - (now - window_start minute)))
                     (count minute) (requests_per_minute (config l))))
      else if count hour >=? requests_per_hour (config l) then
        inr (Some (mkExceeded requests_per_hour_limit
                     (Qmax0 (3600 - (now - window_start hour)))
                     (count hour) (requests_per_hour (config l))))
      else inr None
  end.
Proof.
  unfold _check_request_limit. cbv zeta.
  rewrite ?config_put_hour_state, ?config_put_minute_state.
  rewrite hour_state_put_minute_state.
  destruct (burst_ceiling _ _) as [ex|max_requests]; [reflexivity|].
  destruct (_ >=? _); [reflexivity|].
  destruct (_ >=? _); reflexivity.
Qed.

(** What the token check returns, given the ceiling. *)
Lemma check_token_limit_fst l id n now tm :
  fst (_check_token_limit l id n now tm) =
  let minute := minute_state l id tm in
  match burst_ceiling (tokens_per_minute (config l))
                      (burst_multiplier (config l)) with
  | inl ex => inl ex
  | inr max_tokens =>
      if tokens minute + n >? max_tokens then
        inr (Some (mkExceeded tokens_per_minute_limit
                     (Qmax0 (60 - (now - window_start minute)))
                     (tokens minute + n) (tokens_per_minute (config l))))
      else inr None
  end.
Proof.
  unfold _check_token_limit. cbv zeta. rewrite ?config_put_minute_state.
  destruct (burst_ceiling _ _) as [ex|max_tokens]; [reflexivity|].
  destruct (_ >? _); reflexivity.
Qed.

(** C2 (as the code has it).  Of the three limits checked at admission,
    the two that live in the minute window use the burst ceiling
    [int(limit * burst_multiplier)], the truncation of the product as
    rounded to a double: the request check rejects exactly when the
    window's count has reached it, the token check exactly when the
    window's tokens plus the estimate exceed it; when the ceiling cannot
    be computed (an infinite or NaN product) the check raises that
    error.  The hourly request check uses the nominal
    [requests_per_hour].  What a rejection shows is the nominal limit,
    [get_usage] reports the nominal limits, and [record_request] only
    counts: one request and [tokens_used] tokens in both windows. *)
Theorem burst_ceiling_on_minute_window
  (l : t) (user_id : option string) (estimated_tokens : Z) (now tm th t0 : Q) :
  let cfg := config l in
  let identifier := identifier_of user_id in
  let minute := roll 60 now (minute_state l identifier tm) in
  let hour := roll 3600 now (hour_state l identifier th) in
  let request_check := fst (_check_request_limit l identifier now tm th) in
  let token_check :=
    fst (_check_token_limit l identifier estimated_tokens now tm) in
  match burst_ceiling (requests_per_minute cfg) (burst_multiplier cfg) with
  | inr max_requests =>
      ((exists e, request_check = inr (Some e) /\
                  limit_type e = requests_per_minute_limit)
       <-> max_requests <= count minute) /\
      ((exists e, request_check = inr (Some e) /\
                  limit_type e = requests_per_hour_limit)
       <-> count minute < max_requests /\ requests_per_hour cfg <= count hour) /\
      (request_check = inr None
       <-> count minute < max_requests /\ count hour < requests_per_hour cfg)
  | inl ex => request_check = inl ex
  end /\
  match burst_ceiling (tokens_per_minute cfg) (burst_multiplier cfg) with
  | inr max_tokens =>
      ((exists e, token_check = inr (Some e) /\
                  limit_type e = tokens_per_minute_limit)
       <-> max_tokens < tokens (minute_state l identifier tm) + estimated_tokens) /\
      (token_check = inr None
       <-> tokens (minute_state l identifier tm) + estimated_tokens <= max_tokens)
  | inl ex => token_check = inl ex
  end /\
  (forall e, request_check = inr (Some e) ->
     shown_limit e = match limit_type e with
                     | requests_per_hour_limit => requests_per_hour cfg
                     | _ => requests_per_minute cfg
                     end) /\
  (forall e, token_check = inr (Some e) -> shown_limit e = tokens_per_minute cfg) /\
  (limit (requests_minute (get_usage l user_id t0)) = requests_per_minute cfg /\
   limit (requests_hour (get_usage l user_id t0)) = requests_per_hour cfg /\
   limit (tokens_minute (get_usage l user_id t0)) = tokens_per_minute cfg) /\
  (enabled cfg = true ->
   forall tokens_used,
     let l' := record_request l user_id tokens_used tm th in
     config l' = cfg /\
     count (minute_state l' identifier tm) = count (minute_state l identifier tm) + 1 /\
     tokens (minute_state l' identifier tm)
     = tokens (minute_state l identifier tm) + tokens_used /\
     count (hour_state l' identifier th) = count (hour_state l identifier th) + 1 /\
     tokens (hour_state l' identifier th)
     = tokens (hour_state l identifier th) + tokens_used).
Proof.
  intros cfg identifier minute hour request_check token_check.
  pose proof (check_request_limit_fst l identifier now tm th) as Hreq.
  pose proof (check_token_limit_fst l identifier estimated_tokens now tm) as Htok.
  cbv zeta in Hreq, Htok.
  fold cfg request_check in Hreq. fold minute hour in Hreq.
  fold cfg token_check in Htok.
  split; [|split; [|split; [|split; [|split]]]].
  - destruct (burst_ceiling (requests_per_minute cfg) _) as [ex|max_requests];
      [exact Hreq|].
    rewrite Hreq. clear Hreq.
    destruct (count minute >=? max_requests) eqn:E1.
    + apply Z.geb_le in E1. repeat split.
      * intros _. exact E1.
      * intros _. eexists. split; reflexivity.
      * destruct H as (e & [= <-] & Hk). discriminate.
      * destruct H as (e & [= <-] & Hk). discriminate.
      * intros [H _]. lia.
      * discriminate.
      * discriminate.
      * intros [H _]. lia.
    + rewrite Z.geb_leb in E1. apply Z.leb_gt in E1.
      destruct (count hour >=? requests_per_hour cfg) eqn:E2.
      * apply Z.geb_le in E2. repeat split.
        -- intros (e & [= <-] & Hk). discriminate.
        -- intros H. lia.
        -- exact E1.
        -- exact E2.
        -- intros _. eexists. split; reflexivity.
        -- discriminate.
        -- discriminate.
        -- intros [_ H]. lia.
      * rewrite Z.geb_leb in E2. apply Z.leb_gt in E2. repeat split.
        -- intros (e & [=] & _).
        -- intros H. lia.
        -- destruct H as (e & [=] & _).
        -- destruct H as (e & [=] & _).
        -- intros [_ H]. lia.
        -- exact E1.
        -- exact E2.
  - destruct (burst_ceiling (tokens_per_minute cfg) _) as [ex|max_tokens];
      [exact Htok|].
    rewrite Htok. clear Htok.
    destruct (_ >? max_tokens) eqn:E; rewrite Z.gtb_ltb in E.
    + apply Z.ltb_lt in E. repeat split.
      * intros _. exact E.
      * intros _. eexists. split; reflexivity.
      * discriminate.
      * intros H. lia.
    + apply Z.ltb_ge in E. repeat split.
      * intros (e & [=] & _).
      * intros H. lia.
      * intros _. exact E.
  - intros e He. rewrite Hreq in He.
    destruct (burst_ceiling (requests_per_minute cfg) _) as [ex|max_requests];
      [discriminate|].
    destruct (count minute >=? max_requests); [inversion He; reflexivity|].
    destruct (count hour >=? requests_per_hour cfg); inversion He; reflexivity.
  - intros e He. rewrite Htok in He.
    destruct (burst_ceiling (tokens_per_minute cfg) _) as [ex|max_tokens];
      [discriminate|].
    destruct (_ >? max_tokens); inversion He; reflexivity.
  - repeat split.
  - intros H tokens_used. cbv zeta.
    unfold record_request. fold cfg. rewrite H. cbn [negb].
    rewrite config_put_hour_state, config_put_minute_state.
    rewrite minute_state_put_hour_state, minute_state_put_minute_state.
    rewrite hour_state_put_hour_state, hour_state_put_minute_state.
    repeat split.
Qed.

End RateLimiterFacts.

(** C2 as stated fails for the hourly limit: with [requests_per_hour = 10]
    and [burst_multiplier = 1.5], the eleventh request of the hour is
    rejected for the hourly limit although the window's count, 10, has
    not reached [int(10 * 1.5) = 15]. *)
Lemma hourly_limit_has_no_burst :
  exists e,
    fst (RateLimiter.check_limit Scenarios.ten_requests (Some "u") 0 1 1 1) = inl e /\
    RateLimiter.limit_type e = RateLimiter.requests_per_hour_limit /\
    RateLimiter.shown_used e = 10 /\
    RateLimiter.burst_ceiling
      (RateLimiter.requests_per_hour Scenarios.hourly_config)
      (RateLimiter.burst_multiplier Scenarios.hourly_config) = inr 15 /\
    RateLimiter.shown_used e < 15.
Proof.
  eexists. split; [vm_compute; reflexivity|].
  split; [reflexivity|]. split; [reflexivity|].
  split; [vm_compute; reflexivity|]. cbn. lia.
Qed.

(** The ceiling is the product truncated to an integer: with three
    requests a minute and a burst of 1.5 the fifth request is rejected at
    a count of 4, below 4.5. *)
Example minute_ceiling_is_truncated :
  exists e,
    fst (RateLimiter.check_limit Scenarios.four_requests (Some "u") 0 1 1 1) = inl e /\
    RateLimiter.limit_type e = RateLimiter.requests_per_minute_limit /\
    RateLimiter.shown_used e = 4 /\
    RateLimiter.shown_limit e = 3.
Proof. eexists. split; [vm_compute; reflexivity|]. repeat split. Qed.

(** The product is rounded to a double before it is truncated.  The
    double for 1.15 lies below 1.15: [20 * 1.15] rounds up to 23.0, so
    that the ceiling is 23 where the exact product truncates to 22, and
    [100 * 1.15] rounds to 114.99999999999999, so that the ceiling is
    114, not 115.  With the default 1.5 nothing is rounded. *)
Example ceiling_of_rounded_product :
  RateLimiter.burst_ceiling 20 (Py.float_of_decimal 115 2) = inr 23 /\
  RateLimiter.burst_ceiling 100 (Py.float_of_decimal 115 2) = inr 114 /\
  RateLimiter.burst_ceiling 3 RateLimiter.one_and_a_half = inr 4 /\
  RateLimiter.burst_ceiling 60 RateLimiter.one_and_a_half = inr 90 /\
  RateLimiter.burst_ceiling 100000 RateLimiter.one_and_a_half = inr 150000.
Proof. repeat split; vm_compute; reflexivity. Qed.

(** With twenty requests a minute and a burst of 1.15, a request arriving
    at a count of 22 is admitted and one arriving at 23 is rejected. *)
Example rounded_ceiling_admits_at_22 :
  fst (RateLimiter.check_limit (Scenarios.n_requests 22) (Some "u") 0 1 1 1)
    = inr (Py.ret true) /\
  exists e,
    fst (RateLimiter.check_limit (Scenarios.n_requests 23) (Some "u") 0 1 1 1)
      = inl e /\
    RateLimiter.limit_type e = RateLimiter.requests_per_minute_limit /\
    RateLimiter.shown_used e = 23.
Proof.
  split; [vm_compute; reflexivity|].
  eexists. split; [vm_compute; reflexivity|]. split; reflexivity.
Qed.

(** A ceiling that cannot be computed: an infinite multiplier, a NaN, a
    limit beyond the range of a double.  [check_limit] then raises the
    error of the conversion, not [RateLimitExceeded]. *)
Example ceiling_errors :
  RateLimiter.burst_ceiling 60 (S754_infinity false) = inl Py.OverflowError /\
  RateLimiter.burst_ceiling 60 S754_nan = inl Py.ValueError /\
  RateLimiter.burst_ceiling (2 ^ 1024) RateLimiter.one_and_a_half
    = inl Py.OverflowError /\
  fst (RateLimiter.check_limit
         (RateLimiter.init (Scenarios.burst_config S754_nan) 0) (Some "u") 0 1 1 1)
    = inr (Py.raise Py.ValueError).
Proof. repeat split; vm_compute; reflexivity. Qed.

(** The token check is strict: with ten tokens used and a ceiling of 15,
    an estimate of 5 is admitted and an estimate of 6 is rejected. *)
Example token_ceiling_is_strict :
  fst (RateLimiter.check_limit Scenarios.ten_tokens (Some "u") 5 1 1 1)
    = inr (Py.ret true) /\
  exists e,
    fst (RateLimiter.check_limit Scenarios.ten_tokens (Some "u") 6 1 1 1) = inl e /\
    RateLimiter.limit_type e = RateLimiter.tokens_per_minute_limit.
Proof.
  split; [vm_compute; reflexivity|].
  eexists. split; [vm_compute; reflexivity|reflexivity].
Qed.

(** The theorem at the limiter with ten recorded requests: the request
    check rejects for the hourly limit, the minute ceiling being 90 and the
    hourly limit 10. *)
Lemma burst_ceiling_witness :
  RateLimiter.burst_ceiling
    (RateLimiter.requests_per_minute Scenarios.hourly_config)
    (RateLimiter.burst_multiplier Scenarios.hourly_config) = inr 90 /\
  exists e,
    fst (RateLimiter._check_request_limit Scenarios.ten_requests "u" 1 1 1)
      = inr (Some e) /\
    RateLimiter.limit_type e = RateLimiter.requests_per_hour_limit.
Proof.
  assert (Hc : RateLimiter.burst_ceiling
                 (RateLimiter.requests_per_minute Scenarios.hourly_config)
                 (RateLimiter.burst_multiplier Scenarios.hourly_config) = inr 90)
    by (vm_compute; reflexivity).
  split; [exact Hc|].
  pose proof (burst_ceiling_on_minute_window
                Scenarios.ten_requests (Some "u") 0 1 1 1 1) as H.
  cbv zeta in H. destruct H as [H _].
  change (RateLimiter.config Scenarios.ten_requests)
    with Scenarios.hourly_config in H.
  rewrite Hc in H. destruct H as (_ & [_ Hhour] & _).
  apply Hhour. vm_compute. split; [reflexivity|]. intros H; discriminate H.
Defined.

Section ConcurrencyFacts.
Import RateLimiter.

Lemma counters_put_minute_state l id s :
  _concurrent_requests (put_minute_state l id s) = _concurrent_requests l /\
  _global_concurrent (put_minute_state l id s) = _global_concurrent l.
Proof. unfold put_minute_state. now destruct (per_user (config l)). Qed.

Lemma counters_put_hour_state l id s :
  _concurrent_requests (put_hour_state l id s) = _concurrent_requests l /\
  _global_concurrent (put_hour_state l id s) = _global_concurrent l.
Proof. unfold put_hour_state. now destruct (per_user (config l)). Qed.

Lemma counters_nonneg_ext l l' :
  _concurrent_requests l' = _concurrent_requests l ->
  _global_concurrent l' = _global_concurrent l ->
  counters_nonneg l -> counters_nonneg l'.
Proof. unfold counters_nonneg. intros -> ->. auto. Qed.

Lemma check_request_limit_counters l id now tm th :
  counters_nonneg l ->
  counters_nonneg (snd (_check_request_limit l id now tm th)).
Proof.
  intros H. unfold _check_request_limit. cbv zeta.
  set (l1 := put_minute_state l id _).
  assert (H1 : counters_nonneg l1).
  { destruct (counters_put_minute_state l id (roll 60 now (minute_state l id tm))).
    eapply counters_nonneg_ext; eauto. }
  destruct (burst_ceiling _ _) as [ex|max_requests]; [exact H1|].
  destruct (_ >=? _); [exact H1|].
  set (l2 := put_hour_state l1 id _).
  assert (H2 : counters_nonneg l2).
  { destruct (counters_put_hour_state l1 id (roll 3600 now (hour_state l1 id th))).
    eapply counters_nonneg_ext; eauto. }
  destruct (_ >=? _); exact H2.
Qed.

Lemma check_token_limit_counters l id n now tm :
  counters_nonneg l ->
  counters_nonneg (snd (_check_token_limit l id n now tm)).
Proof.
  intros H. unfold _check_token_limit. cbv zeta.
  set (l1 := put_minute_state l id _).
  assert (H1 : counters_nonneg l1).
  { destruct (counters_put_minute_state l id (minute_state l id tm)).
    eapply counters_nonneg_ext; eauto. }
  destruct (burst_ceiling _ _) as [ex|max_tokens]; [exact H1|].
  destruct (_ >? _); exact H1.
Qed.

Lemma cleanup_windows_counters l now :
  counters_nonneg l -> counters_nonneg (_cleanup_windows l now).
Proof.
  intros [Hm Hg]. split; [|exact Hg]. cbn. intros k v Hk.
  apply map_lookup_filter_Some in Hk. destruct Hk as [Hk _]. eauto.
Qed.

Lemma check_concurrent_limit_counters l id :
  counters_nonneg l ->
  counters_nonneg (snd (_check_concurrent_limit l id)).
Proof.
  intros [Hm Hg]. unfold _check_concurrent_limit. cbv zeta.
  assert (H : counters_nonneg
                (if per_user (config l)
                 then set_concurrent_requests l
                        (snd (dd_read 0 id (_concurrent_requests l)))
                 else l)).
  { destruct (per_user (config l)); [|split; assumption].
    split; [|exact Hg]. cbn. unfold dd_read.
    destruct (_concurrent_requests l !! id) eqn:E; cbn; [exact Hm|].
    intros k v Hk. destruct (decide (k = id)) as [->|Hne].
    - rewrite lookup_insert_eq in Hk. inversion Hk. lia.
    - rewrite lookup_insert_ne in Hk by congruence. eauto. }
  destruct (_ >=? _); exact H.
Qed.

Lemma check_limit_counters l u est now tm th :
  counters_nonneg l -> counters_nonneg (snd (check_limit l u est now tm th)).
Proof.
  intros H. unfold check_limit.
  destruct (negb (enabled (config l))); [exact H|].
  pose proof (check_concurrent_limit_counters _ (identifier_of u)
                (cleanup_windows_counters l now H)) as H1.
  destruct (_check_concurrent_limit _ _) as [[e|] l1]; cbn [snd] in *; [exact H1|].
  pose proof (check_request_limit_counters l1 (identifier_of u) now tm th H1) as H2.
  destruct (_check_request_limit _ _ _ _ _) as [[ex|[e|]] l2]; cbn [snd] in *;
    [exact H2|exact H2|].
  destruct (est >? 0); [|exact H2].
  pose proof (check_token_limit_counters l2 (identifier_of u) est now tm H2) as H3.
  destruct (_check_token_limit _ _ _ _ _) as [[ex|[e|]] l3]; exact H3.
Qed.

Lemma record_request_counters l u n tm th :
  counters_nonneg l -> counters_nonneg (record_request l u n tm th).
Proof.
  intros H. unfold record_request. cbv zeta.
  destruct (negb (enabled (config l))); [exact H|].
  match goal with |- counters_nonneg (put_hour_state ?l1 ?i ?s) =>
    destruct (counters_put_hour_state l1 i s) as [E1 E2];
    eapply counters_nonneg_ext; [exact E1|exact E2|] end.
  match goal with |- counters_nonneg (put_minute_state ?l1 ?i ?s) =>
    destruct (counters_put_minute_state l1 i s) as [E3 E4];
    eapply counters_nonneg_ext; [exact E3|exact E4|] end.
  exact H.
Qed.

Lemma dd_read_nonneg (m : gmap string Z) id :
  (forall k v, m !! k = Some v -> 0 <= v) -> 0 <= fst (dd_read 0 id m).
Proof.
  intros H. unfold dd_read. destruct (m !! id) eqn:E; cbn; [eauto|lia].
Qed.

Lemma insert_nonneg (m : gmap string Z) id x :
  0 <= x ->
  (forall k v, m !! k = Some v -> 0 <= v) ->
  forall k v, <[id := x]> m !! k = Some v -> 0 <= v.
Proof.
  intros Hx H k v Hk. destruct (decide (k = id)) as [->|Hne].
  - rewrite lookup_insert_eq in Hk. inversion Hk. lia.
  - rewrite lookup_insert_ne in Hk by congruence. eauto.
Qed.

Lemma acquire_counters l u :
  counters_nonneg l -> counters_nonneg (acquire_concurrent_slot l u).
Proof.
  intros [Hm Hg]. unfold acquire_concurrent_slot. cbv zeta.
  destruct (negb (enabled (config l))); [split; assumption|].
  destruct (per_user (config l)); split; cbn; try assumption; try lia.
  apply insert_nonneg; [|exact Hm].
  pose proof (dd_read_nonneg _ (identifier_of u) Hm). lia.
Qed.

Lemma release_counters l u :
  counters_nonneg l -> counters_nonneg (release_concurrent_slot l u).
Proof.
  intros [Hm Hg]. unfold release_concurrent_slot. cbv zeta.
  destruct (negb (enabled (config l))); [split; assumption|].
  destruct (per_user (config l)); split; cbn; try assumption; try lia.
  apply insert_nonneg; [lia|exact Hm].
Qed.

Lemma reset_counters l u t0 :
  counters_nonneg l -> counters_nonneg (reset l u t0).
Proof.
  intros [Hm Hg].
  assert (Hinit : counters_nonneg (init (config l) t0)).
  { split; cbn; [|lia]. intros k v Hk. rewrite lookup_empty in Hk. discriminate. }
  unfold reset. destruct u as [u|]; [|exact Hinit].
  destruct (String.eqb u EmptyString); [exact Hinit|].
  split; [|exact Hg]. cbn. intros k v Hk.
  apply lookup_delete_Some in Hk. destruct Hk as [_ Hk]. eauto.
Qed.

Lemma step_counters l o : counters_nonneg l -> counters_nonneg (step l o).
Proof.
  intros H. destruct o; cbn.
  - now apply check_limit_counters.
  - now apply record_request_counters.
  - now apply acquire_counters.
  - now apply release_counters.
  - now apply reset_counters.
Qed.

Lemma run_counters ops : forall l, counters_nonneg l -> counters_nonneg (run l ops).
Proof.
  induction ops as [|o ops IH]; intros l H; [exact H|].
  change (run l (o :: ops)) with (run (step l o) ops).
  apply IH. now apply step_counters.
Qed.

Lemma concurrent_of_nonneg l u : counters_nonneg l -> 0 <= concurrent_of l u.
Proof.
  intros [Hm Hg]. unfold concurrent_of.
  destruct (per_user (config l)); [|exact Hg].
  destruct (_concurrent_requests l !! identifier_of u) eqn:E; cbn; [eauto|lia].
Qed.

(** What a release does to the counter of its identity. *)
Lemma concurrent_of_release l u :
  concurrent_of (release_concurrent_slot l u) u =
  if enabled (config l) then Z.max 0 (concurrent_of l u - 1) else concurrent_of l u.
Proof.
  unfold release_concurrent_slot, concurrent_of. cbv zeta.
  destruct (enabled (config l)); cbn [negb]; [|reflexivity].
  destruct (per_user (config l)) eqn:E; cbn; rewrite E; [|reflexivity].
  rewrite lookup_insert_eq. cbn. unfold dd_read.
  destruct (_concurrent_requests l !! identifier_of u); reflexivity.
Qed.

(** No operation changes the configuration. *)
Lemma config_check_limit l u est now tm th :
  config (snd (check_limit l u est now tm th)) = config l.
Proof.
  unfold check_limit. destruct (negb (enabled (config l))); [reflexivity|].
  assert (H1 : config (snd (_check_concurrent_limit (_cleanup_windows l now)
                                                     (identifier_of u)))
               = config l).
  { unfold _check_concurrent_limit. cbv zeta.
    assert (Hc : config (_cleanup_windows l now) = config l) by reflexivity.
    rewrite Hc.
    destruct (_ >=? _); cbn [snd]; destruct (per_user (config l)); exact Hc. }
  destruct (_check_concurrent_limit _ _) as [[e|] l1]; cbn [snd] in *; [exact H1|].
  assert (H2 : config (snd (_check_request_limit l1 (identifier_of u) now tm th))
               = config l).
  { unfold _check_request_limit. cbv zeta.
    destruct (burst_ceiling _ _) as [ex|max_requests]; cbn [snd];
      [now rewrite config_put_minute_state|].
    destruct (_ >=? _); cbn [snd];
      [now rewrite config_put_minute_state|].
    destruct (_ >=? _); cbn [snd];
      now rewrite config_put_hour_state, config_put_minute_state. }
  destruct (_check_request_limit _ _ _ _ _) as [[ex|[e|]] l2]; cbn [snd] in *;
    [exact H2|exact H2|].
  destruct (est >? 0); [|exact H2].
  assert (H3 : config (snd (_check_token_limit l2 (identifier_of u) est now tm))
               = config l).
  { unfold _check_token_limit. cbv zeta.
    destruct (burst_ceiling _ _) as [ex|max_tokens]; cbn [snd];
      [now rewrite config_put_minute_state|].
    destruct (_ >? _); cbn [snd]; now rewrite config_put_minute_state. }
  destruct (_check_token_limit _ _ _ _ _) as [[ex|[e|]] l3]; exact H3.
Qed.

Lemma config_step l o : config (step l o) = config l.
Proof.
  destruct o; cbn [step].
  - apply config_check_limit.
  - unfold record_request. destruct (negb _); [reflexivity|]. cbv zeta.
    now rewrite config_put_hour_state, config_put_minute_state.
  - unfold acquire_concurrent_slot.
    destruct (negb _); [reflexivity|]. now destruct (per_user _).
  - unfold release_concurrent_slot.
    destruct (negb _); [reflexivity|]. now destruct (per_user _).
  - unfold reset. destruct user_id as [u|]; [|reflexivity].
    now destruct (String.eqb u EmptyString).
Qed.

Lemma config_run ops : forall l, config (run l ops) = config l.
Proof.
  induction ops as [|o ops IH]; intros l; [reflexivity|].
  change (run l (o :: ops)) with (run (step l o) ops).
  now rewrite IH, config_step.
Qed.

(** C9. Whatever the interleaving of operations on a fresh limiter, every
    concurrent counter (each identity's and the global one) is at least
    zero; a release takes one off the counter of its identity but never
    below zero, so a release at zero leaves zero. *)
Theorem concurrent_counter_never_negative
  (cfg : RateLimitConfig) (t0 : Q) (ops : list op) (user_id : option string) :
  let l := run (init cfg t0) ops in
  0 <= concurrent_of l user_id /\
  counters_nonneg l /\
  concurrent_of (release_concurrent_slot l user_id) user_id
  = (if enabled cfg then Z.max 0 (concurrent_of l user_id - 1)
     else concurrent_of l user_id) /\
  (concurrent_of l user_id = 0 ->
   concurrent_of (release_concurrent_slot l user_id) user_id = 0).
Proof.
  intros l.
  assert (Hinit : counters_nonneg (init cfg t0)).
  { split; cbn; [|lia]. intros k v Hk. rewrite lookup_empty in Hk. discriminate. }
  assert (Hl : counters_nonneg l) by (apply run_counters; exact Hinit).
  pose proof config_run as Hcfg.
  assert (Hrel := concurrent_of_release l user_id).
  unfold l in Hrel at 2. rewrite Hcfg in Hrel. cbn [config init] in Hrel.
  repeat split.
  - now apply concurrent_of_nonneg.
  - apply Hl.
  - apply Hl.
  - exact Hrel.
  - intros H0. rewrite Hrel, H0. destruct (enabled cfg); reflexivity.
Qed.

End ConcurrencyFacts.

(** The theorem at a fresh limiter that receives a release it never
    handed out: the counter of that identity is zero and a further
    release leaves it at zero. *)
Lemma concurrent_counter_witness :
  let l := RateLimiter.run (RateLimiter.init RateLimiter.default_config 0)
                           [RateLimiter.OpRelease (Some "u")] in
  RateLimiter.concurrent_of l (Some "u") = 0 /\
  RateLimiter.concurrent_of
    (RateLimiter.release_concurrent_slot l (Some "u")) (Some "u") = 0.
Proof.
  intros l.
  assert (H0 : RateLimiter.concurrent_of l (Some "u") = 0)
    by (vm_compute; reflexivity).
  split; [exact H0|].
  exact (proj2 (proj2 (proj2 (concurrent_counter_never_negative
                                RateLimiter.default_config 0
                                [RateLimiter.OpRelease (Some "u")] (Some "u"))))
               H0).
Defined.

(** ** Input validator *)

Section ValidatorFacts.
Import InputValidator.
Variable re_search : flags -> string -> string -> option string.
Variable re_sub : string -> string -> string -> string.

Abbreviation validate := (@validate re_search re_sub).

(** C10. [validate] fails with validation type "length" exactly when the
    text is strictly longer than the cap of its context,
    [max_question_length] for the context "question" and
    [max_tool_param_length] for any other; a text whose length equals the
    cap passes the length check. *)
Theorem length_check_is_strict (cfg : ValidationConfig) (text context : string) :
  let cap := if String.eqb context "question"
             then max_question_length cfg else max_tool_param_length cfg in
  ((exists e, validate cfg text context = inl e /\ validation_type e = "length")
   <-> cap < Py.str_len text) /\
  (Py.str_len text = cap ->
   forall e, validate cfg text context = inl e -> validation_type e <> "length").
Proof.
  intros cap.
  assert (Hcap : max_length cfg context = cap) by reflexivity.
  assert (Hmain :
    (exists e, validate cfg text context = inl e /\ validation_type e = "length")
    <-> cap < Py.str_len text).
  { unfold InputValidator.validate. rewrite Hcap.
    destruct (Py.str_len text >? cap) eqn:E.
    - rewrite Z.gtb_ltb in E. apply Z.ltb_lt in E. split; [intros _; exact E|].
      intros _. eexists. split; reflexivity.
    - rewrite Z.gtb_ltb in E. apply Z.ltb_ge in E.
      split; [|lia]. intros (e & He & Hty). exfalso.
      destruct (injection_hit re_search cfg text);
        [inversion He; subst; discriminate Hty|].
      destruct (blocked_hit re_search cfg text);
        [inversion He; subst; discriminate Hty|].
      destruct (if block_pii cfg then _ else _);
        [discriminate He | inversion He; subst; discriminate Hty]. }
  split; [exact Hmain|].
  intros Heq e He Hty.
  assert (Hlt : cap < Py.str_len text) by (apply Hmain; eauto).
  lia.
Qed.

End ValidatorFacts.

(** The theorem at a cap of three: "abcd" fails the length check. *)
Lemma length_check_witness :
  3 < Py.str_len "abcd" /\
  exists e,
    InputValidator.validate Scenarios.never_matches Scenarios.sub_nothing
                            Scenarios.cap_three "abcd" "question" = inl e /\
    InputValidator.validation_type e = "length".
Proof.
  assert (H : 3 < Py.str_len "abcd") by (vm_compute; reflexivity).
  split; [exact H|].
  exact (proj2 (proj1 (length_check_is_strict
                         Scenarios.never_matches Scenarios.sub_nothing
                         Scenarios.cap_three "abcd" "question")) H).
Defined.

(** At the cap itself the text is accepted. *)
Example length_at_cap_accepted :
  InputValidator.validate Scenarios.never_matches Scenarios.sub_nothing
                          Scenarios.cap_three "abc" "question" = inr "abc".
Proof. reflexivity. Qed.

(** ** Condition evaluator *)

Section EvaluatorFacts.
Import Py Workflows EvaluatorView.
Variable rt : Runtime.

(** The coercion of the output raises exactly what [json.loads] raised
    past the guard. *)
Lemma coerce_output_escape (output : pyval) :
  match json_escape rt output with
  | Some e => coerce_output rt output = inl e
  | None => exists output', coerce_output rt output = inr output'
  end.
Proof.
  unfold json_escape, coerce_output.
  destruct output; try (eexists; reflexivity).
  destruct (json_loads rt s) as [e|v].
  - destruct e; cbn; try reflexivity; eexists; reflexivity.
  - destruct v; eexists; reflexivity.
Qed.

(** [evaluate] returns a boolean unless [json.loads] raised past the
    guard; then, for a condition that is not empty, it raises the same. *)
Lemma evaluate_escape (condition : string) (output : pyval) :
  match json_escape rt output with
  | Some e =>
      evaluate rt condition output
      = if String.eqb condition EmptyString then inr true else inl e
  | None => exists b : bool, evaluate rt condition output = inr b
  end.
Proof.
  pose proof (coerce_output_escape output) as H. unfold evaluate.
  destruct (json_escape rt output) as [e|].
  - destruct (String.eqb condition EmptyString); [reflexivity|].
    now rewrite H.
  - destruct (String.eqb condition EmptyString); [eexists; reflexivity|].
    destruct H as [output' ->]. cbn.
    destruct (_evaluate_condition rt _ _ output'); eexists; reflexivity.
Qed.

Lemma evaluate_returns (condition : string) (output : pyval) :
  json_escape rt output = None ->
  exists b : bool, evaluate rt condition output = inr b.
Proof.
  intros H. pose proof (evaluate_escape condition output) as He.
  now rewrite H in He.
Qed.

(** What [evaluate] raises is what [json.loads] raised past the guard. *)
Lemma evaluate_raises (condition : string) (output : pyval) (e : exn) :
  evaluate rt condition output = inl e -> json_escape rt output = Some e.
Proof.
  intros H. pose proof (evaluate_escape condition output) as He.
  destruct (json_escape rt output) as [e'|].
  - rewrite He in H. destruct (String.eqb condition EmptyString); congruence.
  - destruct He as [b Hb]. congruence.
Qed.

(** Every exception of the evaluation proper is answered [False]. *)
Lemma evaluate_catches (condition : string) (output output' : pyval) (e : exn) :
  condition <> EmptyString ->
  coerce_output rt output = inr output' ->
  _evaluate_condition rt (recursion_limit rt) (strip condition) output' = inl e ->
  evaluate rt condition output = inr false.
Proof.
  intros Hne Hco Hraise. unfold evaluate.
  destruct (String.eqb_spec condition EmptyString); [contradiction|].
  rewrite Hco. cbn. now rewrite Hraise.
Qed.

End EvaluatorFacts.

(** C4, where the code departs from it.  [evaluate] maps every exception
    of [_evaluate_condition] to [False], but it calls [json.loads] on a
    string output before the catch-all, under a guard for
    [JSONDecodeError] and [TypeError] only.  On the output made of a
    hundred thousand opening brackets [json.loads] raises
    [RecursionError], on the output made of five thousand digits it
    raises a plain [ValueError], and [evaluate] raises the same instead
    of returning [False].  In general, for every runtime, condition and
    output: [evaluate] returns a boolean unless [json.loads] raised past
    the guard on a string output, and raises that exception when it did
    and the condition is not empty (an empty condition is [True] before
    anything is decoded); an output that is not a string is never
    decoded, so that [evaluate] is total on dicts; and whatever the
    evaluation of the stripped condition on the coerced output raises,
    the answer is [False]. *)
Theorem evaluate_raises_past_json_guard :
  Workflows.evaluate Scenarios.cpython_runtime Scenarios.technical
                     (Py.PyStr Scenarios.deep_json) = inl Py.RecursionError /\
  Workflows.evaluate Scenarios.cpython_runtime Scenarios.technical
                     (Py.PyStr Scenarios.long_number) = inl Py.ValueError /\
  (forall (rt : Workflows.Runtime) (condition : string) (output : Py.pyval),
     match EvaluatorView.json_escape rt output with
     | Some e =>
         Workflows.evaluate rt condition output
         = if String.eqb condition EmptyString then inr true else inl e
     | None => exists b : bool, Workflows.evaluate rt condition output = inr b
     end) /\
  (forall (rt : Workflows.Runtime) (condition : string) (d : Py.dict),
     exists b : bool, Workflows.evaluate rt condition (Py.PyDict d) = inr b) /\
  (forall (rt : Workflows.Runtime) (condition : string) (output output' : Py.pyval)
          (e : Py.exn),
     condition <> EmptyString ->
     Workflows.coerce_output rt output = inr output' ->
     Workflows._evaluate_condition rt (Workflows.recursion_limit rt)
                                   (Py.strip condition) output' = inl e ->
     Workflows.evaluate rt condition output = inr false).
Proof.
  split; [vm_compute; reflexivity|].
  split; [vm_compute; reflexivity|].
  split; [intros rt condition output; apply evaluate_escape|].
  split.
  - intros rt condition d. now apply evaluate_returns.
  - intros rt condition output output' e. apply evaluate_catches.
Qed.

(** A missing field compared with [>]: the comparison of [None] with a
    number raises [TypeError] inside the catch-all and [evaluate] answers
    [False]. *)
Example evaluate_internal_error_is_false :
  Workflows._evaluate_condition Scenarios.example_runtime 1000
    (Py.strip Scenarios.confident) Scenarios.technical_output = inl Py.TypeError /\
  Workflows.evaluate Scenarios.example_runtime Scenarios.confident
                     Scenarios.technical_output = inr false.
Proof. split; vm_compute; reflexivity. Qed.

(** The evaluator on the examples of the workflow configuration. *)
Example evaluate_technical :
  Workflows.evaluate Scenarios.example_runtime Scenarios.technical
                     Scenarios.technical_output = inr true.
Proof. vm_compute. reflexivity. Qed.

Example evaluate_other :
  Workflows.evaluate Scenarios.example_runtime Scenarios.technical
                     Scenarios.other_output = inr false.
Proof. vm_compute. reflexivity. Qed.

(** A missing field is [None], not an error: it differs from any literal. *)
Example evaluate_missing_field_unequal :
  Workflows.evaluate Scenarios.example_runtime Scenarios.not_billing
                     (Py.PyDict []) = inr true.
Proof. vm_compute. reflexivity. Qed.

(** A string that is not JSON is wrapped as text. *)
Example evaluate_plain_text :
  Workflows.evaluate Scenarios.example_runtime Scenarios.error_in_text
                     (Py.PyStr "an error occurred") = inr true.
Proof. vm_compute. reflexivity. Qed.

(** A string that is JSON but not an object stays a string; the fallback
    then fails on [output.get] and the answer is [False]. *)
Example evaluate_json_scalar :
  Workflows._evaluate_condition Scenarios.example_runtime 1000 "4"
                                (Py.PyStr "42") = inl Py.AttributeError /\
  Workflows.evaluate Scenarios.example_runtime "4" (Py.PyStr "42") = inr false.
Proof. split; vm_compute; reflexivity. Qed.

(** ** Edge routing *)

Section RoutingFacts.
Import Py Workflows.
Variable rt : Runtime.

(** The loop ends at the first edge, in stored order, that has no
    condition or whose condition does not evaluate to [False]: it returns
    the target of the edge, or raises what the evaluation raised. *)
Lemma route_first_stop (outgoing : list ConditionalEdge) (agent_output : pyval) :
  route rt outgoing agent_output =
  match List.find (EvaluatorView.stops rt agent_output) outgoing with
  | None => inr None
  | Some e =>
      if no_condition e then inr (Some (to_agent e))
      else match evaluate rt (default EmptyString (condition e)) agent_output with
           | inl x => inl x
           | inr _ => inr (Some (to_agent e))
           end
  end.
Proof.
  induction outgoing as [|edge rest IH]; [reflexivity|].
  cbn [route List.find]. unfold EvaluatorView.stops at 1.
  destruct (no_condition edge) eqn:Hn; cbn [orb]; [now rewrite Hn|].
  destruct (evaluate rt (default EmptyString (condition edge)) agent_output)
    as [x|[|]] eqn:Ev; cbn [bind].
  - now rewrite Hn, Ev.
  - now rewrite Hn, Ev.
  - exact IH.
Qed.

(** When no evaluation raises, the loop returns at the first edge, in
    stored order, that has no condition or whose condition evaluates to
    [True]. *)
Lemma route_first_hit (outgoing : list ConditionalEdge) (agent_output : pyval) :
  EvaluatorView.json_escape rt agent_output = None ->
  route rt outgoing agent_output =
  inr (option_map to_agent
         (List.find (fun e => no_condition e
                              || match evaluate rt (default EmptyString (condition e))
                                                agent_output with
                                 | inr b => b
                                 | inl _ => false
                                 end)
                    outgoing)).
Proof.
  intros Hjson. induction outgoing as [|edge rest IH]; [reflexivity|].
  cbn [route List.find]. destruct (no_condition edge); [reflexivity|].
  cbn [orb].
  destruct (evaluate_returns rt (default EmptyString (condition edge))
                             agent_output Hjson) as [b Hb].
  rewrite Hb. cbn. destruct b; [reflexivity|exact IH].
Qed.

(** When the loop falls through, no outgoing edge is unconditional: the
    search for a default edge after the loop never finds one. *)
Lemma route_falls_through_no_default
  (outgoing : list ConditionalEdge) (agent_output : pyval) :
  route rt outgoing agent_output = inr None ->
  List.find no_condition outgoing = None.
Proof.
  induction outgoing as [|edge rest IH]; [reflexivity|].
  cbn [route List.find]. destruct (no_condition edge); [discriminate|].
  destruct (evaluate rt _ agent_output) as [e|[|]]; cbn; try discriminate.
  exact IH.
Qed.

(** C5 at the failing input.  The default edge of "Triage" is declared
    before a conditional edge of the same priority; the output makes the
    condition true.  Whatever the runtime, [evaluate_next_agent] returns
    the target of the default edge; the conditional edge is never
    evaluated. *)
Theorem default_edge_preempts_true_condition :
  evaluate_next_agent rt
    (store_edges ∅ "support" Scenarios.default_first)
    "support" "Triage" Scenarios.technical_output
  = inr (Some "Default").
Proof. reflexivity. Qed.

End RoutingFacts.

(** At that input the condition of the conditional edge is true. *)
Example preempted_condition_is_true :
  Workflows.evaluate Scenarios.example_runtime Scenarios.technical
                     Scenarios.technical_output = inr true.
Proof. vm_compute. reflexivity. Qed.

(** With the default edge last, as in the routing scenario of the
    specification, the conditional edge wins when its condition is true
    and the default edge is taken when it is not. *)
Example routing_scenario :
  Workflows.evaluate_next_agent Scenarios.example_runtime
    (Workflows.store_edges ∅ "support" Scenarios.default_last)
    "support" "Triage" Scenarios.technical_output = inr (Some "TechSupport") /\
  Workflows.evaluate_next_agent Scenarios.example_runtime
    (Workflows.store_edges ∅ "support" Scenarios.default_last)
    "support" "Triage" Scenarios.other_output = inr (Some "Default").
Proof. split; vm_compute; reflexivity. Qed.

(** The stored order is by descending priority, ties in declaration order. *)
Example stored_order :
  map Workflows.to_agent
      (Workflows.sorted_by_priority
         [Workflows.mkEdge "A" "low" None 0; Workflows.mkEdge "A" "high1" None 2;
          Workflows.mkEdge "A" "mid" None 1; Workflows.mkEdge "A" "high2" None 2])
  = ["high1"; "high2"; "mid"; "low"].
Proof. reflexivity. Qed.

(** ** Chat history manager: schema validation on restore *)

Section RestoreFacts.
Import Py ChatHistory.
Context {World Thread : Type}.
Variable utcnow : World -> Q.
Variable isoformat : Q -> string.
Variable fromisoformat : string -> option Q.

Abbreviation manager := (@manager World Thread).
Abbreviation ChatAgent := (@ChatAgent World Thread).
Abbreviation _create_new_session := (@_create_new_session World Thread utcnow).
Abbreviation _restore_session :=
  (@_restore_session World Thread utcnow isoformat fromisoformat).

(** A role outside the allowed set is refused, whatever its type. *)
Lemma role_outside_refused (role : pyval) :
  (forall s, In s allowed_roles -> role <> PyStr s) -> role_allowed role = false.
Proof.
  intros H. destruct role; try reflexivity. cbn [role_allowed].
  destruct (existsb (String.eqb s) allowed_roles) eqn:E; [|reflexivity].
  apply List.existsb_exists in E. destruct E as (r & Hin & Heq).
  apply String.eqb_eq in Heq. subst r. exfalso. exact (H s Hin eq_refl).
Qed.

(** A content that is neither a string, a list nor [None] is refused. *)
Lemma content_outside_refused (content : pyval) :
  (forall s, content <> PyStr s) -> (forall l, content <> PyList l) ->
  content <> PyNone -> content_allowed content = false.
Proof.
  intros Hs Hl Hn. destruct content; try reflexivity.
  - contradiction.
  - exfalso. exact (Hs s eq_refl).
  - exfalso. exact (Hl l eq_refl).
Qed.

(** One refused message makes the whole payload invalid. *)
Lemma invalid_message_invalid_payload (d : dict) (messages : list pyval) (msg : pyval) :
  dict_get "messages" d = Some (PyList messages) ->
  In msg messages ->
  message_valid msg = false ->
  _validate_thread_data (PyDict d) = false.
Proof.
  intros Hm Hin Hbad. cbn [_validate_thread_data]. rewrite Hm.
  destruct (forallb message_valid messages) eqn:E; [|reflexivity].
  rewrite List.forallb_forall in E. rewrite (E msg Hin) in Hbad. discriminate.
Qed.

(** A payload that fails validation is answered by [_create_new_session];
    [deserialize_thread] is not called. *)
Lemma restore_invalid (chat_id : string) (thread_data : pyval) (m : manager)
  (agent : ChatAgent) (new_thread : Thread) (w' : World) :
  _validate_thread_data thread_data = false ->
  _agent m = Some agent ->
  get_new_thread agent (world m) = (inr new_thread, w') ->
  _restore_session chat_id thread_data m =
    (inr (chat_id, new_thread),
     mkManager (config m) (_agent m)
       (<[chat_id := mkSession chat_id new_thread (utcnow w') (utcnow w')
                               (PyInt 0) (PyBool false) false 0 0]>
          (_sessions m))
       w' (EvGetNewThread :: calls m)).
Proof.
  intros Hval Hagent Hnew.
  destruct m as [cfg ag sessions w cs]. cbn in Hagent, Hnew. subst ag.
  unfold ChatHistory._restore_session. rewrite Hval. cbn [negb].
  unfold try_except, ChatHistory._create_new_session, mbind, the_agent, external.
  cbn. rewrite Hnew. reflexivity.
Qed.

(** C6. A payload in which some message has a role outside
    {system, user, assistant, tool, function}, or a content that is not a
    string, a list or null, fails validation; restoring it calls
    [get_new_thread] and nothing else (no [deserialize_thread]), and the
    new thread is returned and stored in a fresh session under the given
    [chat_id]. *)
Theorem invalid_payload_never_deserialized
  (chat_id : string) (d md : dict) (messages : list pyval) (m : manager)
  (agent : ChatAgent) (new_thread : Thread) (w' : World) :
  dict_get "messages" d = Some (PyList messages) ->
  In (PyDict md) messages ->
  (exists role, dict_get "role" md = Some role /\
                forall s, In s allowed_roles -> role <> PyStr s)
  \/ (exists content, dict_get "content" md = Some content /\
                      (forall s, content <> PyStr s) /\
                      (forall l, content <> PyList l) /\
                      content <> PyNone) ->
  _agent m = Some agent ->
  get_new_thread agent (world m) = (inr new_thread, w') ->
  let m' := snd (_restore_session chat_id (PyDict d) m) in
  _validate_thread_data (PyDict d) = false /\
  fst (_restore_session chat_id (PyDict d) m) = inr (chat_id, new_thread) /\
  _sessions m' !! chat_id
  = Some (mkSession chat_id new_thread (utcnow w') (utcnow w')
                    (PyInt 0) (PyBool false) false 0 0) /\
  calls m' = EvGetNewThread :: calls m /\
  List.filter is_deserialize (calls m') = List.filter is_deserialize (calls m).
Proof.
  intros Hm Hin Hbad Hagent Hnew m'.
  assert (Hmsg : message_valid (PyDict md) = false).
  { cbn [message_valid]. destruct Hbad as [(role & Hr & Hout) | (c & Hc & Hs & Hl & Hn)].
    - rewrite Hr, (role_outside_refused role Hout). reflexivity.
    - rewrite Hc, (content_outside_refused c Hs Hl Hn). apply andb_false_r. }
  assert (Hval := invalid_message_invalid_payload d messages _ Hm Hin Hmsg).
  subst m'. rewrite (restore_invalid chat_id _ m agent new_thread w' Hval Hagent Hnew).
  cbn [fst snd _sessions calls]. repeat split; auto.
  apply lookup_insert_eq.
Qed.

End RestoreFacts.

Section ResolveFacts.
Import Py ChatHistory.
Context {World Thread : Type}.
Variable cache_get : string -> World -> result pyval * World.
Variable cache_set : string -> pyval -> World -> result bool * World.
Variable persistence_get : string -> World -> result pyval * World.
Variable utcnow : World -> Q.
Variable isoformat : Q -> string.
Variable fromisoformat : string -> option Q.
Variable uuid4 : World -> string * World.

Abbreviation get_or_create_thread :=
  (@get_or_create_thread World Thread cache_get cache_set persistence_get
                         utcnow isoformat fromisoformat uuid4).

(** The same on the path through the hot cache: a cached payload that
    fails validation ends in a new thread under the requested [chat_id];
    the calls that leave the manager are the cache read and
    [get_new_thread]. *)
Lemma cached_invalid_payload_new_thread
  (chat_id : string) (payload : pyval) (m : @manager World Thread)
  (agent : @ChatAgent World Thread) (new_thread : Thread) (w1 w2 : World) :
  chat_id <> EmptyString ->
  _agent m = Some agent ->
  _sessions m !! chat_id = None ->
  cache_get chat_id (world m) = (inr payload, w1) ->
  truthy payload = true ->
  _validate_thread_data payload = false ->
  get_new_thread agent w1 = (inr new_thread, w2) ->
  fst (get_or_create_thread (Some chat_id) m) = inr (chat_id, new_thread) /\
  calls (snd (get_or_create_thread (Some chat_id) m))
  = EvGetNewThread :: EvCacheGet chat_id :: calls m.
Proof.
  intros Hne Hagent Hnone Hcache Htruthy Hval Hnew.
  destruct m as [cfg ag sessions w cs]. cbn in Hagent, Hnone, Hcache. subst ag.
  destruct chat_id as [|c chat_id]; [contradiction|].
  set (m1 := mkManager cfg (Some agent) sessions w1
                       (EvCacheGet (String c chat_id) :: cs)).
  assert (Hrun : get_or_create_thread (Some (String c chat_id))
                   (mkManager cfg (Some agent) sessions w cs)
                 = _restore_session utcnow isoformat fromisoformat
                     (String c chat_id) payload m1).
  { unfold ChatHistory.get_or_create_thread, mbind, get_manager.
    cbn [_agent _sessions config world calls].
    rewrite Hnone. unfold external. cbn [world calls config _agent _sessions].
    rewrite Hcache, Htruthy. reflexivity. }
  rewrite Hrun.
  rewrite (restore_invalid utcnow isoformat fromisoformat _ payload m1
             agent new_thread w2 Hval eq_refl Hnew).
  split; reflexivity.
Qed.

End ResolveFacts.

(** The theorem on a payload whose message has the role "admin": the
    only call that leaves the manager is [get_new_thread], and the session
    "c1" holds the new, empty thread. *)
Lemma invalid_payload_witness :
  let r := ChatHistory._restore_session
             Scenarios.clock_of Scenarios.iso Scenarios.from_iso
             "c1" (Py.PyDict Scenarios.hostile_payload) Scenarios.empty_manager in
  fst r = inr ("c1", []) /\
  ChatHistory.calls (snd r) = [ChatHistory.EvGetNewThread].
Proof.
  destruct (invalid_payload_never_deserialized
              Scenarios.clock_of Scenarios.iso Scenarios.from_iso
              "c1" Scenarios.hostile_payload Scenarios.hostile_message
              [Py.PyDict Scenarios.hostile_message]
              Scenarios.empty_manager Scenarios.scripted_agent [] 1%nat)
    as (_ & Hres & _ & Hcalls & _).
  - reflexivity.
  - left. reflexivity.
  - left. exists (Py.PyStr "admin"). split; [reflexivity|].
    intros s Hs Heq. inversion Heq; subst s. cbn in Hs.
    repeat (destruct Hs as [Hs|Hs]; [discriminate Hs|]). exact Hs.
  - reflexivity.
  - reflexivity.
  - split; [exact Hres|exact Hcalls].
Defined.

(** A payload that passes validation is deserialized. *)
Example valid_payload_deserialized :
  ChatHistory.calls
    (snd (ChatHistory._restore_session
            Scenarios.clock_of Scenarios.iso Scenarios.from_iso
            "c1" (Py.PyDict Scenarios.friendly_payload) Scenarios.empty_manager))
  = [ChatHistory.EvDeserialize Scenarios.friendly_payload].
Proof. reflexivity. Qed.

(** ** Chat history manager: persist with merge *)

Section DictFacts.
Import Py.

Lemma dict_get_set_eq (k : string) (v : pyval) (d : dict) :
  dict_get k (dict_set k v d) = Some v.
Proof.
  induction d as [|[k' v'] d IH]; cbn.
  - now rewrite String.eqb_refl.
  - destruct (String.eqb k k') eqn:E; cbn; rewrite E; [reflexivity|exact IH].
Qed.

Lemma dict_get_set_ne (k k' : string) (v : pyval) (d : dict) :
  k <> k' -> dict_get k (dict_set k' v d) = dict_get k d.
Proof.
  intros Hne. induction d as [|[k0 v0] d IH]; cbn.
  - destruct (String.eqb_spec k k'); [contradiction|reflexivity].
  - destruct (String.eqb_spec k' k0) as [->|Hk0]; cbn.
    + destruct (String.eqb_spec k k0); [contradiction|reflexivity].
    + destruct (String.eqb k k0); [reflexivity|exact IH].
Qed.

(** Writing back the value a key already has changes no lookup. *)
Lemma dict_get_set_same (k k' : string) (v : pyval) (d : dict) :
  dict_get k' d = Some v -> dict_get k (dict_set k' v d) = dict_get k d.
Proof.
  intros H. destruct (String.eqb_spec k k') as [->|Hne].
  - now rewrite dict_get_set_eq.
  - now apply dict_get_set_ne.
Qed.

Lemma dict_get_In (d : dict) (k : string) (v : pyval) :
  NoDup (map fst d) -> In (k, v) d -> dict_get k d = Some v.
Proof.
  induction d as [|[k0 v0] d IH]; intros Hnd Hin; [destruct Hin|].
  cbn in Hnd. apply NoDup_cons in Hnd. destruct Hnd as [Hnotin Hnd'].
  cbn. destruct Hin as [Heq|Hin].
  - inversion Heq; subst. now rewrite String.eqb_refl.
  - destruct (String.eqb_spec k k0) as [->|Hne]; [|now apply IH].
    exfalso. apply Hnotin. apply list_elem_of_In.
    apply (List.in_map fst) in Hin. exact Hin.
Qed.

(** Merging in entries the dict already has changes no lookup. *)
Lemma dict_merge_known (b acc : dict) :
  (forall k v, In (k, v) b -> dict_get k acc = Some v) ->
  forall k, dict_get k (dict_merge acc b) = dict_get k acc.
Proof.
  unfold dict_merge. revert acc.
  induction b as [|[k0 v0] b IH]; intros acc H k; [reflexivity|].
  cbn [fold_left fst snd].
  rewrite IH.
  - apply dict_get_set_same. apply H. now left.
  - intros k1 v1 Hin. rewrite dict_get_set_same.
    + apply H. now right.
    + apply H. now left.
Qed.

(** [{**a, **a}] has the lookups of [a]. *)
Lemma dict_merge_self (a : dict) :
  NoDup (map fst a) -> forall k, dict_get k (dict_merge a a) = dict_get k a.
Proof.
  intros Hnd. apply dict_merge_known. intros k v Hin. now apply dict_get_In.
Qed.

End DictFacts.

Section MergeFacts.
Import Py ChatHistory.
Variable repr : pyval -> string.

(** Merging a blob with itself succeeds and changes no lookup. *)
Lemma merge_thread_data_self (a : dict) :
  NoDup (map fst a) ->
  (forall v, dict_get "messages" a = Some v -> exists l, v = PyList l) ->
  exists merged,
    _merge_thread_data repr (PyDict a) a = inr merged /\
    forall k, dict_get k merged = dict_get k a.
Proof.
  intros Hnd Hmsgs. unfold _merge_thread_data.
  set (merged0 := dict_merge a a).
  assert (H0 : forall k, dict_get k merged0 = dict_get k a)
    by (apply dict_merge_self; exact Hnd).
  set (merged1 := match dict_get "_created_at" a with
                  | Some c => dict_set "_created_at" c merged0
                  | None => merged0
                  end).
  assert (H1 : forall k, dict_get k merged1 = dict_get k a).
  { intros k. subst merged1. destruct (dict_get "_created_at" a) as [c|] eqn:E.
    - rewrite dict_get_set_same; [apply H0|]. now rewrite H0.
    - apply H0. }
  unfold dict_mem, dict_get_default.
  destruct (dict_get "messages" a) as [v|] eqn:E.
  - destruct (Hmsgs v eq_refl) as [l ->]. cbn [andb py_len bind ret].
    replace (Z.of_nat (length l) >=? Z.of_nat (length l)) with true
      by (symmetry; apply Z.geb_le; lia).
    unfold bind, ret. rewrite dict_get_set_eq. cbn [py_len].
    eexists. split; [reflexivity|].
    intros k. rewrite dict_get_set_same; [apply H1|]. now rewrite H1.
  - cbn [andb py_len]. unfold bind, ret. rewrite H1, E. cbn [py_len].
    eexists. split; [reflexivity|exact H1].
Qed.

(** The blob handed to the store when the stored blob is the one being
    persisted, against the blob handed over when nothing is stored. *)
Lemma merged_blob_self (a : dict) (n : Z) (persisted_at : string) :
  a <> [] ->
  NoDup (map fst a) ->
  (forall v, dict_get "messages" a = Some v -> exists l, v = PyList l) ->
  dict_get_default "_merge_count" (PyInt 0) a = PyInt n ->
  exists merged alone,
    merged_blob repr (PyDict a) a persisted_at = inr merged /\
    merged_blob repr PyNone a persisted_at = inr alone /\
    (forall k, k <> "_merge_count" -> dict_get k merged = dict_get k alone) /\
    dict_get "_merge_count" merged = Some (PyInt (n + 1)) /\
    dict_get "messages" merged = dict_get "messages" a.
Proof.
  intros Hne Hnd Hmsgs Hcount.
  destruct (merge_thread_data_self a Hnd Hmsgs) as (m0 & Hmerge & Hget).
  unfold merged_blob.
  assert (Htruthy : truthy (PyDict a) = true) by (destruct a; [contradiction|reflexivity]).
  rewrite Htruthy, Hmerge. cbn [bind truthy next_merge_count]. rewrite Hcount.
  cbn [bind ret].
  eexists. eexists. split; [reflexivity|]. split; [reflexivity|].
  split; [|split].
  - intros k Hk.
    destruct (String.eqb_spec k "_persisted_at") as [->|H1];
      [now rewrite !dict_get_set_eq|].
    rewrite !(dict_get_set_ne k "_persisted_at") by exact H1.
    destruct (String.eqb_spec k "_persisted") as [->|H2];
      [now rewrite !dict_get_set_eq|].
    rewrite !(dict_get_set_ne k "_persisted") by exact H2.
    rewrite dict_get_set_ne by exact Hk. apply Hget.
  - rewrite !dict_get_set_ne by discriminate. apply dict_get_set_eq.
  - rewrite !dict_get_set_ne by discriminate. apply Hget.
Qed.

End MergeFacts.

Section PersistFacts.
Import Py ChatHistory.
Context {World Thread : Type}.
Variable persistence_get : string -> World -> result pyval * World.
Variable persistence_save : string -> dict -> World -> result bool * World.
Variable utcnow : World -> Q.
Variable isoformat : Q -> string.
Variable repr : pyval -> string.

Abbreviation _persist_with_merge :=
  (@_persist_with_merge World Thread persistence_get persistence_save
                        utcnow isoformat repr).

(** What [_persist_with_merge] hands to the store is [merged_blob] of what
    it read from the store. *)
Lemma persist_with_merge_saves (chat_id : string) (new_data blob : dict)
  (m : @manager World Thread) (existing : pyval) (w1 : World) :
  persistence_get chat_id (world m) = (inr existing, w1) ->
  merged_blob repr existing new_data (isoformat (utcnow w1)) = inr blob ->
  calls (snd (_persist_with_merge chat_id new_data m))
  = EvPersistenceSave chat_id blob :: EvPersistenceGet chat_id :: calls m.
Proof.
  intros Hget Hblob. destruct m as [cfg ag sessions w cs]. cbn in Hget.
  unfold ChatHistory._persist_with_merge, try_except, mbind, external, now, lift.
  cbn. rewrite Hget. cbn. rewrite Hblob.
  destruct (persistence_save chat_id blob w1) as [[e|[|]] w2]; reflexivity.
Qed.

(** C7. Let [a] be a thread blob (a non-empty dict whose [messages], when
    present, is a list and whose [_merge_count], when present, is an
    integer).  Persisting [a] while the store holds [a] hands the store
    a blob that agrees, on every key but [_merge_count], with the blob
    handed over when [a] is persisted with nothing stored (at the same
    clock reading); its messages are those of [a]; and its
    [_merge_count] is the stored blob's (0 when absent) plus one. *)
Theorem persist_with_merge_idempotent
  (chat_id : string) (a : dict) (n : Z) (m m0 : @manager World Thread)
  (w1 w0 : World) :
  a <> [] ->
  NoDup (map fst a) ->
  (forall v, dict_get "messages" a = Some v -> exists l, v = PyList l) ->
  dict_get_default "_merge_count" (PyInt 0) a = PyInt n ->
  persistence_get chat_id (world m) = (inr (PyDict a), w1) ->
  persistence_get chat_id (world m0) = (inr PyNone, w0) ->
  utcnow w0 = utcnow w1 ->
  exists merged alone,
    calls (snd (_persist_with_merge chat_id a m))
    = EvPersistenceSave chat_id merged :: EvPersistenceGet chat_id :: calls m /\
    calls (snd (_persist_with_merge chat_id a m0))
    = EvPersistenceSave chat_id alone :: EvPersistenceGet chat_id :: calls m0 /\
    (forall k, k <> "_merge_count" -> dict_get k merged = dict_get k alone) /\
    dict_get "messages" merged = dict_get "messages" a /\
    dict_get "_merge_count" merged = Some (PyInt (n + 1)).
Proof.
  intros Hne Hnd Hmsgs Hcount Hget Hget0 Hclock.
  destruct (merged_blob_self repr a n (isoformat (utcnow w1)) Hne Hnd Hmsgs Hcount)
    as (merged & alone & Hm & Ha & Hsame & Hmc & Hmsg).
  exists merged, alone. repeat split; auto.
  - exact (persist_with_merge_saves chat_id a merged m _ w1 Hget Hm).
  - rewrite <- Hclock in Ha.
    exact (persist_with_merge_saves chat_id a alone m0 _ w0 Hget0 Ha).
Qed.

End PersistFacts.

(** The theorem on a stored blob with two messages merged before: the
    blob written back carries [_merge_count = 3]. *)
Lemma persist_with_merge_witness :
  exists merged,
    ChatHistory.calls
      (snd (ChatHistory._persist_with_merge
              Scenarios.store_by_world Scenarios.store_accepts
              Scenarios.clock_of Scenarios.iso Scenarios.repr_stub
              "c1" Scenarios.stored_blob (Scenarios.manager_at 1)))
    = [ChatHistory.EvPersistenceSave "c1" merged; ChatHistory.EvPersistenceGet "c1"] /\
    Py.dict_get "_merge_count" merged = Some (Py.PyInt 3).
Proof.
  destruct (persist_with_merge_idempotent
              Scenarios.store_by_world Scenarios.store_accepts
              Scenarios.clock_of Scenarios.iso Scenarios.repr_stub
              "c1" Scenarios.stored_blob 2
              (Scenarios.manager_at 1) (Scenarios.manager_at 0) 10%nat 10%nat)
    as (merged & alone & Hcalls & _ & _ & _ & Hcount).
  - intros H; discriminate H.
  - apply (bool_decide_unpack _). vm_compute. reflexivity.
  - intros v Hv. cbn in Hv. inversion Hv. eexists. reflexivity.
  - reflexivity.
  - reflexivity.
  - reflexivity.
  - reflexivity.
  - exists merged. split; [exact Hcalls|exact Hcount].
Defined.

(** ** Chat history manager: summarization *)

Section SummarizeFacts.
Import Py ChatHistory.
Context {World Thread : Type}.
Variable serialize : Thread -> World -> result dict * World.
Variable thread_messages : Thread -> option (list message_view).
Variable thread_truthy : Thread -> bool.
Variable cache_set : string -> pyval -> World -> result bool * World.
Variable persistence_get : string -> World -> result pyval * World.
Variable persistence_save : string -> dict -> World -> result bool * World.
Variable utcnow : World -> Q.
Variable isoformat : Q -> string.
Variable repr : pyval -> string.

Abbreviation summarize_if_needed :=
  (@summarize_if_needed World Thread serialize thread_messages thread_truthy
     cache_set persistence_get persistence_save utcnow isoformat repr).

(** Recording a token estimate changes no session's thread. *)
Lemma thread_after_estimate (sessions : gmap string (@ChatSession Thread))
  (chat_id k : string) (n : Z) :
  thread <$> (alter (set_estimated_tokens n) chat_id sessions !! k)
  = thread <$> (sessions !! k).
Proof.
  destruct (decide (chat_id = k)) as [->|Hne].
  - rewrite lookup_alter_eq. now destruct (sessions !! k).
  - now rewrite lookup_alter_ne.
Qed.

(** C8. When the serialized thread of the session holds no more messages
    than [recent_messages_to_keep], [summarize_if_needed] returns [False],
    every session keeps its thread, and the agent is not run -- whatever
    the token estimate and whether or not summarization is enabled. *)
Theorem short_thread_not_summarized
  (chat_id : string) (summarizer_agent : option (@ChatAgent World Thread))
  (m : @manager World Thread) (session : @ChatSession Thread)
  (thread_data : dict) (messages : list pyval) (w1 : World) :
  _sessions m !! chat_id = Some session ->
  serialize (thread session) (world m) = (inr thread_data, w1) ->
  dict_get_default "messages" (PyList []) thread_data = PyList messages ->
  Z.of_nat (length messages) <= recent_messages_to_keep (summarization (config m)) ->
  let r := summarize_if_needed chat_id summarizer_agent m in
  fst r = inr false /\
  thread <$> (_sessions (snd r) !! chat_id) = Some (thread session) /\
  (forall k, thread <$> (_sessions (snd r) !! k) = thread <$> (_sessions m !! k)) /\
  List.filter is_run (calls (snd r)) = List.filter is_run (calls m).
Proof.
  intros Hs Hser Hmsgs Hlen r.
  assert (Hgoal : fst r = inr false /\
    (forall k, thread <$> (_sessions (snd r) !! k) = thread <$> (_sessions m !! k)) /\
    List.filter is_run (calls (snd r)) = List.filter is_run (calls m)).
  { subst r. destruct m as [cfg ag sessions w cs]. cbn in Hs, Hser, Hlen.
    unfold ChatHistory.summarize_if_needed, needs_summarization, mbind,
      get_manager, get_session, update_session, modify, mret, set_sessions.
    cbn [config _sessions _agent world calls].
    destruct (enabled (summarization cfg)); cbn [negb];
      [|cbn; auto].
    rewrite Hs.
    set (est := estimate_thread_tokens thread_messages (thread session)).
    destruct (est >? max_tokens (summarization cfg)); cbn [negb];
      [|cbn; split; [reflexivity|split; [intros k; apply thread_after_estimate|reflexivity]]].
    cbn [config _sessions _agent world calls].
    rewrite lookup_alter_eq, Hs. cbn [fmap option_fmap option_map].
    cbn [config _sessions _agent world calls].
    destruct (match summarizer_agent with Some a => Some a | None => ag end)
      as [agent|];
      [|cbn; split; [reflexivity|split; [intros k; apply thread_after_estimate|reflexivity]]].
    unfold try_except, external, lift.
    cbn [thread set_estimated_tokens world config _agent _sessions calls].
    rewrite Hser. rewrite Hmsgs. cbn [py_len ret].
    replace (Z.of_nat (length messages) <=? recent_messages_to_keep (summarization cfg))
      with true by (symmetry; apply Z.leb_le; exact Hlen).
    cbn. split; [reflexivity|split; [intros k; apply thread_after_estimate|reflexivity]]. }
  destruct Hgoal as (H1 & H2 & H3). repeat split; auto.
  rewrite H2, Hs. reflexivity.
Qed.

End SummarizeFacts.

(** The theorem on a session of exactly two messages with two to keep,
    summarization enabled and the estimate (4 tokens) above the budget
    (1 token). *)
Lemma short_thread_witness :
  ChatHistory.estimate_thread_tokens Scenarios.view_thread Scenarios.two_messages = 4 /\
  fst (Scenarios.summarize (Scenarios.manager_with Scenarios.two_messages))
  = inr false.
Proof.
  split; [reflexivity|].
  refine (proj1 (short_thread_not_summarized
                   Scenarios.serialize_thread Scenarios.view_thread (fun _ => true)
                   Scenarios.cache_accepts Scenarios.store_empty
                   Scenarios.store_accepts Scenarios.clock_of Scenarios.iso
                   Scenarios.repr_stub "c1" None
                   (Scenarios.manager_with Scenarios.two_messages)
                   (Scenarios.session_with Scenarios.two_messages)
                   [("messages", Py.PyList Scenarios.two_messages)]
                   Scenarios.two_messages 1%nat _ _ _ _)).
  - reflexivity.
  - reflexivity.
  - reflexivity.
  - vm_compute. intros H; discriminate H.
Defined.

(** One message more and the session is summarized: the new thread is the
    summary followed by the two most recent messages. *)
Example longer_thread_summarized :
  let r := Scenarios.summarize (Scenarios.manager_with Scenarios.three_messages) in
  fst r = inr true /\
  (length <$> (ChatHistory.thread <$> (ChatHistory._sessions (snd r) !! "c1")))
  = Some 3%nat /\
  (ChatHistory.summary_count <$> (ChatHistory._sessions (snd r) !! "c1")) = Some 1.
Proof. vm_compute. repeat split; reflexivity. Qed.

(** ** Rate limiter: admission, retry hints and accounting *)

Section AdmissionFacts.
Import RateLimiter.

(** Clean-up drops the counters that are zero, which read as zero anyway. *)
Lemma current_concurrent_cleanup l now u :
  current_concurrent (_cleanup_windows l now) (identifier_of u) = concurrent_of l u.
Proof.
  unfold current_concurrent, concurrent_of.
  change (config (_cleanup_windows l now)) with (config l).
  destruct (per_user (config l)); [|reflexivity].
  change (_concurrent_requests (_cleanup_windows l now))
    with (filter (fun kv : string * Z => kv.2 ≠ 0) (_concurrent_requests l)).
  unfold dd_read.
  destruct (filter _ _ !! identifier_of u) eqn:E1;
    destruct (_concurrent_requests l !! identifier_of u) eqn:E2; cbn.
  - apply map_lookup_filter_Some in E1 as [E1 _]. congruence.
  - apply map_lookup_filter_Some in E1 as [E1 _]. congruence.
  - apply map_lookup_filter_None in E1 as [E1|E1]; [congruence|].
    specialize (E1 _ E2). cbn in E1. destruct (decide (z = 0)); [congruence|].
    contradiction.
  - reflexivity.
Qed.

Lemma check_concurrent_limit_fst l id :
  fst (_check_concurrent_limit l id) =
  if current_concurrent l id >=? max_concurrent_requests (config l)
  then Some (mkExceeded concurrent_limit 1 (current_concurrent l id)
                        (max_concurrent_requests (config l)))
  else None.
Proof.
  unfold _check_concurrent_limit. cbv zeta. destruct (_ >=? _); reflexivity.
Qed.

(** The concurrency check touches no window. *)
Lemma check_concurrent_limit_windows l id :
  let l' := snd (_check_concurrent_limit l id) in
  config l' = config l /\
  _user_minute_state l' = _user_minute_state l /\
  _user_hour_state l' = _user_hour_state l /\
  _global_minute_state l' = _global_minute_state l /\
  _global_hour_state l' = _global_hour_state l.
Proof.
  unfold _check_concurrent_limit. cbv zeta.
  destruct (_ >=? _); cbn [snd]; destruct (per_user (config l)); repeat split.
Qed.

Lemma minute_state_ext l l' id tm :
  config l' = config l ->
  _user_minute_state l' = _user_minute_state l ->
  _global_minute_state l' = _global_minute_state l ->
  minute_state l' id tm = minute_state l id tm.
Proof. unfold minute_state. now intros -> -> ->. Qed.

Lemma hour_state_ext l l' id th :
  config l' = config l ->
  _user_hour_state l' = _user_hour_state l ->
  _global_hour_state l' = _global_hour_state l ->
  hour_state l' id th = hour_state l id th.
Proof. unfold hour_state. now intros -> -> ->. Qed.

(** After the request check the minute window is the rolled one. *)
Lemma check_request_limit_minute l id now tm th :
  minute_state (snd (_check_request_limit l id now tm th)) id tm
  = roll 60 now (minute_state l id tm).
Proof.
  unfold _check_request_limit. cbv zeta.
  destruct (burst_ceiling _ _) as [ex|max_requests]; cbn [snd];
    [apply minute_state_put_minute_state|].
  destruct (_ >=? _); cbn [snd]; [apply minute_state_put_minute_state|].
  destruct (_ >=? _); cbn [snd];
    now rewrite minute_state_put_hour_state, minute_state_put_minute_state.
Qed.

Lemma config_check_request_limit l id now tm th :
  config (snd (_check_request_limit l id now tm th)) = config l.
Proof.
  unfold _check_request_limit. cbv zeta.
  destruct (burst_ceiling _ _) as [ex|max_requests]; cbn [snd];
    [now rewrite config_put_minute_state|].
  destruct (_ >=? _); cbn [snd]; [now rewrite config_put_minute_state|].
  destruct (_ >=? _); cbn [snd];
    now rewrite config_put_hour_state, config_put_minute_state.
Qed.

Lemma tokens_roll len now s : tokens (roll len now s) = tokens s.
Proof. unfold roll. now destruct (Qle_bool _ _). Qed.

(** How [check_limit] decides, one check after the other. *)
Lemma check_limit_fst l u est now tm th :
  let cfg := config l in
  let id := identifier_of u in
  let l0 := _cleanup_windows l now in
  let minute := roll 60 now (minute_state l0 id tm) in
  let hour := roll 3600 now (hour_state l0 id th) in
  fst (check_limit l u est now tm th) =
  if negb (enabled cfg) then inr (Py.ret true)
  else if concurrent_of l u >=? max_concurrent_requests cfg then
    inl (mkExceeded concurrent_limit 1 (concurrent_of l u)
                    (max_concurrent_requests cfg))
  else
    match burst_ceiling (requests_per_minute cfg) (burst_multiplier cfg) with
    | inl ex => inr (Py.raise ex)
    | inr max_requests =>
        if count minute >=? max_requests then
          inl (mkExceeded requests_per_minute_limit
                 (Qmax0 (60 - (now - window_start minute)))
                 (count minute) (requests_per_minute cfg))
        else if count hour >=? requests_per_hour cfg then
          inl (mkExceeded requests_per_hour_limit
                 (Qmax0 (3600 - (now - window_start hour)))
                 (count hour) (requests_per_hour cfg))
        else if est >? 0 then
          match burst_ceiling (tokens_per_minute cfg) (burst_multiplier cfg) with
          | inl ex => inr (Py.raise ex)
          | inr max_tokens =>
              if tokens minute + est >? max_tokens then
                inl (mkExceeded tokens_per_minute_limit
                       (Qmax0 (60 - (now - window_start minute)))
                       (tokens minute + est) (tokens_per_minute cfg))
              else inr (Py.ret true)
          end
        else inr (Py.ret true)
    end.
Proof.
  intros cfg id l0 minute hour.
  unfold check_limit. fold cfg.
  destruct (negb (enabled cfg)); [reflexivity|].
  fold id l0.
  pose proof (check_concurrent_limit_fst l0 id) as Hc.
  pose proof (check_concurrent_limit_windows l0 id) as Hw. cbv zeta in Hw.
  pose proof (current_concurrent_cleanup l now u) as Hcc. fold l0 id in Hcc.
  rewrite Hcc in Hc. clear Hcc.
  change (config (_cleanup_windows l now)) with cfg in Hc.
  destruct (_check_concurrent_limit l0 id) as [oc l1]. cbn [fst snd] in Hc, Hw.
  destruct Hw as (Hcfg1 & Hum & Huh & Hgm & Hgh).
  change (config l0) with cfg in Hcfg1.
  subst oc. destruct (concurrent_of l u >=? _); [reflexivity|].
  pose proof (check_request_limit_fst l1 id now tm th) as Hr. cbv zeta in Hr.
  pose proof (check_request_limit_minute l1 id now tm th) as Hm.
  rewrite (minute_state_ext l0 l1 id tm Hcfg1 Hum Hgm) in Hr, Hm.
  rewrite (hour_state_ext l0 l1 id th Hcfg1 Huh Hgh) in Hr.
  rewrite Hcfg1 in Hr. fold minute hour in Hr, Hm.
  assert (Hcfg2 : config (snd (_check_request_limit l1 id now tm th)) = cfg)
    by (rewrite config_check_request_limit; exact Hcfg1).
  destruct (_check_request_limit l1 id now tm th) as [orq l2]. cbn [fst snd] in *.
  subst orq.
  destruct (burst_ceiling (requests_per_minute cfg) _) as [ex|max_requests];
    [reflexivity|].
  destruct (count minute >=? max_requests); [reflexivity|].
  destruct (count hour >=? requests_per_hour cfg); [reflexivity|].
  destruct (est >? 0); [|reflexivity].
  pose proof (check_token_limit_fst l2 id est now tm) as Ht. cbv zeta in Ht.
  rewrite Hm, Hcfg2 in Ht.
  destruct (_check_token_limit l2 id est now tm) as [ot l3]. cbn [fst] in Ht.
  subst ot.
  destruct (burst_ceiling (tokens_per_minute cfg) _) as [ex|max_tokens];
    [reflexivity|].
  destruct (_ >? max_tokens); reflexivity.
Qed.

(** X1. [check_limit] returns [True] exactly when the limiter is disabled
    or the request is below every limit: the identity's concurrent count
    is below the cap, the count of its minute window (restarted if sixty
    seconds have passed) is below the burst ceiling
    [int(requests_per_minute * burst_multiplier)], the count of its hour
    window is below the hourly limit, and, when tokens are estimated, the
    window's tokens plus the estimate do not exceed the token ceiling
    [int(tokens_per_minute * burst_multiplier)]; the ceilings are the
    truncated double products and have to be computable.  An exception
    other than [RateLimitExceeded] is the error of a ceiling that is
    not. *)
Theorem check_limit_admits_iff
  (l : t) (user_id : option string) (estimated_tokens : Z) (now tm th : Q) :
  let cfg := config l in
  let identifier := identifier_of user_id in
  let l0 := _cleanup_windows l now in
  let minute := roll 60 now (minute_state l0 identifier tm) in
  let hour := roll 3600 now (hour_state l0 identifier th) in
  let verdict := fst (check_limit l user_id estimated_tokens now tm th) in
  (verdict = inr (Py.ret true) <->
   enabled cfg = false \/
   (concurrent_of l user_id < max_concurrent_requests cfg /\
    (exists max_requests,
       burst_ceiling (requests_per_minute cfg) (burst_multiplier cfg)
       = inr max_requests /\
       count minute < max_requests) /\
    count hour < requests_per_hour cfg /\
    (0 < estimated_tokens ->
     exists max_tokens,
       burst_ceiling (tokens_per_minute cfg) (burst_multiplier cfg)
       = inr max_tokens /\
       tokens minute + estimated_tokens <= max_tokens))) /\
  (forall ex, verdict = inr (Py.raise ex) ->
     enabled cfg = true /\
     concurrent_of l user_id < max_concurrent_requests cfg /\
     (burst_ceiling (requests_per_minute cfg) (burst_multiplier cfg) = inl ex \/
      0 < estimated_tokens /\
      burst_ceiling (tokens_per_minute cfg) (burst_multiplier cfg) = inl ex)).
Proof.
  intros cfg identifier l0 minute hour verdict.
  pose proof (check_limit_fst l user_id estimated_tokens now tm th) as H.
  cbv zeta in H. fold cfg identifier l0 in H. fold minute hour verdict in H.
  rewrite H. clear H verdict.
  destruct (enabled cfg); cbn [negb];
    [|split; [split; auto|intros ex [=]]].
  destruct (concurrent_of l user_id >=? _) eqn:E1.
  { apply Z.geb_le in E1. split; [|intros ex [=]].
    split; [discriminate|]. intros [?|?]; [discriminate|lia]. }
  rewrite Z.geb_leb in E1. apply Z.leb_gt in E1.
  destruct (burst_ceiling (requests_per_minute cfg) _) as [ex1|max_requests].
  { split.
    - split; [discriminate|].
      intros [?|(_ & (m & [=] & _) & _)]; discriminate.
    - intros ex [= <-]. auto. }
  destruct (count minute >=? _) eqn:E2.
  { apply Z.geb_le in E2. split; [|intros ex [=]].
    split; [discriminate|].
    intros [?|(_ & (m & [= <-] & Hm) & _)]; [discriminate|lia]. }
  destruct (count hour >=? _) eqn:E3.
  { apply Z.geb_le in E3. split; [|intros ex [=]].
    split; [discriminate|]. intros [?|?]; [discriminate|lia]. }
  rewrite Z.geb_leb in E2, E3.
  apply Z.leb_gt in E2. apply Z.leb_gt in E3.
  destruct (estimated_tokens >? 0) eqn:E4; rewrite Z.gtb_ltb in E4.
  - apply Z.ltb_lt in E4.
    destruct (burst_ceiling (tokens_per_minute cfg) _) as [ex2|max_tokens].
    { split.
      - split; [discriminate|].
        intros [?|(_ & _ & _ & Ht)]; [discriminate|].
        destruct (Ht E4) as (m & [=] & _).
      - intros ex [= <-]. auto. }
    destruct (_ >? _) eqn:E5; rewrite Z.gtb_ltb in E5.
    + apply Z.ltb_lt in E5. split; [|intros ex [=]].
      split; [discriminate|].
      intros [?|(_ & _ & _ & Ht)]; [discriminate|].
      destruct (Ht E4) as (m & [= <-] & Hm). lia.
    + apply Z.ltb_ge in E5. split; [|intros ex [=]].
      split; [|reflexivity]. intros _. right.
      split; [exact E1|]. split; [eauto|]. split; [exact E3|]. eauto.
  - apply Z.ltb_ge in E4. split; [|intros ex [=]].
    split; [|reflexivity]. intros _. right.
    split; [exact E1|]. split; [eauto|]. split; [exact E3|]. intros; lia.
Qed.

Lemma Qmax0_pos (x : Q) : (0 < x)%Q -> (0 < Qmax0 x)%Q.
Proof.
  intros H. unfold Qmax0. destruct (Qle_bool 0 x) eqn:E; [exact H|].
  exfalso. apply Qlt_le_weak in H. apply Qle_bool_iff in H. congruence.
Qed.

(** What is left of a window after the roll is a positive time. *)
Lemma roll_remaining (len now : Q) (s : RateLimitState) :
  (0 < len)%Q -> (0 < len - (now - window_start (roll len now s)))%Q.
Proof.
  intros Hlen. unfold roll. destruct (Qle_bool len (now - window_start s)) eqn:E.
  - cbn [window_start]. lra.
  - assert (H : ~ (len <= now - window_start s)%Q).
    { intros Hle. apply Qle_bool_iff in Hle. congruence. }
    apply Qnot_le_lt in H. lra.
Qed.

(** X2. Every rejection by [check_limit] carries a strictly positive
    [retry_after]: one second for the concurrency cap, and for the
    request and token limits the time left in the window, which the roll
    done before the comparison keeps above zero. *)
Theorem rejection_retry_after_positive
  (l : t) (user_id : option string) (estimated_tokens : Z) (now tm th : Q)
  (e : RateLimitExceeded) :
  fst (check_limit l user_id estimated_tokens now tm th) = inl e ->
  (0 < retry_after e)%Q.
Proof.
  pose proof (check_limit_fst l user_id estimated_tokens now tm th) as H.
  cbv zeta in H. rewrite H. clear H.
  destruct (negb _); [discriminate|].
  destruct (_ >=? _); [intros [= <-]; reflexivity|].
  destruct (burst_ceiling (requests_per_minute _) _); [discriminate|].
  destruct (_ >=? _);
    [intros [= <-]; cbn [retry_after]; apply Qmax0_pos, roll_remaining; reflexivity|].
  destruct (_ >=? _);
    [intros [= <-]; cbn [retry_after]; apply Qmax0_pos, roll_remaining; reflexivity|].
  destruct (_ >? 0); [|discriminate].
  destruct (burst_ceiling (tokens_per_minute _) _); [discriminate|].
  destruct (_ >? _);
    [intros [= <-]; cbn [retry_after]; apply Qmax0_pos, roll_remaining; reflexivity|].
  discriminate.
Qed.

End AdmissionFacts.

(** The theorem at the limiter with ten recorded requests and an hourly
    limit of ten: the rejection tells the caller to wait. *)
Lemma rejection_retry_after_witness :
  exists e,
    fst (RateLimiter.check_limit Scenarios.ten_requests (Some "u") 0 1 1 1) = inl e /\
    (0 < RateLimiter.retry_after e)%Q.
Proof.
  eexists. split; [vm_compute; reflexivity|].
  apply (rejection_retry_after_positive Scenarios.ten_requests (Some "u") 0 1 1 1).
  vm_compute. reflexivity.
Defined.

Section AccountingFacts.
Import RateLimiter Accounting.

(** With [per_user] off, a check leaves the tokens of the global minute
    window as they were: the roll clears the count only. *)
Lemma check_limit_global_tokens l u est now tm th :
  per_user (config l) = false ->
  tokens (_global_minute_state (snd (check_limit l u est now tm th)))
  = tokens (_global_minute_state l).
Proof.
  intros Hpu. unfold check_limit.
  destruct (negb (enabled (config l))); [reflexivity|].
  unfold _check_concurrent_limit. cbv zeta.
  change (config (_cleanup_windows l now)) with (config l). rewrite Hpu.
  set (l0 := _cleanup_windows l now).
  assert (H0 : _global_minute_state l0 = _global_minute_state l) by reflexivity.
  assert (Hc0 : per_user (config l0) = false) by exact Hpu.
  clearbody l0.
  assert (Hreq : forall l1, per_user (config l1) = false ->
            per_user (config (snd (_check_request_limit l1 (identifier_of u) now tm th)))
            = false /\
            tokens (_global_minute_state
                      (snd (_check_request_limit l1 (identifier_of u) now tm th)))
            = tokens (_global_minute_state l1)).
  { intros l1 H1. rewrite config_check_request_limit. split; [exact H1|].
    unfold _check_request_limit, put_minute_state, put_hour_state, minute_state.
    cbv zeta. rewrite H1. cbn [config set_global_minute]. rewrite H1.
    destruct (burst_ceiling _ _) as [ex|max_requests];
      cbn [snd _global_minute_state set_global_minute];
      [apply tokens_roll|].
    destruct (_ >=? _); cbn [snd _global_minute_state set_global_minute];
      [apply tokens_roll|].
    destruct (_ >=? _);
      cbn [snd _global_minute_state set_global_minute set_global_hour];
      apply tokens_roll. }
  assert (Htok : forall l2, per_user (config l2) = false ->
            tokens (_global_minute_state
                      (snd (_check_token_limit l2 (identifier_of u) est now tm)))
            = tokens (_global_minute_state l2)).
  { intros l2 H2.
    unfold _check_token_limit, put_minute_state, minute_state. cbv zeta.
    rewrite H2. destruct (burst_ceiling _ _) as [ex|max_tokens]; [reflexivity|].
    destruct (_ >? _); reflexivity. }
  destruct (current_concurrent l0 (identifier_of u) >=? _); [now rewrite <- H0|].
  destruct (Hreq l0 Hc0) as [Hc1 Ht1].
  destruct (_check_request_limit l0 _ _ _ _) as [[ex|[e|]] l1]; cbn [snd] in *;
    [congruence|congruence|].
  destruct (est >? 0); [|cbn [snd]; congruence].
  specialize (Htok l1 Hc1).
  destruct (_check_token_limit l1 _ _ _ _) as [[ex|[e|]] l2]; cbn [snd] in *;
    congruence.
Qed.

Lemma step_global_tokens l o :
  per_user (config l) = false ->
  enabled (config l) = true ->
  tokens (_global_minute_state (step l o))
  = tokens_recorded (tokens (_global_minute_state l)) [o].
Proof.
  intros Hpu Hen. destruct o as [u est now tm th|u n tm th|u|u|u t0]; cbn [step tokens_recorded].
  - now apply check_limit_global_tokens.
  - unfold record_request, put_minute_state, put_hour_state, minute_state.
    cbv zeta. rewrite Hen. cbn [negb]. rewrite Hpu. cbn [config set_global_minute].
    rewrite Hpu. reflexivity.
  - unfold acquire_concurrent_slot. rewrite Hen, Hpu. reflexivity.
  - unfold release_concurrent_slot. rewrite Hen, Hpu. reflexivity.
  - unfold reset, resets_all. destruct u as [u|]; [|reflexivity].
    destruct (String.eqb u EmptyString); reflexivity.
Qed.

Lemma tokens_recorded_cons acc o ops :
  tokens_recorded acc (o :: ops) = tokens_recorded (tokens_recorded acc [o]) ops.
Proof. destruct o; reflexivity. Qed.

(** X3. With [per_user] off, the tokens held against the per-minute token
    limit are all the tokens recorded since the last full reset, whatever
    the clock readings of the checks in between: a check restarts the
    request count of a window that is sixty seconds old but leaves its
    tokens. *)
Theorem global_tokens_are_all_recorded (ops : list op) : forall (l : t),
  per_user (config l) = false ->
  enabled (config l) = true ->
  tokens (_global_minute_state (run l ops))
  = tokens_recorded (tokens (_global_minute_state l)) ops.
Proof.
  induction ops as [|o ops IH]; intros l Hpu Hen; [reflexivity|].
  change (run l (o :: ops)) with (run (step l o) ops).
  rewrite tokens_recorded_cons, IH.
  - now rewrite step_global_tokens.
  - now rewrite config_step.
  - now rewrite config_step.
Qed.

(** With [per_user] off, no operation puts anything in the per-user
    tables. *)
Lemma step_global_tables l o :
  per_user (config l) = false ->
  _user_minute_state l = ∅ /\ _user_hour_state l = ∅ /\ _concurrent_requests l = ∅ ->
  let l' := step l o in
  _user_minute_state l' = ∅ /\ _user_hour_state l' = ∅ /\ _concurrent_requests l' = ∅.
Proof.
  intros Hpu (Hm & Hh & Hc). cbv zeta.
  destruct o as [u est now tm th|u n tm th|u|u|u t0]; cbn [step].
  - unfold check_limit. destruct (negb (enabled (config l))); [auto|].
    set (l0 := _cleanup_windows l now).
    assert (H0 : per_user (config l0) = false /\ _user_minute_state l0 = ∅ /\
                 _user_hour_state l0 = ∅ /\ _concurrent_requests l0 = ∅).
    { subst l0. cbn. rewrite Hm, Hh, Hc, !map_filter_empty. auto. }
    clearbody l0. destruct H0 as (Hpu0 & Hm0 & Hh0 & Hc0).
    assert (Hreq : forall l1, per_user (config l1) = false ->
              let l2 := snd (_check_request_limit l1 (identifier_of u) now tm th) in
              _user_minute_state l2 = _user_minute_state l1 /\
              _user_hour_state l2 = _user_hour_state l1 /\
              _concurrent_requests l2 = _concurrent_requests l1).
    { intros l1 H1. cbv zeta.
      unfold _check_request_limit, put_minute_state, put_hour_state. cbv zeta.
      rewrite H1. cbn [config set_global_minute]. rewrite H1.
      destruct (burst_ceiling _ _) as [ex|max_requests]; cbn [snd]; [auto|].
      destruct (_ >=? _); cbn [snd]; [auto|]. destruct (_ >=? _); cbn [snd]; auto. }
    assert (Htok : forall l1, per_user (config l1) = false ->
              let l2 := snd (_check_token_limit l1 (identifier_of u) est now tm) in
              _user_minute_state l2 = _user_minute_state l1 /\
              _user_hour_state l2 = _user_hour_state l1 /\
              _concurrent_requests l2 = _concurrent_requests l1).
    { intros l1 H1. cbv zeta.
      unfold _check_token_limit, put_minute_state. cbv zeta.
      rewrite H1. destruct (burst_ceiling _ _) as [ex|max_tokens]; cbn [snd]; [auto|].
      destruct (_ >? _); cbn [snd]; auto. }
    unfold _check_concurrent_limit. cbv zeta. rewrite Hpu0.
    destruct (_ >=? _); [auto|].
    specialize (Hreq l0 Hpu0). cbv zeta in Hreq.
    pose proof (config_check_request_limit l0 (identifier_of u) now tm th) as Hcfg.
    destruct (_check_request_limit l0 _ _ _ _) as [[ex|[e|]] l1]; cbn [snd] in *;
      [intuition congruence|intuition congruence|].
    destruct (est >? 0); [|cbn [snd]; intuition congruence].
    assert (Hpu1 : per_user (config l1) = false) by congruence.
    specialize (Htok l1 Hpu1). cbv zeta in Htok.
    destruct (_check_token_limit l1 _ _ _ _) as [[ex|[e|]] l2]; cbn [snd] in *;
      intuition congruence.
  - unfold record_request, put_minute_state, put_hour_state. cbv zeta.
    destruct (negb (enabled (config l))); [auto|].
    rewrite Hpu. cbn [config set_global_minute]. rewrite Hpu. auto.
  - unfold acquire_concurrent_slot. destruct (negb _); [auto|]. rewrite Hpu. auto.
  - unfold release_concurrent_slot. destruct (negb _); [auto|]. rewrite Hpu. auto.
  - unfold reset. destruct u as [u|]; [|auto].
    destruct (String.eqb u EmptyString); [auto|]. cbn.
    rewrite Hm, Hh, Hc, !delete_empty. auto.
Qed.

Lemma run_global_tables ops : forall l,
  per_user (config l) = false ->
  _user_minute_state l = ∅ /\ _user_hour_state l = ∅ /\ _concurrent_requests l = ∅ ->
  let l' := run l ops in
  _user_minute_state l' = ∅ /\ _user_hour_state l' = ∅ /\ _concurrent_requests l' = ∅.
Proof.
  induction ops as [|o ops IH]; intros l Hpu H; [exact H|].
  change (run l (o :: ops)) with (run (step l o) ops).
  apply IH; [now rewrite config_step|]. now apply step_global_tables.
Qed.

(** X4. With [per_user] off the limiter counts in its global windows and
    never fills the per-user tables [get_usage] and [reset(user)] work
    on: after any run of operations on a fresh limiter [get_usage]
    reports zero requests, zero tokens and zero concurrent requests used,
    for every user, and [reset] with a user id changes nothing. *)
Theorem global_mode_usage_report_is_empty
  (cfg : RateLimitConfig) (t0 : Q) (ops : list op)
  (user_id : option string) (t1 : Q) :
  per_user cfg = false ->
  let l := run (init cfg t0) ops in
  used (requests_minute (get_usage l user_id t1)) = 0 /\
  used (requests_hour (get_usage l user_id t1)) = 0 /\
  used (tokens_minute (get_usage l user_id t1)) = 0 /\
  concurrent_used (get_usage l user_id t1) = 0 /\
  (forall u, u <> EmptyString -> reset l (Some u) t1 = l).
Proof.
  intros Hpu l.
  destruct (run_global_tables ops (init cfg t0) Hpu) as (Hm & Hh & Hc);
    [repeat split|].
  fold l in Hm, Hh, Hc.
  unfold get_usage. cbv zeta. rewrite Hm, Hh, Hc, !lookup_empty. cbn.
  repeat split; try reflexivity.
  intros u Hu. unfold reset.
  destruct (String.eqb u EmptyString) eqn:E; [apply String.eqb_eq in E; contradiction|].
  rewrite Hm, Hh, Hc, !delete_empty. rewrite <- Hm at 1. rewrite <- Hh at 1.
  rewrite <- Hc at 1. now destruct l.
Qed.

End AccountingFacts.

(** The theorem on a limiter with [per_user] off: the 40 tokens recorded
    before the check made 4000 s later are still counted after it. *)
Lemma global_tokens_witness :
  let l := RateLimiter.init Scenarios.global_config 0 in
  RateLimiter.per_user (RateLimiter.config l) = false /\
  RateLimiter.enabled (RateLimiter.config l) = true /\
  RateLimiter.tokens
    (RateLimiter._global_minute_state (RateLimiter.run l Scenarios.global_ops))
  = 110.
Proof.
  intros l. split; [reflexivity|]. split; [reflexivity|].
  exact (global_tokens_are_all_recorded Scenarios.global_ops l eq_refl eq_refl).
Defined.

(** The theorem on the same run: three operations later the report for
    user "u" shows nothing used. *)
Lemma global_mode_usage_witness :
  RateLimiter.per_user Scenarios.global_config = false /\
  RateLimiter.used
    (RateLimiter.requests_minute
       (RateLimiter.get_usage
          (RateLimiter.run (RateLimiter.init Scenarios.global_config 0)
                           Scenarios.global_ops)
          (Some "u") 4000)) = 0.
Proof.
  split; [reflexivity|].
  exact (proj1 (global_mode_usage_report_is_empty
                  Scenarios.global_config 0 Scenarios.global_ops (Some "u") 4000
                  eq_refl)).
Defined.

Section SlotFacts.
Import RateLimiter.

Lemma concurrent_of_acquire l u :
  concurrent_of (acquire_concurrent_slot l u) u =
  if enabled (config l) then concurrent_of l u + 1 else concurrent_of l u.
Proof.
  unfold acquire_concurrent_slot, concurrent_of. cbv zeta.
  destruct (enabled (config l)); cbn [negb]; [|reflexivity].
  destruct (per_user (config l)) eqn:E; cbn; rewrite E; [|reflexivity].
  rewrite lookup_insert_eq. cbn. unfold dd_read.
  destruct (_concurrent_requests l !! identifier_of u); reflexivity.
Qed.

Lemma concurrent_of_other l u v :
  per_user (config l) = true ->
  identifier_of u <> identifier_of v ->
  concurrent_of (acquire_concurrent_slot l u) v = concurrent_of l v /\
  concurrent_of (release_concurrent_slot l u) v = concurrent_of l v.
Proof.
  intros Hpu Hne.
  unfold acquire_concurrent_slot, release_concurrent_slot, concurrent_of. cbv zeta.
  destruct (negb (enabled (config l))); [split; reflexivity|].
  rewrite Hpu. cbn. rewrite Hpu. rewrite !lookup_insert_ne by exact Hne.
  split; reflexivity.
Qed.

(** X5. On a limiter reached from a fresh one by any run of operations,
    acquiring a slot adds one to the identity's concurrent count and the
    matching release gives the count back; with [per_user] on, neither
    changes the count of another identity. *)
Theorem slot_acquire_release_round_trip
  (cfg : RateLimitConfig) (t0 : Q) (ops : list op) (u v : option string) :
  enabled cfg = true ->
  let l := run (init cfg t0) ops in
  concurrent_of (acquire_concurrent_slot l u) u = concurrent_of l u + 1 /\
  concurrent_of (release_concurrent_slot (acquire_concurrent_slot l u) u) u
  = concurrent_of l u /\
  (per_user cfg = true -> identifier_of u <> identifier_of v ->
   concurrent_of (acquire_concurrent_slot l u) v = concurrent_of l v /\
   concurrent_of (release_concurrent_slot l u) v = concurrent_of l v).
Proof.
  intros Hen l.
  assert (Hcfg : config l = cfg) by (unfold l; now rewrite config_run).
  assert (Hnn : 0 <= concurrent_of l u).
  { apply concurrent_of_nonneg, run_counters.
    split; cbn; [|lia]. intros k x Hk. rewrite lookup_empty in Hk. discriminate. }
  assert (Hacq : concurrent_of (acquire_concurrent_slot l u) u = concurrent_of l u + 1).
  { rewrite concurrent_of_acquire, Hcfg, Hen. reflexivity. }
  split; [exact Hacq|]. split.
  - rewrite concurrent_of_release, Hacq.
    change (acquire_concurrent_slot l u) with (step l (OpAcquire u)).
    rewrite config_step, Hcfg, Hen. lia.
  - intros Hpu Hne. apply concurrent_of_other; [now rewrite Hcfg|exact Hne].
Qed.

(** X6. With [per_user] on, [record_request] adds one request and the
    tokens used to what [get_usage] reports for that user, in the minute
    and in the hour window, and [reset] with that user's id takes the
    report back to zero; the report for a user with another id is the
    same before and after either. *)
Theorem usage_accounting_is_per_user
  (l : t) (u v : string) (tokens_used : Z) (tm th t1 : Q) :
  enabled (config l) = true ->
  per_user (config l) = true ->
  u <> EmptyString -> v <> EmptyString -> u <> v ->
  let l' := record_request l (Some u) tokens_used tm th in
  let report := get_usage l (Some u) t1 in
  let report' := get_usage l' (Some u) t1 in
  let cleared := get_usage (reset l' (Some u) t1) (Some u) t1 in
  used (requests_minute report') = used (requests_minute report) + 1 /\
  used (requests_hour report') = used (requests_hour report) + 1 /\
  used (tokens_minute report') = used (tokens_minute report) + tokens_used /\
  (used (requests_minute cleared) = 0 /\ used (requests_hour cleared) = 0 /\
   used (tokens_minute cleared) = 0 /\ concurrent_used cleared = 0) /\
  get_usage l' (Some v) t1 = get_usage l (Some v) t1 /\
  get_usage (reset l (Some u) t1) (Some v) t1 = get_usage l (Some v) t1.
Proof.
  intros Hen Hpu Hu Hv Huv. cbv zeta.
  assert (Eu : identifier_of (Some u) = u).
  { cbn. destruct (String.eqb u EmptyString) eqn:E; [|reflexivity].
    apply String.eqb_eq in E. contradiction. }
  assert (Ev : identifier_of (Some v) = v).
  { cbn. destruct (String.eqb v EmptyString) eqn:E; [|reflexivity].
    apply String.eqb_eq in E. contradiction. }
  assert (Eru : String.eqb u EmptyString = false).
  { destruct (String.eqb u EmptyString) eqn:E; [|reflexivity].
    apply String.eqb_eq in E. contradiction. }
  unfold get_usage, record_request, reset, put_minute_state, put_hour_state,
    minute_state, hour_state, dd_read.
  cbv zeta. rewrite Eu, Ev, Eru, Hen. cbn [negb]. rewrite Hpu.
  cbn [config set_user_minute set_user_hour set_concurrent_requests
       _user_minute_state _user_hour_state _concurrent_requests].
  rewrite Hpu.
  cbn [config set_user_minute set_user_hour set_concurrent_requests
       _user_minute_state _user_hour_state _concurrent_requests].
  rewrite !lookup_insert_eq, !lookup_delete_eq.
  rewrite !lookup_insert_ne by congruence.
  rewrite !lookup_delete_ne by congruence.
  cbn [default used requests_minute requests_hour tokens_minute concurrent_used
       count tokens fresh_state].
  destruct (_user_minute_state l !! u) as [m|]; destruct (_user_hour_state l !! u) as [h|];
    cbn; repeat split; reflexivity.
Qed.

End SlotFacts.

(** The theorem on the default limiter while user "u" holds one slot:
    a second acquire makes two, its release makes one again, and user
    "w" stays at zero. *)
Lemma slot_round_trip_witness :
  let l := RateLimiter.run (RateLimiter.init RateLimiter.default_config 0)
                           Scenarios.one_slot_held in
  RateLimiter.enabled RateLimiter.default_config = true /\
  RateLimiter.concurrent_of l (Some "u") = 1 /\
  RateLimiter.concurrent_of
    (RateLimiter.release_concurrent_slot
       (RateLimiter.acquire_concurrent_slot l (Some "u")) (Some "u")) (Some "u")
  = RateLimiter.concurrent_of l (Some "u").
Proof.
  intros l. split; [reflexivity|]. split; [reflexivity|].
  exact (proj1 (proj2 (slot_acquire_release_round_trip
                         RateLimiter.default_config 0 Scenarios.one_slot_held
                         (Some "u") (Some "w") eq_refl))).
Defined.

(** The theorem on a fresh default limiter: one request of 25 tokens by
    "u" shows in the report of "u". *)
Lemma usage_accounting_witness :
  let l := RateLimiter.init RateLimiter.default_config 0 in
  RateLimiter.enabled (RateLimiter.config l) = true /\
  RateLimiter.per_user (RateLimiter.config l) = true /\
  RateLimiter.used
    (RateLimiter.tokens_minute
       (RateLimiter.get_usage
          (RateLimiter.record_request l (Some "u") 25 0 0) (Some "u") 1))
  = 25.
Proof.
  intros l. split; [reflexivity|]. split; [reflexivity|].
  assert (Hu : "u" <> EmptyString) by discriminate.
  assert (Hw : "w" <> EmptyString) by discriminate.
  assert (Huw : "u" <> "w") by discriminate.
  exact (proj1 (proj2 (proj2 (usage_accounting_is_per_user
                                l "u" "w" 25 0 0 1 eq_refl eq_refl Hu Hw Huw)))).
Defined.

(** ** Circuit breaker: what holds between calls *)

Section BreakerInvariant.
Import CircuitBreaker CircuitBreakerRuns.
Context {World V E X : Type}.
Variable clock : World -> Q.

Abbreviation brun := (@run World V E X clock).
Abbreviation bstep := (@step World V E X clock).

(** A breaker that is not closed has counted at least [failure_threshold]
    failures and knows the time of the last one. *)
Lemma step_settled (b : t) (o : @op World V E X) :
  (_state b <> closed ->
   _failure_threshold b <= _failure_count b /\ is_Some (_last_failure_time b)) ->
  let b' := bstep b o in
  _failure_threshold b' = _failure_threshold b /\
  _recovery_timeout b' = _recovery_timeout b /\
  (_state b' <> closed ->
   _failure_threshold b' <= _failure_count b' /\ is_Some (_last_failure_time b')).
Proof.
  intros Hop. cbv zeta. destruct o as [f w|]; cbn [step].
  2:{ cbn. repeat split; congruence. }
  unfold call, admission.
  destruct (_state b) eqn:Hs.
  - (* closed *)
    destruct (f w) as [[v|e|x] w']; cbn; rewrite ?Hs.
    + repeat split; congruence.
    + split; [reflexivity|]. split; [reflexivity|].
      destruct (_ >=? _) eqn:Hge; [|congruence].
      intros _. apply Z.geb_le in Hge. split; [lia|eauto].
    + repeat split; congruence.
  - (* open *)
    destruct Hop as [Hge [last Hlast]]; [discriminate|]. rewrite Hlast.
    destruct (Qlt_bool _ _).
    + destruct (f w) as [[v|e|x] w']; cbn.
      * repeat split; congruence.
      * replace (_failure_count b + 1 >=? _failure_threshold b) with true
          by (symmetry; apply Z.geb_le; lia).
        repeat split; [lia|eauto].
      * rewrite Hlast. repeat split; [lia|eauto].
    + cbn. rewrite Hlast. repeat split; [lia|eauto].
  - (* half-open *)
    destruct Hop as [Hge [last Hlast]]; [discriminate|].
    destruct (f w) as [[v|e|x] w']; cbn.
    + repeat split; congruence.
    + replace (_failure_count b + 1 >=? _failure_threshold b) with true
        by (symmetry; apply Z.geb_le; lia).
      repeat split; [lia|eauto].
    + rewrite Hlast. repeat split; [lia|eauto].
Qed.

Lemma run_settled (ops : list (@op World V E X)) : forall b : t,
  (_state b <> closed ->
   _failure_threshold b <= _failure_count b /\ is_Some (_last_failure_time b)) ->
  let b' := brun b ops in
  _failure_threshold b' = _failure_threshold b /\
  _recovery_timeout b' = _recovery_timeout b /\
  (_state b' <> closed ->
   _failure_threshold b' <= _failure_count b' /\ is_Some (_last_failure_time b')).
Proof.
  induction ops as [|o ops IH]; intros b H; cbv zeta.
  - cbn. auto.
  - change (brun b (o :: ops)) with (brun (bstep b o) ops).
    destruct (step_settled b o H) as (Hth & Hto & Hinv).
    destruct (IH (bstep b o) Hinv) as (Hth' & Hto' & Hinv').
    split; [congruence|]. split; [congruence|]. exact Hinv'.
Qed.

(** With a threshold of at least one, a closed breaker counts fewer
    failures than the threshold. *)
Lemma step_closed_count (b : t) (o : @op World V E X) :
  1 <= _failure_threshold b ->
  (_state b = closed -> 0 <= _failure_count b < _failure_threshold b) ->
  _state (bstep b o) = closed ->
  0 <= _failure_count (bstep b o) < _failure_threshold b.
Proof.
  intros Hth Hcl. destruct o as [f w|]; cbn [step]; [|cbn; lia].
  unfold call, admission.
  destruct (_state b) eqn:Hs.
  - specialize (Hcl eq_refl).
    destruct (f w) as [[v|e|x] w']; cbn; rewrite ?Hs; [lia| |lia].
    destruct (_ >=? _) eqn:Hge; [discriminate|]. intros _.
    rewrite Z.geb_leb in Hge. apply Z.leb_gt in Hge. lia.
  - destruct (_last_failure_time b) as [last|]; [|cbn; congruence].
    destruct (Qlt_bool _ _); [|cbn; congruence].
    destruct (f w) as [[v|e|x] w']; cbn; [lia| |discriminate].
    destruct (_ >=? _) eqn:Hge; discriminate.
  - destruct (f w) as [[v|e|x] w']; cbn; rewrite ?Hs; [lia| |discriminate].
    destruct (_ >=? _) eqn:Hge; discriminate.
Qed.

Lemma run_closed_count (ops : list (@op World V E X)) : forall b : t,
  1 <= _failure_threshold b ->
  (_state b = closed -> 0 <= _failure_count b < _failure_threshold b) ->
  _state (brun b ops) = closed ->
  0 <= _failure_count (brun b ops) < _failure_threshold b.
Proof.
  induction ops as [|o ops IH]; intros b Hth Hcl; [exact Hcl|].
  change (brun b (o :: ops)) with (brun (bstep b o) ops).
  assert (Hth' : _failure_threshold (bstep b o) = _failure_threshold b).
  { destruct o as [f w|]; cbn [step]; [|reflexivity].
    unfold call, admission.
    destruct (_state b), (_last_failure_time b) as [last|];
      try destruct (Qlt_bool _ _);
      try destruct (f w) as [[v|e|x] w']; reflexivity. }
  rewrite <- Hth'. apply IH; [lia|].
  rewrite Hth'. now apply step_closed_count.
Qed.

(** A step whose coroutine is not interrupted leaves no breaker
    half-open that was not half-open before. *)
Lemma step_not_half_open (b : t) (o : @op World V E X) :
  interrupts o = false ->
  (_state b <> closed ->
   _failure_threshold b <= _failure_count b /\ is_Some (_last_failure_time b)) ->
  _state b <> half_open ->
  _state (bstep b o) <> half_open.
Proof.
  intros Hi Hop Hho. destruct o as [f w|]; cbn [step]; [|discriminate].
  cbn in Hi. unfold call, admission.
  destruct (_state b) eqn:Hs; [| |contradiction].
  - destruct (f w) as [[v|e|x] w']; cbn in *; rewrite ?Hs; try discriminate.
    destruct (_ >=? _); discriminate.
  - destruct Hop as [Hge [last Hlast]]; [discriminate|]. rewrite Hlast.
    destruct (Qlt_bool _ _); [|cbn; congruence].
    destruct (f w) as [[v|e|x] w']; cbn in *; try discriminate.
    replace (_failure_count b + 1 >=? _failure_threshold b) with true
      by (symmetry; apply Z.geb_le; lia).
    discriminate.
Qed.

Lemma run_not_half_open (ops : list (@op World V E X)) : forall b : t,
  uninterrupted ops = true ->
  (_state b <> closed ->
   _failure_threshold b <= _failure_count b /\ is_Some (_last_failure_time b)) ->
  _state b <> half_open ->
  _state (brun b ops) <> half_open.
Proof.
  induction ops as [|o ops IH]; intros b Hu Hop Hho; [exact Hho|].
  change (brun b (o :: ops)) with (brun (bstep b o) ops).
  cbn in Hu. apply andb_true_iff in Hu as [Ho Hu].
  apply negb_true_iff in Ho.
  apply IH; [exact Hu| |now apply step_not_half_open].
  apply (step_settled b o Hop).
Qed.

(** X7. Whatever calls and resets a breaker has seen since it was built,
    its threshold and time-out are the ones it was built with; when it is
    not closed (open, or left half-open by a cancelled probe) its failure
    count has reached the threshold and the time of the last failure is
    set, so no call fails on the subtraction [time.time() - None]; with a
    threshold of at least one, when it is closed its failure count is
    below the threshold; and as long as no coroutine of the run ended
    with a [BaseException] outside [Exception] (a cancellation), between
    calls the breaker is closed or open, never half-open. *)
Theorem breaker_settles_closed_or_open
  (failure_threshold : Z) (recovery_timeout : Q) (ops : list (@op World V E X)) :
  let b := brun (init failure_threshold recovery_timeout) ops in
  _failure_threshold b = failure_threshold /\
  _recovery_timeout b = recovery_timeout /\
  (_state b <> closed ->
   failure_threshold <= _failure_count b /\ is_Some (_last_failure_time b)) /\
  (forall (f : @func World V E X) (w : World),
     fst (fst (call clock b f w)) <> TypeError) /\
  (1 <= failure_threshold ->
   _state b = closed -> 0 <= _failure_count b < failure_threshold) /\
  (uninterrupted ops = true -> _state b <> half_open).
Proof.
  intros b.
  destruct (run_settled ops (init failure_threshold recovery_timeout))
    as (Hth & Hto & Hop).
  { cbn. congruence. }
  fold b in Hth, Hto, Hop. cbn in Hth, Hto.
  split; [exact Hth|]. split; [exact Hto|].
  split; [rewrite <- Hth; exact Hop|]. split; [|split].
  - intros f w. unfold call, admission.
    destruct (_state b) eqn:Hs.
    + destruct (f w) as [[v|e|x] w']; discriminate.
    + destruct Hop as [_ [last Hlast]]; [discriminate|].
      rewrite Hlast.
      destruct (Qlt_bool _ _); [|discriminate].
      destruct (f w) as [[v|e|x] w']; discriminate.
    + destruct (f w) as [[v|e|x] w']; discriminate.
  - intros H1 Hc.
    apply (run_closed_count ops (init failure_threshold recovery_timeout));
      [exact H1|cbn; lia|exact Hc].
  - intros Hu. apply run_not_half_open; [exact Hu|cbn; congruence|discriminate].
Qed.

(** A breaker with threshold 1 opened at time 0, probed at time 40 by a
    coroutine that is cancelled: between calls it is half-open, and it
    stays so until a call returns or raises an [Exception]. *)
Example cancelled_probe_leaves_half_open :
  let clock := fun w : Q => w in
  let fails : @func Q unit unit unit := fun w => (RaisesException tt, w) in
  let cancelled : @func Q unit unit unit := fun w => (RaisesBase tt, w) in
  run clock (init 1 30) [OpCall fails 0%Q; OpCall cancelled 40%Q]
    = mk 1 1 30 half_open (Some 0%Q) /\
  run clock (init 1 30)
      [OpCall fails 0%Q; OpCall cancelled 40%Q; OpCall cancelled 41%Q]
    = mk 1 1 30 half_open (Some 0%Q).
Proof. split; reflexivity. Qed.

End BreakerInvariant.

(** ** Retry loop: attempts, sleeps and the errors that end a run *)

Section RetryTraceFacts.
Import D365MCPTool RetryTrace.
Context {World V : Type}.
Variable _execute_tool_call : World -> (error + V) * World.
Variable provider_refresh_token : World -> (error + string) * World.
Variable sleep : Q -> World -> World.
Variable int_of_str : string -> option Z.

Abbreviation rtool := (@tool World).
Abbreviation rrefresh := (@refresh_token World provider_refresh_token).
Abbreviation rattempts :=
  (@attempts World V _execute_tool_call provider_refresh_token sleep int_of_str).
Abbreviation rexecute :=
  (@_execute_with_retry World V _execute_tool_call provider_refresh_token
                        sleep int_of_str).

(** A token refresh is neither an attempt nor a sleep. *)
Lemma refresh_token_trace (t : rtool) :
  attempts_made (snd (rrefresh t)) = attempts_made t /\
  sleeps (snd (rrefresh t)) = sleeps t /\
  _max_retries (snd (rrefresh t)) = _max_retries t.
Proof.
  unfold refresh_token.
  destruct (_http_client t); [|repeat split].
  destruct (provider_refresh_token _) as [[e|tok] w']; repeat split.
Qed.

(** One attempt per element of the list at most, and one sleep at most
    per element that has a retry left. *)
Lemma attempts_trace_bound (todo : list Z) :
  forall (last_error : option error) (t : rtool),
  (attempts_made (snd (rattempts todo last_error t))
   <= attempts_made t + length todo)%nat /\
  (sleeps (snd (rattempts todo last_error t))
   <= sleeps t + length (List.filter (fun a => (a <? _max_retries t)%Z) todo))%nat.
Proof.
  induction todo as [|attempt todo IH]; intros last_error t.
  - cbn. destruct last_error; cbn; lia.
  - cbn [attempts List.filter].
    set (t1 := log (EvAttempt attempt) t).
    assert (Ha1 : attempts_made t1 = S (attempts_made t)) by reflexivity.
    assert (Hs1 : sleeps t1 = sleeps t) by reflexivity.
    assert (Hm1 : _max_retries t1 = _max_retries t) by reflexivity.
    assert (Hstop : forall w', 
              (attempts_made (with_world t1 w') <= attempts_made t + S (length todo))%nat /\
              (sleeps (with_world t1 w')
               <= sleeps t
                  + length (if (attempt <? _max_retries t)%Z
                            then attempt :: List.filter (fun a => (a <? _max_retries t)%Z) todo
                            else List.filter (fun a => (a <? _max_retries t)%Z) todo))%nat).
    { intros w'. change (attempts_made (with_world t1 w')) with (attempts_made t1).
      change (sleeps (with_world t1 w')) with (sleeps t1). rewrite Ha1, Hs1.
      split; [lia|]. destruct (attempt <? _max_retries t); cbn [length]; lia. }
    cbn [length].
    destruct (_execute_tool_call (world t1)) as [[[r|n|e]|v] w'].
    + change (_max_retries (with_world t1 w')) with (_max_retries t).
      destruct ((status_code r =? 401) && (attempt <? _max_retries t)) eqn:H401.
      * apply andb_prop in H401 as [_ Hlt]. rewrite Hlt.
        destruct (refresh_token_trace (with_world t1 w')) as (Ha & Hs & Hm).
        destruct (rrefresh (with_world t1 w')) as [[e|] t'] eqn:Hrt; cbn [snd] in *.
        -- change (attempts_made (with_world t1 w')) with (attempts_made t1) in Ha.
           change (sleeps (with_world t1 w')) with (sleeps t1) in Hs.
           cbn [length]. lia.
        -- specialize (IH last_error t'). rewrite Hm in IH.
           change (_max_retries (with_world t1 w')) with (_max_retries t) in IH.
           change (attempts_made (with_world t1 w')) with (attempts_made t1) in Ha.
           change (sleeps (with_world t1 w')) with (sleeps t1) in Hs.
           cbn [length]. lia.
      * destruct (status_code r =? 429); [|cbn [snd]; apply Hstop].
        destruct (retry_after_of int_of_str r) as [ra|]; [|cbn [snd]; apply Hstop].
        destruct (attempt <? _max_retries t) eqn:Hlt; [|cbn [snd]; apply (Hstop w')].
        match goal with |- context [rattempts todo last_error ?t2] =>
          specialize (IH last_error t2);
          change (attempts_made t2) with (attempts_made t1) in IH;
          change (sleeps t2) with (S (sleeps t1)) in IH;
          change (_max_retries t2) with (_max_retries t) in IH end.
        cbn [length]. lia.
    + change (_max_retries (with_world t1 w')) with (_max_retries t).
      destruct (attempt <? _max_retries t) eqn:Hlt.
      * match goal with |- context [rattempts todo ?le ?t2] =>
          specialize (IH le t2);
          change (attempts_made t2) with (attempts_made t1) in IH;
          change (sleeps t2) with (S (sleeps t1)) in IH;
          change (_max_retries t2) with (_max_retries t) in IH end.
        cbn [length]. lia.
      * cbn [snd]. apply Hstop.
    + cbn [snd]. apply Hstop.
    + cbn [snd]. apply Hstop.
Qed.

(** With no negative retry budget the loop starts with attempt 0. *)
Lemma range_succ (n : Z) :
  0 <= n -> range (n + 1) = 0 :: map Z.succ (range n).
Proof.
  intros Hn. unfold range.
  replace (Z.to_nat (n + 1)) with (S (Z.to_nat n)) by lia.
  cbn [seq map]. f_equal. rewrite <- seq_shift, !map_map.
  apply map_ext. intros k. lia.
Qed.

(** X8. One request makes at most [max_retries + 1] tool calls and
    sleeps at most [max_retries] times; with a retry budget that is not
    negative it makes at least one tool call, and with a negative one it
    makes none and raises [RuntimeError("Max retries exceeded")]. *)
Theorem retry_attempts_bounded (t : rtool) :
  (attempts_made (snd (rexecute t))
   <= attempts_made t + Z.to_nat (_max_retries t + 1))%nat /\
  (sleeps (snd (rexecute t)) <= sleeps t + Z.to_nat (_max_retries t))%nat /\
  (0 <= _max_retries t ->
   (attempts_made t < attempts_made (snd (rexecute t)))%nat) /\
  (_max_retries t < 0 ->
   rexecute t
   = (inl (OtherException (Py.RuntimeError "Max retries exceeded")), t)).
Proof.
  unfold _execute_with_retry.
  destruct (attempts_trace_bound (range (_max_retries t + 1)) None t) as [Ha Hs].
  rewrite range_below in Hs.
  unfold range in Ha at 2. rewrite length_map, length_seq in Ha.
  split; [exact Ha|]. split; [exact Hs|]. split.
  - intros H0. rewrite range_succ by exact H0. cbn [attempts].
    set (t1 := log (EvAttempt 0) t).
    assert (Ha1 : attempts_made t1 = S (attempts_made t)) by reflexivity.
    assert (Hmono : forall todo le (t2 : rtool),
              (attempts_made t2 <= attempts_made (snd (rattempts todo le t2)))%nat).
    { induction todo as [|a todo IH]; intros le t2.
      - cbn. destruct le; cbn; lia.
      - cbn [attempts]. set (t3 := log (EvAttempt a) t2).
        assert (Ha3 : attempts_made t3 = S (attempts_made t2)) by reflexivity.
        destruct (_execute_tool_call (world t3)) as [[[r|n|e]|v] w'].
        + destruct (_ && _).
          * destruct (refresh_token_trace (with_world t3 w')) as (Hr & _ & _).
            change (attempts_made (with_world t3 w')) with (attempts_made t3) in Hr.
            destruct (rrefresh (with_world t3 w')) as [[e|] t'] eqn:Hrt;
              cbn [snd] in *; [lia|].
            specialize (IH le t'). lia.
          * destruct (status_code r =? 429);
              [|cbn [snd]; change (attempts_made (with_world t3 w')) with (attempts_made t3); lia].
            destruct (retry_after_of int_of_str r) as [ra|];
              [|cbn [snd]; change (attempts_made (with_world t3 w')) with (attempts_made t3); lia].
            destruct (a <? _);
              [|cbn [snd]; change (attempts_made (with_world t3 w')) with (attempts_made t3); lia].
            match goal with |- context [rattempts todo le ?t4] =>
              specialize (IH le t4);
              change (attempts_made t4) with (attempts_made t3) in IH end.
            lia.
        + destruct (a <? _);
            [|cbn [snd]; change (attempts_made (with_world t3 w')) with (attempts_made t3); lia].
          match goal with |- context [rattempts todo ?le' ?t4] =>
            specialize (IH le' t4);
            change (attempts_made t4) with (attempts_made t3) in IH end.
          lia.
        + cbn [snd]. change (attempts_made (with_world t3 w')) with (attempts_made t3). lia.
        + cbn [snd]. change (attempts_made (with_world t3 w')) with (attempts_made t3). lia. }
    destruct (_execute_tool_call (world t1)) as [[[r|n|e]|v] w'].
    + destruct (_ && _).
      * destruct (refresh_token_trace (with_world t1 w')) as (Hr & _ & _).
        change (attempts_made (with_world t1 w')) with (attempts_made t1) in Hr.
        destruct (rrefresh (with_world t1 w')) as [[e|] t'] eqn:Hrt;
          cbn [snd] in *; [lia|].
        pose proof (Hmono (map Z.succ (range (_max_retries t))) None t'). lia.
      * destruct (status_code r =? 429);
          [|cbn [snd]; change (attempts_made (with_world t1 w')) with (attempts_made t1); lia].
        destruct (retry_after_of int_of_str r) as [ra|];
          [|cbn [snd]; change (attempts_made (with_world t1 w')) with (attempts_made t1); lia].
        destruct (0 <? _);
          [|cbn [snd]; change (attempts_made (with_world t1 w')) with (attempts_made t1); lia].
        match goal with |- context [rattempts ?todo ?le ?t4] =>
          pose proof (Hmono todo le t4) as Hm;
          change (attempts_made t4) with (attempts_made t1) in Hm end.
        lia.
    + destruct (0 <? _);
        [|cbn [snd]; change (attempts_made (with_world t1 w')) with (attempts_made t1); lia].
      match goal with |- context [rattempts ?todo ?le ?t4] =>
        pose proof (Hmono todo le t4) as Hm;
        change (attempts_made t4) with (attempts_made t1) in Hm end.
      lia.
    + cbn [snd]. change (attempts_made (with_world t1 w')) with (attempts_made t1). lia.
    + cbn [snd]. change (attempts_made (with_world t1 w')) with (attempts_made t1). lia.
  - intros Hneg. unfold range.
    replace (Z.to_nat (_max_retries t + 1)) with O by lia. reflexivity.
Qed.

End RetryTraceFacts.

Section RetryScheduleFacts.
Import D365MCPTool RetryTrace.
Context {World V : Type}.
Variable _execute_tool_call : World -> (error + V) * World.
Variable provider_refresh_token : World -> (error + string) * World.
Variable sleep : Q -> World -> World.
Variable int_of_str : string -> option Z.

Abbreviation stool := (@tool World).
Abbreviation sattempts :=
  (@attempts World V _execute_tool_call provider_refresh_token sleep int_of_str).
Abbreviation sexecute :=
  (@_execute_with_retry World V _execute_tool_call provider_refresh_token
                        sleep int_of_str).




(** X10. An error that is not retryable ends the run at the first
    attempt, with no sleep and no token refresh: an HTTP error whose
    status is neither 401 nor 429 and any exception that is neither an
    HTTP error nor a transient one reach the caller as they are, and a
    429 whose Retry-After header is not an integer reaches the caller as
    the [ValueError] of [int(...)]. *)
Theorem non_retryable_error_ends_run (t : stool) (err : error) (w' : World) :
  0 <= _max_retries t ->
  _execute_tool_call (world t) = (inl err, w') ->
  match err with
  | HTTPStatusError r =>
      status_code r <> 401 /\
      (status_code r = 429 -> retry_after_of int_of_str r = None)
  | TransientError _ => False
  | OtherException _ => True
  end ->
  sexecute t
  = (inl match err with
         | HTTPStatusError r =>
             if status_code r =? 429 then OtherException Py.ValueError else err
         | _ => err
         end,
     with_world (log (EvAttempt 0) t) w').
Proof.
  intros Hmax Hcall Herr.
  unfold _execute_with_retry. rewrite range_succ by exact Hmax.
  cbn [attempts]. change (world (log (EvAttempt 0) t)) with (world t).
  rewrite Hcall. destruct err as [r|n|e]; [|contradiction|reflexivity].
  destruct Herr as [H401 H429].
  replace (status_code r =? 401) with false
    by (symmetry; apply Z.eqb_neq; exact H401).
  cbn [andb]. destruct (status_code r =? 429) eqn:E; [|reflexivity].
  apply Z.eqb_eq in E. rewrite (H429 E). reflexivity.
Qed.

End RetryScheduleFacts.


(** The theorem on a tool that answers 500: one attempt, and the 500
    reaches the caller. *)
Lemma non_retryable_error_witness :
  0 <= D365MCPTool._max_retries Scenarios.connected_tool /\
  D365MCPTool._execute_with_retry
    Scenarios.always_500 Scenarios.provider_ok Scenarios.no_sleep Scenarios.no_int
    Scenarios.connected_tool
  = (inl (D365MCPTool.HTTPStatusError Scenarios.server_error),
     D365MCPTool.with_world
       (D365MCPTool.log (D365MCPTool.EvAttempt 0) Scenarios.connected_tool) 1%nat).
Proof.
  assert (H0 : 0 <= D365MCPTool._max_retries Scenarios.connected_tool)
    by (cbn; lia).
  split; [exact H0|].
  refine (non_retryable_error_ends_run
            Scenarios.always_500 Scenarios.provider_ok Scenarios.no_sleep
            Scenarios.no_int Scenarios.connected_tool
            (D365MCPTool.HTTPStatusError Scenarios.server_error) 1%nat H0 eq_refl _).
  cbn. split; [lia|]. intros H; discriminate H.
Defined.

(** ** Input validator: what an accepted input satisfies *)

Section ValidatorAcceptance.
Import InputValidator InputHelpers.
Variable re_search : flags -> string -> string -> option string.
Variable re_sub : string -> string -> string -> string.

Abbreviation vvalidate := (@validate re_search re_sub).
Abbreviation vdetect := (@_detect_prompt_injection re_search).
Abbreviation vredact := (@_redact_pii re_sub).
Abbreviation vtool_call := (@validate_tool_call re_search re_sub).
Abbreviation vparams := (@validate_params re_search re_sub).

Lemma injection_hit_None (cfg : ValidationConfig) (text : string) :
  injection_hit re_search cfg text = None <->
  (block_prompt_injection cfg = true ->
   forall m, vdetect cfg text = Some m -> m = EmptyString).
Proof.
  unfold injection_hit. destruct (block_prompt_injection cfg).
  - destruct (vdetect cfg text) as [m|] eqn:E.
    + destruct (String.eqb m EmptyString) eqn:Em.
      * apply String.eqb_eq in Em. split; [|reflexivity].
        intros _ _ m' [= <-]. exact Em.
      * split; [discriminate|]. intros H. specialize (H eq_refl m eq_refl).
        subst m. discriminate.
    + split; [|reflexivity]. intros _ _ m' Hm. discriminate.
  - split; [|reflexivity]. intros _ H. discriminate.
Qed.

Lemma blocked_hit_false (cfg : ValidationConfig) (text : string) :
  blocked_hit re_search cfg text = false <->
  (forall p, In p (blocked_patterns cfg) -> re_search IgnoreCase p text = None).
Proof.
  unfold blocked_hit. induction (blocked_patterns cfg) as [|p ps IH]; cbn.
  - split; [intros _ p []|reflexivity].
  - destruct (re_search IgnoreCase p text) eqn:E; cbn.
    + split; [discriminate|]. intros H. specialize (H p (or_introl eq_refl)).
      congruence.
    + rewrite IH. split.
      * intros H q [<-|Hq]; auto.
      * intros H q Hq. apply H. now right.
Qed.

Lemma detect_pii_nil (text : string) :
  _detect_pii re_search text = [] <->
  (forall k p, In (k, p) PII_PATTERNS -> re_search NoFlags p text = None).
Proof.
  unfold _detect_pii. induction PII_PATTERNS as [|[k p] l IH]; cbn [List.filter map snd].
  - split; [intros _ k p []|reflexivity].
  - destruct (re_search NoFlags p text) eqn:E; cbn [map].
    + split; [discriminate|]. intros H. specialize (H k p (or_introl eq_refl)).
      congruence.
    + rewrite IH. split.
      * intros H k' p' [[= <- <-]|Hq]; eauto.
      * intros H k' p' Hq. apply (H k' p'). now right.
Qed.

(** X11. [validate] returns (rather than raising [ValidationError])
    exactly when the text is within the length cap of its context, the
    injection scan, if switched on, finds nothing but possibly an empty
    match, no blocked pattern matches, and, if PII is blocked, no PII
    pattern matches; what it returns is the text itself, or the text
    with PII redacted when [redact_pii] is set. *)
Theorem validate_accepts_iff (cfg : ValidationConfig) (text context : string) :
  ((exists t, vvalidate cfg text context = inr t) <->
   Py.str_len text <= max_length cfg context /\
   (block_prompt_injection cfg = true ->
    forall m, vdetect cfg text = Some m -> m = EmptyString) /\
   (forall p, In p (blocked_patterns cfg) -> re_search IgnoreCase p text = None) /\
   (block_pii cfg = true ->
    forall k p, In (k, p) PII_PATTERNS -> re_search NoFlags p text = None)) /\
  (forall t, vvalidate cfg text context = inr t ->
   t = if redact_pii cfg then vredact text else text).
Proof.
  unfold validate.
  destruct (Py.str_len text >? max_length cfg context) eqn:Elen;
    rewrite Z.gtb_ltb in Elen.
  { apply Z.ltb_lt in Elen. split; [|discriminate].
    split; [intros [t Ht]; discriminate|]. intros [H _]. lia. }
  apply Z.ltb_ge in Elen.
  pose proof (injection_hit_None cfg text) as Hinj.
  destruct (injection_hit re_search cfg text) as [m|].
  { split; [|discriminate]. split; [intros [t Ht]; discriminate|].
    intros (_ & H & _). apply Hinj in H. discriminate. }
  pose proof (blocked_hit_false cfg text) as Hblk.
  destruct (blocked_hit re_search cfg text).
  { split; [|discriminate]. split; [intros [t Ht]; discriminate|].
    intros (_ & _ & H & _). apply Hblk in H. discriminate. }
  pose proof (detect_pii_nil text) as Hpii.
  destruct (block_pii cfg).
  - destruct (_detect_pii re_search text) as [|k found].
    + split; [|intros t [= <-]; reflexivity].
      split; [|eauto]. intros _. split; [exact Elen|].
      split; [now apply Hinj|]. split; [now apply Hblk|].
      intros _. now apply Hpii.
    + split; [|discriminate]. split; [intros [t Ht]; discriminate|].
      intros (_ & _ & _ & H). specialize (H eq_refl). apply Hpii in H.
      discriminate.
  - split; [|intros t [= <-]; reflexivity].
    split; [|eauto]. intros _. split; [exact Elen|].
    split; [now apply Hinj|]. split; [now apply Hblk|]. discriminate.
Qed.

(** The parameters that come back: same keys in the same order, values
    that are not strings as they were, strings as [validate] returned
    them. *)
Lemma validate_params_ok (cfg : ValidationConfig) (parameters : Py.dict) :
  forall ps, vparams cfg parameters = inr ps ->
  Forall2 (fun kv kv' =>
             fst kv' = fst kv /\
             match snd kv with
             | Py.PyStr s => exists s', vvalidate cfg s "tool_param" = inr s' /\
                                        snd kv' = Py.PyStr s'
             | v => snd kv' = v
             end)
          parameters ps.
Proof.
  induction parameters as [|[key value] rest IH]; intros ps Hps; cbn in Hps.
  - injection Hps as <-. constructor.
  - destruct value as [|b|z|q|s|l|d];
      try (destruct (vparams cfg rest) as [e|rest'];
           [discriminate|injection Hps as <-];
           constructor; [split; reflexivity|now apply IH]).
    destruct (vvalidate cfg s "tool_param") as [e|s'] eqn:Es; [discriminate|].
    destruct (vparams cfg rest) as [e|rest']; [discriminate|injection Hps as <-].
    constructor; [|now apply IH]. split; [reflexivity|]. cbn. eauto.
Qed.

(** X12. When [validate_tool_call] returns, the tool it names is the one
    requested, it is in the whitelist when one is given and not in the
    blacklist, and the parameters have the same keys in the same order:
    values that are not strings are returned as they are (they are not
    inspected), strings are what [validate] returned for them in the
    context "tool_param".  A tool outside the whitelist or in the
    blacklist is refused whatever its parameters, the whitelist being
    checked first. *)
Theorem validate_tool_call_sound
  (cfg : ValidationConfig) (tool_name : string) (parameters : Py.dict)
  (allowed_tools blocked_tools : option (list string)) :
  (forall name ps,
     vtool_call cfg tool_name parameters allowed_tools blocked_tools
     = inr (name, ps) ->
     name = tool_name /\
     (forall allowed, allowed_tools = Some allowed -> In tool_name allowed) /\
     (forall blocked, blocked_tools = Some blocked -> ~ In tool_name blocked) /\
     Forall2 (fun kv kv' =>
                fst kv' = fst kv /\
                match snd kv with
                | Py.PyStr s => exists s', vvalidate cfg s "tool_param" = inr s' /\
                                           snd kv' = Py.PyStr s'
                | v => snd kv' = v
                end)
             parameters ps) /\
  (forall allowed, allowed_tools = Some allowed -> ~ In tool_name allowed ->
     vtool_call cfg tool_name parameters allowed_tools blocked_tools
     = inl (mkError "tool_not_allowed" NoDetails)) /\
  (forall blocked, blocked_tools = Some blocked -> In tool_name blocked ->
     exists e,
       vtool_call cfg tool_name parameters allowed_tools blocked_tools = inl e /\
       (validation_type e = "tool_blocked" \/ validation_type e = "tool_not_allowed")).
Proof.
  assert (Hmem : forall l, existsb (String.eqb tool_name) l = true <-> In tool_name l).
  { intros l. rewrite existsb_exists. split.
    - intros (x & Hx & E). apply String.eqb_eq in E. now subst.
    - intros H. exists tool_name. split; [exact H|apply String.eqb_refl]. }
  unfold validate_tool_call. cbv zeta. split; [|split].
  - intros name ps H.
    destruct allowed_tools as [allowed|].
    + destruct (existsb (String.eqb tool_name) allowed) eqn:Ea; cbn [negb] in H;
        [|discriminate].
      destruct blocked_tools as [blocked|].
      * destruct (existsb (String.eqb tool_name) blocked) eqn:Eb; [discriminate|].
        destruct (vparams cfg parameters) as [e|ps'] eqn:Ep; [discriminate|].
        injection H as <- <-. split; [reflexivity|].
        split; [intros a [= <-]; now apply Hmem|].
        split; [intros b [= <-] Hin; apply Hmem in Hin; congruence|].
        now apply validate_params_ok.
      * destruct (vparams cfg parameters) as [e|ps'] eqn:Ep; [discriminate|].
        injection H as <- <-. split; [reflexivity|].
        split; [intros a [= <-]; now apply Hmem|].
        split; [discriminate|]. now apply validate_params_ok.
    + destruct blocked_tools as [blocked|].
      * destruct (existsb (String.eqb tool_name) blocked) eqn:Eb; [discriminate|].
        destruct (vparams cfg parameters) as [e|ps'] eqn:Ep; [discriminate|].
        injection H as <- <-. split; [reflexivity|].
        split; [discriminate|].
        split; [intros b [= <-] Hin; apply Hmem in Hin; congruence|].
        now apply validate_params_ok.
      * destruct (vparams cfg parameters) as [e|ps'] eqn:Ep; [discriminate|].
        injection H as <- <-. split; [reflexivity|].
        split; [discriminate|]. split; [discriminate|].
        now apply validate_params_ok.
  - intros allowed -> Hnot.
    destruct (existsb (String.eqb tool_name) allowed) eqn:Ea; [|reflexivity].
    apply Hmem in Ea. contradiction.
  - intros blocked -> Hin. apply Hmem in Hin. rewrite Hin.
    destruct (match allowed_tools with
              | Some allowed => negb (existsb (String.eqb tool_name) allowed)
              | None => false
              end); eexists; split; try reflexivity; auto.
Qed.

End ValidatorAcceptance.

Section HelperFacts.
Import InputValidator InputHelpers.
Variable re_search : flags -> string -> string -> option string.
Variable re_sub : string -> string -> string -> string.

Abbreviation hvalidate := (@validate re_search re_sub).
Abbreviation hsanitize := (@sanitize_input re_sub).
Abbreviation hdetect := (@detect_prompt_injection re_search).

Lemma length_of_chars (l : list ascii) :
  String.length (Py.of_chars l) = length l.
Proof.
  unfold Py.of_chars. induction l as [|c l IH]; cbn; [reflexivity|now rewrite IH].
Qed.

Lemma length_chars (s : string) : length (Py.chars s) = String.length s.
Proof.
  unfold Py.chars. induction s as [|c s IH]; cbn; [reflexivity|now rewrite IH].
Qed.

Lemma of_chars_chars (s : string) : Py.of_chars (Py.chars s) = s.
Proof. apply string_of_list_ascii_of_string. Qed.

Lemma chars_of_chars (l : list ascii) : Py.chars (Py.of_chars l) = l.
Proof. apply list_ascii_of_string_of_list_ascii. Qed.

Lemma str_len_slice_to (n : nat) (s : string) :
  Py.str_len (Py.slice_to n s) = Z.of_nat (Nat.min n (String.length s)).
Proof.
  unfold Py.str_len, Py.slice_to.
  now rewrite length_of_chars, length_firstn, length_chars.
Qed.

Lemma is_prefix_firstn (n : nat) (l : list ascii) :
  Py.is_prefix (firstn n l) l = true.
Proof.
  revert l. induction n as [|n IH]; intros [|c l]; cbn; try reflexivity.
  rewrite IH, Ascii.eqb_refl. reflexivity.
Qed.

Lemma slice_to_all (n : nat) (s : string) :
  (String.length s <= n)%nat -> Py.slice_to n s = s.
Proof.
  intros H. unfold Py.slice_to. rewrite firstn_all2 by (now rewrite length_chars).
  apply of_chars_chars.
Qed.

(** X13. [sanitize_input] without redaction never raises and returns a
    prefix of the text: the text itself when it is within [max_length],
    and for a cap that is not negative the first [max_length] characters
    otherwise, so that the result is never longer than the cap.
    Sanitizing twice is sanitizing once, and a text sanitized to
    [max_question_length] never fails the length check of [validate]. *)
Theorem sanitize_input_truncates (text : string) (max_length : Z) :
  let out := hsanitize text max_length false in
  Py.startswith text out = true /\
  (Py.str_len text <= max_length -> out = text) /\
  (0 <= max_length ->
   Py.str_len out = Z.min (Py.str_len text) max_length /\
   hsanitize out max_length false = out /\
   forall cfg e,
     max_question_length cfg = max_length ->
     hvalidate cfg out "question" = inl e -> validation_type e <> "length").
Proof.
  cbv zeta. unfold sanitize_input.
  assert (Hpre : forall n, Py.startswith text (Py.slice_to n text) = true).
  { intros n. unfold Py.startswith, Py.slice_to. rewrite chars_of_chars.
    apply is_prefix_firstn. }
  split; [|split].
  - destruct (Py.str_len text >? max_length).
    + unfold slice_upto. destruct (0 <=? max_length); apply Hpre.
    + rewrite <- (slice_to_all (String.length text) text) at 2 by lia. apply Hpre.
  - intros Hle. replace (Py.str_len text >? max_length) with false; [reflexivity|].
    symmetry. rewrite Z.gtb_ltb. apply Z.ltb_ge. exact Hle.
  - intros Hmax.
    assert (Hlen : Py.str_len
                     (if Py.str_len text >? max_length
                      then slice_upto max_length text else text)
                   = Z.min (Py.str_len text) max_length).
    { destruct (Py.str_len text >? max_length) eqn:E; rewrite Z.gtb_ltb in E.
      - apply Z.ltb_lt in E. unfold slice_upto.
        replace (0 <=? max_length) with true by (symmetry; apply Z.leb_le; lia).
        rewrite str_len_slice_to. unfold Py.str_len in *. lia.
      - apply Z.ltb_ge in E. lia. }
    split; [exact Hlen|].
    set (out := if Py.str_len text >? max_length
                then slice_upto max_length text else text) in *.
    assert (Hout : (Py.str_len out >? max_length) = false).
    { rewrite Z.gtb_ltb. apply Z.ltb_ge. lia. }
    split; [now rewrite Hout|].
    intros cfg e Hcfg He Hty. unfold validate, InputValidator.max_length in He.
    cbn [String.eqb Ascii.eqb Bool.eqb] in He. rewrite Hcfg, Hout in He.
    destruct (injection_hit re_search cfg out);
      [injection He as <-; discriminate Hty|].
    destruct (blocked_hit re_search cfg out);
      [injection He as <-; discriminate Hty|].
    destruct (if block_pii cfg then _ else _);
      [discriminate He|injection He as <-; discriminate Hty].
Qed.

Lemma detect_in_default (text : string) :
  hdetect text = true <->
  exists m, detect_in re_search DEFAULT_INJECTION_PATTERNS text = Some m.
Proof.
  unfold detect_prompt_injection.
  induction DEFAULT_INJECTION_PATTERNS as [|p ps IH]; cbn.
  - split; [discriminate|intros [m H]; discriminate].
  - destruct (re_search IgnoreCaseMultiline p text) as [m|]; cbn.
    + split; [eauto|reflexivity].
    + exact IH.
Qed.

(** X14. The helper [detect_prompt_injection] and the validator agree on
    the default patterns: for a validator built without patterns of its
    own, the helper answers [True] exactly when the validator's scan
    finds a match; so an input the validator refuses as a prompt
    injection is one the helper flags, and an input the helper does not
    flag is never refused as a prompt injection. *)
Theorem detect_prompt_injection_agrees
  (cfg : ValidationConfig) (text context : string) :
  injection_patterns cfg = [] ->
  (hdetect text = true <->
   exists m, _detect_prompt_injection re_search cfg text = Some m) /\
  (forall e, hvalidate cfg text context = inl e ->
             validation_type e = "prompt_injection" -> hdetect text = true).
Proof.
  intros Hdef.
  assert (Hscan : _detect_prompt_injection re_search cfg text
                  = detect_in re_search DEFAULT_INJECTION_PATTERNS text).
  { unfold _detect_prompt_injection, _injection_patterns. now rewrite Hdef. }
  split; [rewrite Hscan; apply detect_in_default|].
  intros e He Hty. apply detect_in_default. rewrite <- Hscan.
  unfold validate in He.
  destruct (Py.str_len text >? _); [injection He as <-; discriminate Hty|].
  unfold injection_hit in He.
  destruct (block_prompt_injection cfg).
  - destruct (_detect_prompt_injection re_search cfg text) as [m|]; [eauto|].
    destruct (blocked_hit re_search cfg text);
      [injection He as <-; discriminate Hty|].
    destruct (if block_pii cfg then _ else _);
      [discriminate He|injection He as <-; discriminate Hty].
  - destruct (blocked_hit re_search cfg text);
      [injection He as <-; discriminate Hty|].
    destruct (if block_pii cfg then _ else _);
      [discriminate He|injection He as <-; discriminate Hty].
Qed.

End HelperFacts.

(** The theorem with the default configuration, on patterns that never
    match: the helper does not flag the text. *)
Lemma detect_prompt_injection_witness :
  InputValidator.injection_patterns InputValidator.default_config = [] /\
  ~ (InputHelpers.detect_prompt_injection Scenarios.never_matches "hello" = true).
Proof.
  split; [reflexivity|]. intros H.
  destruct (proj1 (proj1 (detect_prompt_injection_agrees
                            Scenarios.never_matches Scenarios.sub_nothing
                            InputValidator.default_config "hello" "question"
                            eq_refl)) H) as [m Hm].
  discriminate Hm.
Defined.

(** ** Condition evaluator: field paths and literals *)

Section FieldFacts.
Import Py Workflows.
Variable rt : Runtime.

Lemma chars_app (a b : string) : chars (a ++ b) = (chars a ++ chars b)%list.
Proof.
  unfold chars. induction a as [|c a IH]; [reflexivity|].
  change (c :: list_ascii_of_string (a ++ b)
          = c :: (list_ascii_of_string a ++ list_ascii_of_string b)%list).
  now rewrite IH.
Qed.

Lemma split_chars_app (sep : ascii) (l1 l2 : list ascii) : forall cur,
  split_chars sep cur (l1 ++ sep :: l2)
  = (split_chars sep cur l1 ++ split_chars sep [] l2)%list.
Proof.
  induction l1 as [|c l1 IH]; intros cur; cbn.
  - now rewrite Ascii.eqb_refl.
  - destruct (Ascii.eqb c sep); [now rewrite IH|apply IH].
Qed.

Lemma split_app (sep : ascii) (a b : string) :
  split sep (a ++ String sep b) = (split sep a ++ split sep b)%list.
Proof.
  unfold split. rewrite chars_app. cbn [chars list_ascii_of_string].
  fold (chars b). now rewrite split_chars_app, map_app.
Qed.

Lemma split_chars_nonempty (sep : ascii) (l cur : list ascii) :
  split_chars sep cur l <> [].
Proof.
  revert cur. induction l as [|c l IH]; intros cur; cbn; [discriminate|].
  destruct (Ascii.eqb c sep); [discriminate|apply IH].
Qed.

Lemma walk_app (p1 p2 : list string) : forall value,
  p2 <> [] -> walk (p1 ++ p2) value = walk p2 (walk p1 value).
Proof.
  induction p1 as [|part p1 IH]; intros value Hp2; [reflexivity|].
  cbn [app walk]. destruct value; try (destruct p2; [contradiction|reflexivity]).
  now apply IH.
Qed.

Lemma walk_none (parts : list string) : parts <> [] -> walk parts PyNone = PyNone.
Proof. destruct parts; [contradiction|reflexivity]. Qed.

(** X15. A dotted path is looked up one segment after the other:
    [_get_field_value(obj, "a.b")] is [_get_field_value] of ["b"] in the
    value found for ["a"].  It never raises: a segment that is missing
    from a dict, and any segment looked up in a value that is not a
    dict, give [None], and so does everything after it. *)
Theorem get_field_value_composes (obj : pyval) (a b : string) :
  _get_field_value obj (a ++ String "." b)
  = _get_field_value (_get_field_value obj a) b /\
  (_get_field_value obj a = PyNone -> _get_field_value obj (a ++ String "." b) = PyNone) /\
  (forall d, obj = PyDict d -> dict_get a d = None ->
             (forall x y : string, a <> (x ++ String "." y)%string) ->
             _get_field_value obj a = PyNone) /\
  (match obj with PyDict _ => False | _ => True end ->
   _get_field_value obj a = PyNone).
Proof.
  assert (Hne : forall s, split "." s <> []).
  { intros s. unfold split. intros H. apply map_eq_nil in H.
    exact (split_chars_nonempty _ _ _ H). }
  assert (Hcomp : _get_field_value obj (a ++ String "." b)
                  = _get_field_value (_get_field_value obj a) b).
  { unfold _get_field_value. rewrite split_app. apply walk_app, Hne. }
  split; [exact Hcomp|]. split; [|split].
  - intros Ha. rewrite Hcomp, Ha. unfold _get_field_value. apply walk_none, Hne.
  - intros d -> Hget Hdot. unfold _get_field_value.
    assert (Hsplit : split "." a = [a]).
    { unfold split.
      assert (H : forall l cur,
                (forall l1 l2, l <> (l1 ++ "."%char :: l2)%list) ->
                split_chars "." cur l = [(rev cur ++ l)%list]).
      { induction l as [|c l IHl]; intros cur Hl; cbn.
        - now rewrite app_nil_r.
        - destruct (Ascii.eqb_spec c "."%char) as [->|Hc].
          + exfalso. exact (Hl [] l eq_refl).
          + rewrite IHl.
            * cbn. now rewrite <- app_assoc.
            * intros l1 l2 E. apply (Hl (c :: l1) l2). now rewrite E. }
      rewrite H.
      - cbn. unfold of_chars, chars. now rewrite string_of_list_ascii_of_string.
      - intros l1 l2 E. apply (Hdot (of_chars l1) (of_chars l2)).
        rewrite <- (string_of_list_ascii_of_string a). fold (chars a). rewrite E.
        unfold of_chars. clear. induction l1 as [|c l1 IH]; cbn; [reflexivity|].
        now rewrite IH. }
    rewrite Hsplit. cbn. unfold dict_get_default. now rewrite Hget.
  - intros Hobj. unfold _get_field_value.
    destruct (split "." a) as [|p ps] eqn:E; [exfalso; exact (Hne a E)|].
    destruct obj; try reflexivity. contradiction.
Qed.

Lemma lstrip_chars_keep (c : ascii) (l : list ascii) :
  is_space c = false -> lstrip_chars (c :: l) = c :: l.
Proof. intros H. cbn. now rewrite H. Qed.

Lemma removelast_snoc {A} (l : list A) (x : A) : removelast (l ++ [x]) = l.
Proof.
  induction l as [|y l IH]; [reflexivity|].
  cbn [app removelast]. destruct (l ++ [x])%list eqn:E.
  - destruct l; discriminate.
  - now rewrite IH.
Qed.

(** A literal between two quote characters [q] is the string between
    them. *)
Lemma parse_value_quoted (q : ascii) (s : string) :
  q = "'"%char \/ q = dquote ->
  _parse_value rt (String q (s ++ String q EmptyString)) = ret (PyStr s).
Proof.
  intros Hq.
  assert (Hsp : is_space q = false) by (destruct Hq as [->| ->]; reflexivity).
  set (lit := String q (s ++ String q EmptyString)).
  assert (Hchars : chars lit = q :: (chars s ++ [q])%list).
  { unfold lit, chars. cbn. f_equal. fold (chars (s ++ String q EmptyString)).
    now rewrite chars_app. }
  assert (Hstrip : strip lit = lit).
  { unfold strip. rewrite Hchars, lstrip_chars_keep by exact Hsp.
    replace (rev (q :: chars s ++ [q])) with (q :: rev (chars s) ++ [q])%list.
    2:{ cbn [rev]. now rewrite rev_app_distr. }
    rewrite lstrip_chars_keep by exact Hsp.
    cbn [rev]. rewrite rev_app_distr, rev_involutive. cbn [rev app].
    rewrite <- Hchars. unfold of_chars, chars.
    apply string_of_list_ascii_of_string. }
  unfold _parse_value. cbv zeta. rewrite Hstrip.
  assert (Hstart : startswith lit (String q EmptyString) = true).
  { unfold startswith. rewrite Hchars. cbn. now rewrite Ascii.eqb_refl. }
  assert (Hend : endswith lit (String q EmptyString) = true).
  { unfold endswith. rewrite Hchars. cbn [rev chars list_ascii_of_string app].
    rewrite rev_app_distr. cbn. now rewrite Ascii.eqb_refl. }
  assert (Hslice : slice_1_m1 lit = s).
  { unfold slice_1_m1. rewrite Hchars. cbn [tl]. rewrite removelast_snoc.
    unfold of_chars, chars. apply string_of_list_ascii_of_string. }
  destruct Hq as [->| ->].
  - change (String "'" EmptyString) with "'" in *.
    rewrite Hstart, Hend. cbn [andb orb]. now rewrite Hslice.
  - rewrite Hstart, Hend. rewrite orb_true_r. now rewrite Hslice.
Qed.

(** X16. A literal in single or in double quotes is parsed as the string
    between the quotes, whatever that string is: the text is not
    stripped, and digits, [true], [null] or brackets between quotes stay
    text. *)
Theorem parse_value_quoted_is_string (s : string) :
  _parse_value rt (String "'" (s ++ "'")) = ret (PyStr s) /\
  _parse_value rt (String dquote (s ++ String dquote EmptyString)) = ret (PyStr s).
Proof.
  split.
  - apply (parse_value_quoted "'"%char). now left.
  - apply (parse_value_quoted dquote). now right.
Qed.

End FieldFacts.

(** ** Edge routing: the stored order and the edge that is taken *)

Section RoutingOrderFacts.
Import Py Workflows.
Variable rt : Runtime.

Lemma insert_edge_perm (e : ConditionalEdge) (l : list ConditionalEdge) :
  Permutation (insert_edge e l) (e :: l).
Proof.
  induction l as [|x l IH]; cbn; [reflexivity|].
  destruct (priority x <=? priority e); [reflexivity|].
  rewrite IH. apply perm_swap.
Qed.

Lemma insert_edge_sorted (e : ConditionalEdge) (l : list ConditionalEdge) :
  StronglySorted (fun a b => priority b <= priority a) l ->
  StronglySorted (fun a b => priority b <= priority a) (insert_edge e l).
Proof.
  induction l as [|x l IH]; intros Hs; cbn.
  - repeat constructor.
  - inversion Hs as [|? ? Hs' Hx]; subst.
    destruct (priority x <=? priority e) eqn:E.
    + apply Z.leb_le in E. constructor; [exact Hs|].
      constructor; [exact E|].
      eapply List.Forall_impl; [|exact Hx]. cbn. intros y Hy. lia.
    + apply Z.leb_gt in E. constructor; [now apply IH|].
      eapply Permutation_Forall; [symmetry; apply insert_edge_perm|].
      constructor; [lia|exact Hx].
Qed.

(** An edge is put in front of the stored edges of its own priority. *)
Lemma insert_edge_stable (p : Z) (e : ConditionalEdge) (l : list ConditionalEdge) :
  List.filter (fun x => priority x =? p) (insert_edge e l)
  = List.filter (fun x => priority x =? p) (e :: l).
Proof.
  induction l as [|x l IH]; [reflexivity|].
  cbn [insert_edge]. destruct (priority x <=? priority e) eqn:E; [reflexivity|].
  apply Z.leb_gt in E. cbn [List.filter] in *. rewrite IH.
  destruct (priority x =? p) eqn:Ex; destruct (priority e =? p) eqn:Ee;
    try reflexivity.
  apply Z.eqb_eq in Ex. apply Z.eqb_eq in Ee. lia.
Qed.

(** X17. The edges [_create_custom_workflow] stores for routing are the
    declared edges, none lost and none added, in descending order of
    priority, and edges of equal priority keep the order in which they
    were declared. *)
Theorem stored_edges_sorted_stable
  (_workflow_edges : gmap string (list ConditionalEdge))
  (workflow_name : string) (conditional_edges : list ConditionalEdge) :
  exists stored,
    store_edges _workflow_edges workflow_name conditional_edges !! workflow_name
    = Some stored /\
    Permutation stored conditional_edges /\
    StronglySorted (fun a b => priority b <= priority a) stored /\
    (forall p, List.filter (fun e => priority e =? p) stored
               = List.filter (fun e => priority e =? p) conditional_edges).
Proof.
  exists (sorted_by_priority conditional_edges).
  split; [unfold store_edges; apply lookup_insert_eq|].
  unfold sorted_by_priority.
  induction conditional_edges as [|e l (IHp & IHs & IHf)]; cbn [fold_right].
  - split; [reflexivity|]. split; [constructor|reflexivity].
  - split; [|split].
    + rewrite insert_edge_perm. now constructor.
    + now apply insert_edge_sorted.
    + intros p. rewrite insert_edge_stable. cbn [List.filter]. now rewrite IHf.
Qed.

(** X18. Among the stored edges of the workflow that leave the current
    agent, [evaluate_next_agent] goes to the first one that has no
    condition or whose condition does not evaluate to [False]: it
    returns the target of that edge, or raises what the evaluation of
    its condition raised; it returns [None] when there is no such edge,
    in particular for a workflow it does not know and for an agent
    without outgoing edges.  The evaluation of a condition raises only
    what [json.loads] raised past the guard of [evaluate] on a string
    output; when it raised nothing there (as for every output that is a
    dict) [evaluate_next_agent] does not raise and returns the target of
    the first edge that has no condition or whose condition evaluates to
    [True].  A target it returns is always the target of an edge of that
    workflow leaving the current agent. *)
Theorem evaluate_next_agent_first_match
  (_workflow_edges : gmap string (list ConditionalEdge))
  (workflow_name current_agent : string) (agent_output : pyval) :
  let outgoing :=
    List.filter (fun e => String.eqb (from_agent e) current_agent)
                (default [] (_workflow_edges !! workflow_name)) in
  let taken (e : ConditionalEdge) :=
    no_condition e
    || match evaluate rt (default EmptyString (condition e)) agent_output with
       | inr b => b
       | inl _ => false
       end in
  let result :=
    evaluate_next_agent rt _workflow_edges workflow_name current_agent
                        agent_output in
  result
  = match List.find (EvaluatorView.stops rt agent_output) outgoing with
    | None => inr None
    | Some e =>
        if no_condition e then inr (Some (to_agent e))
        else match evaluate rt (default EmptyString (condition e)) agent_output with
             | inl x => inl x
             | inr _ => inr (Some (to_agent e))
             end
    end /\
  (forall x, result = inl x ->
     EvaluatorView.json_escape rt agent_output = Some x) /\
  (EvaluatorView.json_escape rt agent_output = None ->
   result = inr (option_map to_agent (List.find taken outgoing))) /\
  (forall d, agent_output = PyDict d ->
   result = inr (option_map to_agent (List.find taken outgoing))) /\
  (forall target,
     result = inr (Some target) ->
     exists e, In e (default [] (_workflow_edges !! workflow_name)) /\
               from_agent e = current_agent /\ to_agent e = target).
Proof.
  intros outgoing taken result.
  assert (Hstop : result
    = match List.find (EvaluatorView.stops rt agent_output) outgoing with
      | None => inr None
      | Some e =>
          if no_condition e then inr (Some (to_agent e))
          else match evaluate rt (default EmptyString (condition e)) agent_output with
               | inl x => inl x
               | inr _ => inr (Some (to_agent e))
               end
      end).
  { subst result. unfold evaluate_next_agent. cbv zeta. fold outgoing.
    pose proof (route_first_stop rt outgoing agent_output) as Hr.
    pose proof (route_falls_through_no_default rt outgoing agent_output) as Hd.
    destruct outgoing as [|e0 rest] eqn:Eo; [reflexivity|].
    rewrite Hr in *.
    destruct (List.find (EvaluatorView.stops rt agent_output) (e0 :: rest))
      as [e|] eqn:Ef.
    - destruct (no_condition e); [reflexivity|].
      destruct (evaluate rt _ agent_output) as [x|b]; reflexivity.
    - cbn [bind]. now rewrite (Hd eq_refl). }
  assert (Hmain : EvaluatorView.json_escape rt agent_output = None ->
    result = inr (option_map to_agent (List.find taken outgoing))).
  { intros Hjson. subst result.
    unfold evaluate_next_agent. cbv zeta. fold outgoing.
    pose proof (route_first_hit rt outgoing agent_output Hjson) as Hr.
    fold taken in Hr.
    pose proof (route_falls_through_no_default rt outgoing agent_output) as Hd.
    destruct outgoing as [|e0 rest] eqn:Eo; [reflexivity|].
    rewrite Hr in *. cbn [bind].
    destruct (List.find taken (e0 :: rest)) as [e|] eqn:Ef; cbn [option_map].
    - reflexivity.
    - now rewrite (Hd eq_refl). }
  split; [exact Hstop|]. split; [|split; [exact Hmain|split]].
  - intros x Hx. rewrite Hstop in Hx.
    destruct (List.find _ outgoing) as [e|]; [|discriminate].
    destruct (no_condition e); [discriminate|].
    destruct (evaluate rt _ agent_output) as [x'|b] eqn:Ev; [|discriminate].
    injection Hx as <-. exact (evaluate_raises rt _ _ _ Ev).
  - intros d ->. now apply Hmain.
  - intros target Ht. rewrite Hstop in Ht.
    destruct (List.find _ outgoing) as [e|] eqn:Ef; [|discriminate].
    assert (Hto : to_agent e = target).
    { destruct (no_condition e); [now injection Ht|].
      destruct (evaluate rt _ agent_output); [discriminate|now injection Ht]. }
    apply List.find_some in Ef. destruct Ef as [Hin _].
    apply List.filter_In in Hin. destruct Hin as [Hin Hfrom].
    apply String.eqb_eq in Hfrom. eauto.
Qed.

End RoutingOrderFacts.

(** The theorem on the routing scenario: the conditional edge is the
    first match for the technical output. *)
Lemma evaluate_next_agent_witness :
  Workflows.evaluate_next_agent Scenarios.example_runtime
    (Workflows.store_edges ∅ "support" Scenarios.default_last)
    "support" "Triage" Scenarios.technical_output
  = inr (Some "TechSupport").
Proof.
  exact (proj1 (proj2 (proj2 (proj2 (evaluate_next_agent_first_match
                  Scenarios.example_runtime
                  (Workflows.store_edges ∅ "support" Scenarios.default_last)
                  "support" "Triage" Scenarios.technical_output))))
               _ eq_refl).
Defined.

(** On the output of a hundred thousand opening brackets the evaluation
    of the first condition raises, and so does [evaluate_next_agent]. *)
Example evaluate_next_agent_raises :
  Workflows.evaluate_next_agent Scenarios.cpython_runtime
    (Workflows.store_edges ∅ "support" Scenarios.default_last)
    "support" "Triage" (Py.PyStr Scenarios.deep_json)
  = inl Py.RecursionError.
Proof. vm_compute. reflexivity. Qed.

(** ** Chat history manager: what summarization leaves alone *)

Section KeepFacts.
Import Py ChatHistory SessionView.
Context {World Thread : Type}.
Variable serialize : Thread -> World -> result dict * World.
Variable thread_messages : Thread -> option (list message_view).
Variable thread_truthy : Thread -> bool.
Variable cache_set : string -> pyval -> World -> result bool * World.
Variable persistence_get : string -> World -> result pyval * World.
Variable persistence_save : string -> dict -> World -> result bool * World.
Variable utcnow : World -> Q.
Variable isoformat : Q -> string.
Variable repr : pyval -> string.

Abbreviation kmanager := (@manager World Thread).
Abbreviation kM := (@M World Thread).
Abbreviation ksame := (@same_summaries World Thread).

Lemma same_summaries_refl (m : kmanager) : ksame m m.
Proof. repeat split. Qed.

Lemma same_summaries_trans (m1 m2 m3 : kmanager) :
  ksame m1 m2 -> ksame m2 m3 -> ksame m1 m3.
Proof.
  intros (Hc & Ha & Hs) (Hc' & Ha' & Hs'). split; [congruence|].
  split; [congruence|]. intros k. now rewrite Hs', Hs.
Qed.

Lemma keeps_mret {A} (a : A) : keeps (mret a : kM A).
Proof. intros m. apply same_summaries_refl. Qed.

Lemma keeps_mraise {A} (e : exn) : keeps (mraise e : kM A).
Proof. intros m. apply same_summaries_refl. Qed.

Lemma keeps_lift {A} (r : result A) : keeps (lift r : kM A).
Proof. intros m. apply same_summaries_refl. Qed.

Lemma keeps_get_manager : keeps (get_manager : kM kmanager).
Proof. intros m. apply same_summaries_refl. Qed.

Lemma keeps_now : keeps (now utcnow : kM Q).
Proof. intros m. apply same_summaries_refl. Qed.

Lemma keeps_get_session (chat_id : string) :
  keeps (get_session chat_id : kM (option (@ChatSession Thread))).
Proof. intros m. apply same_summaries_refl. Qed.

Lemma keeps_the_agent : keeps (the_agent : kM (@ChatAgent World Thread)).
Proof. intros m. unfold the_agent. destruct (_agent m); apply same_summaries_refl. Qed.

Lemma keeps_external {A} (ev : event) (f : World -> result A * World) :
  keeps (external ev f : kM A).
Proof.
  intros m. unfold external. destruct (f (world m)) as [r w']. repeat split.
Qed.

Lemma keeps_mbind {A B} (c : kM A) (k : A -> kM B) :
  keeps c -> (forall a, keeps (k a)) -> keeps (mbind c k).
Proof.
  intros Hc Hk m. unfold mbind. specialize (Hc m).
  destruct (c m) as [[e|a] m1]; cbn [snd] in *; [exact Hc|].
  eapply same_summaries_trans; [exact Hc|apply Hk].
Qed.

Lemma keeps_try_except {A} (c : kM A) (h : exn -> kM A) :
  keeps c -> (forall e, keeps (h e)) -> keeps (try_except c h).
Proof.
  intros Hc Hh m. unfold try_except. specialize (Hc m).
  destruct (c m) as [[e|a] m1]; cbn [snd] in *; [|exact Hc].
  eapply same_summaries_trans; [exact Hc|apply Hh].
Qed.

Lemma keeps_update_session (chat_id : string)
  (f : @ChatSession Thread -> @ChatSession Thread) :
  (forall s, summary_state (f s) = summary_state s) ->
  keeps (update_session chat_id f : kM unit).
Proof.
  intros Hf m. unfold update_session, modify, set_sessions. cbn.
  split; [reflexivity|]. split; [reflexivity|]. intros k. cbn.
  destruct (decide (chat_id = k)) as [->|Hne].
  - rewrite lookup_alter_eq. destruct (_sessions m !! k); cbn; [|reflexivity].
    now rewrite Hf.
  - now rewrite lookup_alter_ne.
Qed.

Lemma returns_try_except {A} (c : kM A) (a0 : A) :
  returns (try_except c (fun _ => mret a0)).
Proof.
  intros m. unfold try_except. destruct (c m) as [[e|a] m1]; eexists; reflexivity.
Qed.

Lemma keeps_persist_with_merge (chat_id : string) (new_data : dict) :
  keeps (_persist_with_merge persistence_get persistence_save utcnow isoformat
                             repr chat_id new_data : kM bool).
Proof.
  unfold _persist_with_merge.
  apply keeps_try_except; [|intros; apply keeps_mret].
  apply keeps_mbind; [apply keeps_external|intros existing].
  apply keeps_mbind; [apply keeps_now|intros t].
  apply keeps_mbind; [apply keeps_lift|intros merged].
  apply keeps_mbind; [apply keeps_external|intros success].
  apply keeps_mbind; [|intros; apply keeps_mret].
  destruct success; [|apply keeps_mret].
  apply keeps_update_session. reflexivity.
Qed.

Lemma keeps_save_thread (chat_id : string) (th : Thread) (force : bool) :
  keeps (save_thread serialize cache_set persistence_get persistence_save
                     utcnow isoformat repr chat_id th force : kM bool) /\
  returns (save_thread serialize cache_set persistence_get persistence_save
                       utcnow isoformat repr chat_id th force : kM bool).
Proof.
  unfold save_thread. split; [|apply returns_try_except].
  apply keeps_try_except; [|intros; apply keeps_mret].
  apply keeps_mbind; [apply keeps_external|intros thread_data].
  apply keeps_mbind; [apply keeps_get_session|intros session].
  apply keeps_mbind.
  { destruct session as [s|]; [|apply keeps_mret].
    apply keeps_mbind; [apply keeps_now|intros t].
    apply keeps_mbind; [apply keeps_update_session; reflexivity|intros _].
    apply keeps_mbind; [apply keeps_lift|intros n].
    apply keeps_mbind; [apply keeps_update_session; reflexivity|intros _].
    apply keeps_mret. }
  intros thread_data'.
  apply keeps_mbind; [apply keeps_now|intros t].
  apply keeps_mbind; [apply keeps_external|intros cached].
  apply keeps_mbind; [apply keeps_get_manager|intros m'].
  apply keeps_mbind; [|intros; apply keeps_mret].
  destruct (_ && _); [|apply keeps_mret].
  apply keeps_mbind; [apply keeps_persist_with_merge|intros; apply keeps_mret].
Qed.

Lemma keeps_generate_summary (agent : @ChatAgent World Thread) (messages : list pyval) :
  keeps (_generate_summary repr agent messages : kM pyval).
Proof.
  unfold _generate_summary.
  apply keeps_mbind; [apply keeps_lift|intros text].
  apply keeps_mbind; [apply keeps_get_manager|intros m'].
  apply keeps_try_except; [|intros; apply keeps_mret].
  apply keeps_mbind; [apply keeps_external|intros th].
  apply keeps_mbind; [apply keeps_external|intros r].
  apply keeps_mret.
Qed.

Lemma keeps_create_summarized_thread (session : @ChatSession Thread)
  (summary : pyval) (recent : list pyval) :
  keeps (_create_summarized_thread utcnow isoformat repr session summary recent
         : kM (option Thread)) /\
  returns (_create_summarized_thread utcnow isoformat repr session summary recent
           : kM (option Thread)).
Proof.
  unfold _create_summarized_thread. split; [|apply returns_try_except].
  apply keeps_try_except; [|intros; apply keeps_mret].
  apply keeps_mbind; [apply keeps_the_agent|intros agent].
  apply keeps_mbind; [apply keeps_external|intros th].
  apply keeps_mbind; [apply keeps_now|intros t].
  destruct (deserialize_thread agent) as [d|]; [|apply keeps_mret].
  apply keeps_try_except; [|intros; apply keeps_mret].
  apply keeps_mbind; [apply keeps_external|intros restored]. apply keeps_mret.
Qed.

Lemma keeps_needs_summarization (chat_id : string) :
  keeps (needs_summarization thread_messages chat_id : kM bool) /\
  returns (needs_summarization thread_messages chat_id : kM bool).
Proof.
  unfold needs_summarization. split.
  - intros m. unfold mbind, get_manager. cbn.
    destruct (negb (enabled (summarization (config m)))); [apply same_summaries_refl|].
    destruct (_sessions m !! chat_id) as [s|]; [|apply same_summaries_refl].
    apply (keeps_mbind (update_session chat_id _) (fun _ => mret _));
      [apply keeps_update_session; reflexivity|intros; apply keeps_mret].
  - intros m. unfold mbind, get_manager. cbn.
    destruct (negb (enabled (summarization (config m)))); [eexists; reflexivity|].
    destruct (_sessions m !! chat_id) as [s|]; eexists; reflexivity.
Qed.

End KeepFacts.

Section SummarizeOutcome.
Import Py ChatHistory SessionView.
Context {World Thread : Type}.
Variable serialize : Thread -> World -> result dict * World.
Variable thread_messages : Thread -> option (list message_view).
Variable thread_truthy : Thread -> bool.
Variable cache_set : string -> pyval -> World -> result bool * World.
Variable persistence_get : string -> World -> result pyval * World.
Variable persistence_save : string -> dict -> World -> result bool * World.
Variable utcnow : World -> Q.
Variable isoformat : Q -> string.
Variable repr : pyval -> string.

Abbreviation osummarize :=
  (@summarize_if_needed World Thread serialize thread_messages thread_truthy
     cache_set persistence_get persistence_save utcnow isoformat repr).
Abbreviation osame := (@same_summaries World Thread).

(** [needs_summarization] answers [True] only for a session of an
    enabled manager whose estimate is over the budget. *)
Lemma needs_summarization_true (chat_id : string) (m m1 : @manager World Thread) :
  needs_summarization thread_messages chat_id m = (inr true, m1) ->
  enabled (summarization (config m)) = true /\
  exists s, _sessions m !! chat_id = Some s /\
            estimate_thread_tokens thread_messages (thread s)
            > max_tokens (summarization (config m)).
Proof.
  unfold needs_summarization, mbind, get_manager. cbn.
  destruct (enabled (summarization (config m))); cbn [negb]; [|discriminate].
  destruct (_sessions m !! chat_id) as [s|]; [|discriminate].
  unfold update_session, modify, mret. cbn. intros [= H _].
  split; [reflexivity|]. exists s. split; [reflexivity|].
  rewrite Z.gtb_ltb in H. apply Z.ltb_lt in H. lia.
Qed.

(** The outcome of [summarize_if_needed], with the final state. *)
Lemma summarize_outcome
  (chat_id : string) (summarizer_agent : option (@ChatAgent World Thread))
  (m : @manager World Thread) :
  exists (b : bool) (m' : @manager World Thread),
    osummarize chat_id summarizer_agent m = (inr b, m') /\
    (b = false -> osame m m') /\
    (b = true ->
     enabled (summarization (config m)) = true /\
     exists s s' new_thread,
       _sessions m !! chat_id = Some s /\
       estimate_thread_tokens thread_messages (thread s)
       > max_tokens (summarization (config m)) /\
       _sessions m' !! chat_id = Some s' /\
       thread_truthy new_thread = true /\
       summary_state s' = (new_thread, true, summary_count s + 1)) /\
    (forall k, k <> chat_id ->
       summary_state <$> (_sessions m' !! k)
       = summary_state <$> (_sessions m !! k)).
Proof.
  assert (Hfalse : forall m', osame m m' ->
            exists (b : bool) (m'' : @manager World Thread),
              (@inr exn bool false, m') = (inr b, m'') /\
              (b = false -> osame m m'') /\
              (b = true ->
               enabled (summarization (config m)) = true /\
               exists s s' new_thread,
                 _sessions m !! chat_id = Some s /\
                 estimate_thread_tokens thread_messages (thread s)
                 > max_tokens (summarization (config m)) /\
                 _sessions m'' !! chat_id = Some s' /\
                 thread_truthy new_thread = true /\
                 summary_state s' = (new_thread, true, summary_count s + 1)) /\
              (forall k, k <> chat_id ->
                 summary_state <$> (_sessions m'' !! k)
                 = summary_state <$> (_sessions m !! k))).
  { intros m' Hs. exists false, m'. split; [reflexivity|].
    split; [intros _; exact Hs|]. split; [discriminate|].
    intros k _. apply Hs. }
  unfold summarize_if_needed.
  cbv beta delta [mbind].
  destruct (keeps_needs_summarization (World:=World) thread_messages chat_id)
    as [Hk1 Hr1].
  specialize (Hk1 m). destruct (Hr1 m) as [needed Hneeded]. clear Hr1.
  pose proof (needs_summarization_true chat_id m) as Htrue.
  destruct (needs_summarization thread_messages chat_id m) as [r1 m1].
  cbn [fst snd] in *. subst r1.
  destruct needed; cbn [negb]; [|apply Hfalse, Hk1].
  destruct (Htrue m1 eq_refl) as (Hen & s & Hs & Hest). clear Htrue.
  unfold get_session at 1. cbv beta iota.
  destruct (_sessions m1 !! chat_id) as [session|] eqn:Hs1; [|apply Hfalse, Hk1].
  unfold get_manager at 1. cbv beta iota.
  destruct (match summarizer_agent with Some a => Some a | None => _agent m1 end)
    as [agent|]; [|apply Hfalse, Hk1].
  unfold try_except at 1.
  pose proof (keeps_external (World:=World) (Thread:=Thread) EvSerialize
                (serialize (thread session)) m1) as K2.
  destruct (external EvSerialize (serialize (thread session)) m1) as [[e|td] m2];
    cbn [snd] in K2;
    [apply Hfalse; eapply same_summaries_trans; eauto|].
  assert (H2 : osame m m2) by (eapply same_summaries_trans; eauto).
  clear K2 Hk1.
  unfold lift at 1. cbv beta iota.
  destruct (py_len (dict_get_default "messages" (PyList []) td)) as [e|n];
    [apply Hfalse, H2|].
  destruct (n <=? _); [apply Hfalse, H2|].
  unfold lift at 1. cbv beta iota.
  destruct (split_messages _ _) as [e|parts]; [apply Hfalse, H2|].
  pose proof (keeps_generate_summary (World:=World) repr agent (fst parts) m2) as K3.
  destruct (_generate_summary repr agent (fst parts) m2) as [[e|summary] m3];
    cbn [snd] in K3;
    [apply Hfalse; eapply same_summaries_trans; eauto|].
  assert (H3 : osame m m3) by (eapply same_summaries_trans; eauto).
  clear K3 H2.
  destruct (truthy summary); cbn [negb]; [|apply Hfalse, H3].
  destruct (keeps_create_summarized_thread (World:=World) utcnow isoformat repr
              session summary (snd parts)) as [K4 R4].
  specialize (K4 m3). destruct (R4 m3) as [nt Hnt]. clear R4.
  destruct (_create_summarized_thread utcnow isoformat repr session summary
                                      (snd parts) m3) as [r4 m4].
  cbn [fst snd] in *. subst r4.
  assert (H4 : osame m m4) by (eapply same_summaries_trans; eauto).
  clear K4 H3.
  destruct nt as [new_thread|]; [|apply Hfalse, H4].
  destruct (thread_truthy new_thread) eqn:Htruthy; [|apply Hfalse, H4].
  unfold update_session at 1, modify at 1. cbv beta iota.
  set (m5 := set_sessions m4 (alter (set_summarized new_thread) chat_id (_sessions m4))).
  destruct (keeps_save_thread (World:=World) serialize cache_set persistence_get
              persistence_save utcnow isoformat repr chat_id new_thread false)
    as [K6 R6].
  specialize (K6 m5). destruct (R6 m5) as [saved Hsaved]. clear R6.
  destruct (save_thread serialize cache_set persistence_get persistence_save
                        utcnow isoformat repr chat_id new_thread false m5)
    as [r6 m6].
  cbn [fst snd] in *. subst r6.
  unfold update_session, modify, mret. cbv beta iota.
  eexists true, _. split; [reflexivity|].
  destruct H4 as (Hc4 & Ha4 & Hs4). destruct K6 as (Hc6 & Ha6 & Hs6).
  split; [discriminate|]. split.
  - intros _. split; [exact Hen|].
    pose proof (Hs4 chat_id) as E4. rewrite Hs in E4.
    destruct (_sessions m4 !! chat_id) as [s4|] eqn:Hs4'; [|discriminate].
    injection E4 as E4.
    pose proof (Hs6 chat_id) as E6. subst m5. cbn [_sessions set_sessions] in E6.
    rewrite lookup_alter_eq, Hs4' in E6. cbn in E6.
    destruct (_sessions m6 !! chat_id) as [s6|] eqn:Hs6'; [|discriminate].
    injection E6 as E6.
    eexists s, _, new_thread. split; [exact Hs|]. split; [exact Hest|].
    split; [cbn; rewrite lookup_alter_eq, Hs6'; reflexivity|].
    split; [exact Htruthy|].
    unfold summary_state. cbn. congruence.
  - intros k Hk. cbn [_sessions set_sessions].
    rewrite lookup_alter_ne by congruence. rewrite Hs6. subst m5.
    cbn [_sessions set_sessions]. rewrite lookup_alter_ne by congruence.
    apply Hs4.
Qed.

(** X19. [summarize_if_needed] never raises.  When it returns [False]
    (summarization off, unknown session, estimate within the budget, no
    agent, too few messages, or a failure while serializing, summarizing
    or building the new thread), every session keeps its thread, its
    [summarized] flag and its [summary_count].  When it returns [True],
    summarization is enabled, the estimate of the session's thread was
    over [max_tokens], and the session now holds the new thread with
    [summarized] set and [summary_count] one higher, whether or not
    saving the new thread worked.  Other sessions are never touched. *)
Theorem summarize_failure_keeps_thread
  (chat_id : string) (summarizer_agent : option (@ChatAgent World Thread))
  (m : @manager World Thread) :
  let r := osummarize chat_id summarizer_agent m in
  exists b : bool,
    fst r = inr b /\
    (b = false -> osame m (snd r)) /\
    (b = true ->
     enabled (summarization (config m)) = true /\
     exists s s' new_thread,
       _sessions m !! chat_id = Some s /\
       estimate_thread_tokens thread_messages (thread s)
       > max_tokens (summarization (config m)) /\
       _sessions (snd r) !! chat_id = Some s' /\
       thread_truthy new_thread = true /\
       summary_state s' = (new_thread, true, summary_count s + 1)) /\
    (forall k, k <> chat_id ->
       summary_state <$> (_sessions (snd r) !! k)
       = summary_state <$> (_sessions m !! k)).
Proof.
  cbv zeta.
  destruct (summarize_outcome chat_id summarizer_agent m) as (b & m' & E & H).
  rewrite E. exists b. split; [reflexivity|exact H].
Qed.

End SummarizeOutcome.

(** ** Chat history manager: sessions in memory *)

Section StickyFacts.
Import Py ChatHistory.
Context {World Thread : Type}.
Variable cache_get : string -> World -> result pyval * World.
Variable cache_set : string -> pyval -> World -> result bool * World.
Variable persistence_get : string -> World -> result pyval * World.
Variable utcnow : World -> Q.
Variable isoformat : Q -> string.
Variable fromisoformat : string -> option Q.
Variable uuid4 : World -> string * World.

Abbreviation smanager := (@manager World Thread).
Abbreviation screate := (@_create_new_session World Thread utcnow).
Abbreviation srestore :=
  (@_restore_session World Thread utcnow isoformat fromisoformat).
Abbreviation sget :=
  (@get_or_create_thread World Thread cache_get cache_set persistence_get
     utcnow isoformat fromisoformat uuid4).

(** A session that [_create_new_session] returns is stored under its id. *)
Lemma create_new_session_stored (chat_id : string) (m m' : smanager)
  (r : result (string * Thread)) :
  screate chat_id m = (r, m') ->
  _agent m' = _agent m /\
  forall id th, r = inr (id, th) ->
    id = chat_id /\ thread <$> (_sessions m' !! chat_id) = Some th.
Proof.
  unfold _create_new_session, mbind, the_agent.
  destruct (_agent m) as [agent|] eqn:Ha; [|intros [= <- <-]; split; [exact Ha|discriminate]].
  unfold external. destruct (get_new_thread agent (world m)) as [[e|th] w'];
    cbn; [intros [= <- <-]; split; [exact Ha|discriminate]|].
  intros [= <- <-]. cbn. split; [exact Ha|].
  intros id th' [= <- <-]. split; [reflexivity|].
  now rewrite lookup_insert_eq.
Qed.

Lemma restore_session_stored (chat_id : string) (thread_data : pyval)
  (m m' : smanager) (r : result (string * Thread)) :
  srestore chat_id thread_data m = (r, m') ->
  _agent m' = _agent m /\
  forall id th, r = inr (id, th) ->
    id = chat_id /\ thread <$> (_sessions m' !! chat_id) = Some th.
Proof.
  unfold _restore_session, try_except.
  set (body := if negb (_validate_thread_data thread_data) then _ else _).
  assert (Hbody : forall m1 r1, body m = (r1, m1) ->
            _agent m1 = _agent m /\
            forall id th, r1 = inr (id, th) ->
              id = chat_id /\ thread <$> (_sessions m1 !! chat_id) = Some th).
  { subst body. destruct (negb (_validate_thread_data thread_data)).
    - intros m1 r1. apply create_new_session_stored.
    - destruct thread_data as [| | | | | |d];
        try (intros m1 r1 [= <- <-]; split; [reflexivity|discriminate]).
      intros m1 r1. unfold mbind, the_agent.
      destruct (_agent m) as [agent|] eqn:Ha;
        [|intros [= <- <-]; split; [exact Ha|discriminate]].
      unfold lift. destruct (deserialize_thread agent) as [f|]; cbn [ret raise];
        [|intros [= <- <-]; split; [exact Ha|discriminate]].
      unfold external.
      destruct (f (strip_metadata d) (world m)) as [[e|th] w']; cbn;
        [intros [= <- <-]; split; [exact Ha|discriminate]|].
      destruct (parse_created_at isoformat fromisoformat d (utcnow w')) as [e|c];
        cbn; [intros [= <- <-]; split; [exact Ha|discriminate]|].
      intros [= <- <-]. cbn. split; [exact Ha|].
      intros id th' [= <- <-]. split; [reflexivity|].
      now rewrite lookup_insert_eq. }
  destruct (body m) as [[e|a] m1] eqn:Eb.
  - destruct (Hbody m1 (inl e) eq_refl) as [Ha1 _].
    intros H. destruct (create_new_session_stored chat_id m1 m' r H) as [Ha2 Hst].
    split; [congruence|exact Hst].
  - intros [= <- <-]. exact (Hbody m1 (inr a) eq_refl).
Qed.

(** X20. The id [get_or_create_thread] returns identifies the thread it
    returns: the session is held in memory under that id, and a second
    call with the id returns the same thread from memory, without
    calling the agent, the cache or the store. *)
Theorem get_or_create_thread_is_sticky
  (chat_id : option string) (m m1 : smanager) (id : string) (th : Thread) :
  get_or_create_thread cache_get cache_set persistence_get utcnow isoformat
                       fromisoformat uuid4 chat_id m
  = (inr (id, th), m1) ->
  (forall c, chat_id = Some c -> c <> EmptyString -> id = c) /\
  thread <$> (_sessions m1 !! id) = Some th /\
  (id <> EmptyString ->
   exists m2,
     get_or_create_thread cache_get cache_set persistence_get utcnow isoformat
                          fromisoformat uuid4 (Some id) m1
     = (inr (id, th), m2) /\
     calls m2 = calls m1 /\ world m2 = world m1 /\
     thread <$> (_sessions m2 !! id) = Some th).
Proof.
  intros Hget.
  assert (Hfirst : _agent m1 = _agent m /\ is_Some (_agent m) /\
                   (forall c, chat_id = Some c -> c <> EmptyString -> id = c) /\
                   thread <$> (_sessions m1 !! id) = Some th).
  { revert Hget. unfold get_or_create_thread, mbind, get_manager.
    destruct m as [cfg ag sessions w cs]. cbn [_agent config _sessions world calls].
    destruct ag as [agent|]; [|discriminate].
    assert (Ha : Some agent = Some agent) by reflexivity.
    assert (Hnew : forall c m0,
              screate c m0 = (inr (id, th), m1) ->
              _agent m1 = _agent m0 /\ id = c /\
              thread <$> (_sessions m1 !! id) = Some th).
    { intros c m0 H.
      destruct (create_new_session_stored c m0 m1 _ H) as [Ha1 Hst].
      destruct (Hst id th eq_refl) as [-> Hth]. auto. }
    assert (Hres : forall c d m0,
              srestore c d m0 = (inr (id, th), m1) ->
              _agent m1 = _agent m0 /\ id = c /\
              thread <$> (_sessions m1 !! id) = Some th).
    { intros c d m0 H.
      destruct (restore_session_stored c d m0 m1 _ H) as [Ha1 Hst].
      destruct (Hst id th eq_refl) as [-> Hth]. auto. }
    destruct chat_id as [c|].
    - destruct c as [|a0 c0].
      + cbn [world config _agent _sessions calls].
        destruct (uuid4 w) as [u w'] eqn:Eu. intros H.
        destruct (Hnew u _ H) as (Ha1 & -> & Hth).
        split; [exact Ha1|]. split; [eauto|]. split; [|exact Hth].
        intros c [= <-] Hc. contradiction.
      + set (c := String a0 c0). cbn [world config _agent _sessions calls].
        destruct (sessions !! c) as [session|] eqn:Hs.
        * unfold now, update_session, modify, mret. cbn.
          intros [= <- <- <-]. cbn. split; [exact Ha|]. split; [eauto|].
          split; [intros c' [= <-] _; reflexivity|].
          rewrite lookup_alter_eq. fold c. now rewrite Hs.
        * unfold external at 1.
          cbn [world].
          destruct (cache_get c w) as [[e|cached] w1]; [discriminate|].
          destruct (truthy cached).
          { intros H. destruct (Hres c cached _ H) as (Ha1 & -> & Hth).
            split; [exact Ha1|]. split; [eauto|]. split; [|exact Hth].
            intros c' [= <-] _. reflexivity. }
          cbn [config].
          destruct (persistence_enabled cfg).
          -- unfold external at 1. cbn [world].
             destruct (persistence_get c w1) as [[e|persisted] w2]; [discriminate|].
             destruct (truthy persisted).
             ++ unfold external at 1. cbn [world].
                destruct (cache_set c persisted w2) as [[e|ok] w3]; [discriminate|].
                match goal with
                | |- context [srestore c persisted ?m0] =>
                    pose proof (Hres c persisted m0) as Hr;
                    destruct (srestore c persisted m0) as [[e|[id' th']] m3]
                end; [discriminate|].
                unfold mret. intros [= -> -> ->].
                destruct (Hr eq_refl) as (Ha1 & -> & Hth).
                split; [exact Ha1|]. split; [eauto|]. split; [|exact Hth].
                intros c' [= <-] _. reflexivity.
             ++ unfold mret. intros H.
                destruct (Hnew c _ H) as (Ha1 & -> & Hth).
                split; [exact Ha1|]. split; [eauto|]. split; [|exact Hth].
                intros c' [= <-] _. reflexivity.
          -- unfold mret. intros H.
             destruct (Hnew c _ H) as (Ha1 & -> & Hth).
             split; [exact Ha1|]. split; [eauto|]. split; [|exact Hth].
             intros c' [= <-] _. reflexivity.
    - cbn [world config _agent _sessions calls].
        destruct (uuid4 w) as [u w'] eqn:Eu. intros H.
      destruct (Hnew u _ H) as (Ha1 & -> & Hth).
      split; [exact Ha1|]. split; [eauto|]. split; [discriminate|exact Hth]. }
  destruct Hfirst as (Ha1 & [agent Ha] & Hid & Hth).
  split; [exact Hid|]. split; [exact Hth|].
  intros Hne. rewrite Ha in Ha1.
  unfold get_or_create_thread, mbind, get_manager. rewrite Ha1.
  destruct id as [|a0 c0]; [contradiction|].
  destruct (_sessions m1 !! String a0 c0) as [session|] eqn:Hs; [|discriminate].
  injection Hth as <-.
  unfold now, update_session, modify, mret. cbn.
  eexists. split; [reflexivity|]. cbn. split; [reflexivity|]. split; [reflexivity|].
  rewrite lookup_alter_eq, Hs. reflexivity.
Qed.

End StickyFacts.

(** The theorem on a manager without sessions, an empty cache and no
    store: the first call for "c1" creates the session, the second
    returns its thread without any further call. *)
Lemma get_or_create_thread_witness :
  let r := Scenarios.get_or_create (Some "c1") Scenarios.empty_manager in
  fst r = inr ("c1", []) /\
  exists m2,
    Scenarios.get_or_create (Some "c1") (snd r) = (inr ("c1", []), m2) /\
    ChatHistory.calls m2 = ChatHistory.calls (snd r).
Proof.
  cbv zeta.
  set (r := Scenarios.get_or_create (Some "c1") Scenarios.empty_manager).
  assert (Hr : r = (inr ("c1", []), snd r)) by reflexivity.
  split; [reflexivity|].
  destruct (proj2 (proj2 (get_or_create_thread_is_sticky
                            Scenarios.store_empty Scenarios.cache_accepts
                            Scenarios.store_empty Scenarios.clock_of Scenarios.iso
                            Scenarios.from_iso Scenarios.uuid_of
                            (Some "c1") Scenarios.empty_manager (snd r) "c1" [] Hr)))
    as (m2 & H2 & Hc & _).
  - discriminate.
  - exists m2. split; [exact H2|exact Hc].
Defined.

Section RestoreFallback.
Import Py ChatHistory.
Context {World Thread : Type}.
Variable utcnow : World -> Q.
Variable isoformat : Q -> string.
Variable fromisoformat : string -> option Q.

Abbreviation fmanager := (@manager World Thread).
Abbreviation fcreate := (@_create_new_session World Thread utcnow).
Abbreviation frestore :=
  (@_restore_session World Thread utcnow isoformat fromisoformat).

(** With an agent that hands out threads, [_create_new_session] returns
    and makes one call, to [get_new_thread]. *)
Lemma create_new_session_returns (chat_id : string) (m : fmanager)
  (agent : @ChatAgent World Thread) :
  _agent m = Some agent ->
  (forall w, exists th w', get_new_thread agent w = (inr th, w')) ->
  exists th m',
    fcreate chat_id m = (inr (chat_id, th), m') /\
    thread <$> (_sessions m' !! chat_id) = Some th /\
    calls m' = EvGetNewThread :: calls m.
Proof.
  intros Ha Hnew. unfold _create_new_session, mbind, the_agent. rewrite Ha.
  unfold external. destruct (Hnew (world m)) as (th & w' & Hth). rewrite Hth.
  cbn. eexists th, _. split; [reflexivity|]. cbn.
  now rewrite lookup_insert_eq.
Qed.

Lemma strip_metadata_clean (d : dict) :
  Forall (fun kv => startswith (fst kv) "_" = false) (strip_metadata d).
Proof.
  unfold strip_metadata. apply List.Forall_forall. intros kv Hin.
  apply List.filter_In in Hin. destruct Hin as [_ H].
  now apply negb_true_iff in H.
Qed.

(** X21. With an agent that can hand out a new thread, [_restore_session]
    always returns a thread and holds it under the chat id, whatever the
    payload and whatever [deserialize_thread] does: a payload that fails
    validation, an agent without [deserialize_thread], a failing
    deserialization or an unreadable [_created_at] all end in a new
    thread.  If [deserialize_thread] is called at all, it is called once,
    on a payload that passed validation, with every key that starts
    with an underscore removed. *)
Theorem restore_session_always_yields_thread
  (chat_id : string) (thread_data : pyval) (m : fmanager)
  (agent : @ChatAgent World Thread) :
  _agent m = Some agent ->
  (forall w, exists th w', get_new_thread agent w = (inr th, w')) ->
  exists th m',
    frestore chat_id thread_data m = (inr (chat_id, th), m') /\
    thread <$> (_sessions m' !! chat_id) = Some th /\
    (List.filter is_deserialize (calls m') = List.filter is_deserialize (calls m) \/
     exists d,
       thread_data = PyDict d /\
       _validate_thread_data thread_data = true /\
       Forall (fun kv => startswith (fst kv) "_" = false) (strip_metadata d) /\
       List.filter is_deserialize (calls m')
       = EvDeserialize (strip_metadata d) :: List.filter is_deserialize (calls m)).
Proof.
  intros Ha Hnew.
  assert (Hfallback : forall m1,
            _agent m1 = Some agent ->
            exists th m',
              fcreate chat_id m1 = (inr (chat_id, th), m') /\
              thread <$> (_sessions m' !! chat_id) = Some th /\
              List.filter is_deserialize (calls m')
              = List.filter is_deserialize (calls m1)).
  { intros m1 Ha1.
    destruct (create_new_session_returns chat_id m1 agent Ha1 Hnew)
      as (th & m' & Hc & Hs & Hcalls).
    exists th, m'. split; [exact Hc|]. split; [exact Hs|]. now rewrite Hcalls. }
  unfold _restore_session, try_except.
  destruct (_validate_thread_data thread_data) eqn:Hvalid; cbn [negb].
  - destruct thread_data as [| | | | | |d]; try discriminate Hvalid.
    unfold mbind at 1, the_agent at 1. rewrite Ha.
    destruct (deserialize_thread agent) as [f|] eqn:Hf.
    + unfold lift at 1, mbind at 1. cbn [ret].
      unfold mbind at 1, external at 1.
      destruct (f (strip_metadata d) (world m)) as [[e|th] w'] eqn:Hd.
      * match goal with |- context [fcreate chat_id ?m1] =>
          destruct (Hfallback m1 Ha) as (th & m' & Hc & Hs & Hcalls) end.
        exists th, m'. split; [exact Hc|]. split; [exact Hs|]. right.
        exists d. split; [reflexivity|]. split; [reflexivity|].
        split; [apply strip_metadata_clean|]. rewrite Hcalls. reflexivity.
      * unfold mbind at 1, now at 1. cbn [world].
        unfold mbind at 1, lift at 1.
        destruct (parse_created_at isoformat fromisoformat d (utcnow w')) as [e|c].
        -- match goal with |- context [fcreate chat_id ?m1] =>
             destruct (Hfallback m1 Ha) as (th' & m' & Hc & Hs & Hcalls) end.
           exists th', m'. split; [exact Hc|]. split; [exact Hs|]. right.
           exists d. split; [reflexivity|]. split; [reflexivity|].
           split; [apply strip_metadata_clean|]. rewrite Hcalls. reflexivity.
        -- unfold mbind, put_session, modify, mret. cbn.
           eexists th, _. split; [reflexivity|]. cbn.
           split; [now rewrite lookup_insert_eq|]. right.
           exists d. split; [reflexivity|]. split; [reflexivity|].
           split; [apply strip_metadata_clean|reflexivity].
    + unfold lift at 1, mbind at 1. cbn [raise].
      destruct (Hfallback m Ha) as (th & m' & Hc & Hs & Hcalls).
      exists th, m'. split; [exact Hc|]. split; [exact Hs|]. now left.
  - destruct (create_new_session_returns chat_id m agent Ha Hnew)
      as (th & m' & Hc & Hs & Hcalls).
    rewrite Hc. exists th, m'. split; [reflexivity|]. split; [exact Hs|].
    left. now rewrite Hcalls.
Qed.

End RestoreFallback.

(** The theorem on the hostile payload (a message with the role
    "admin"): the session gets a new, empty thread. *)
Lemma restore_session_witness :
  ChatHistory._agent Scenarios.empty_manager = Some Scenarios.scripted_agent /\
  exists th m',
    ChatHistory._restore_session Scenarios.clock_of Scenarios.iso Scenarios.from_iso
      "c1" (Py.PyDict Scenarios.hostile_payload) Scenarios.empty_manager
    = (inr ("c1", th), m').
Proof.
  split; [reflexivity|].
  destruct (restore_session_always_yields_thread
              Scenarios.clock_of Scenarios.iso Scenarios.from_iso
              "c1" (Py.PyDict Scenarios.hostile_payload) Scenarios.empty_manager
              Scenarios.scripted_agent eq_refl)
    as (th & m' & H & _).
  - intros w. exists [], (S w). reflexivity.
  - exists th, m'. exact H.
Defined.

(** ** Chat history manager: merging two thread blobs *)

Section MergeSemantics.
Import Py ChatHistory MergeView.
Variable repr : pyval -> string.

(** [{**a, **b}] looks a key up in [b] first. *)
Lemma dict_get_merge (b : dict) : forall (a : dict) (k : string),
  NoDup (map fst b) ->
  dict_get k (dict_merge a b)
  = match dict_get k b with Some v => Some v | None => dict_get k a end.
Proof.
  unfold dict_merge. induction b as [|[k0 v0] b IH]; intros a k Hnd; [reflexivity|].
  cbn in Hnd. apply NoDup_cons in Hnd. destruct Hnd as [Hnotin Hnd].
  cbn [fold_left fst snd dict_get]. rewrite IH by exact Hnd.
  destruct (String.eqb_spec k k0) as [->|Hne].
  - rewrite dict_get_set_eq.
    destruct (dict_get k0 b) as [v|] eqn:E; [|reflexivity].
    exfalso. apply Hnotin. apply list_elem_of_In.
    clear -E. induction b as [|[k1 v1] b IH]; [discriminate|].
    cbn in E. destruct (String.eqb_spec k0 k1) as [->|Hne]; [now left|].
    right. now apply IH.
  - now rewrite dict_get_set_ne.
Qed.


(** X22. In the blob [_merge_thread_data] returns, the stored
    [_created_at] wins over the new one, every other key but [messages]
    has the new value when the new blob has the key and the stored value
    otherwise, and the messages are those of the new blob unless the
    stored blob holds more of them. *)
Theorem merge_new_overrides_but_created_at
  (existing new merged : dict) :
  NoDup (map fst new) ->
  _merge_thread_data repr (PyDict existing) new = inr merged ->
  (forall c, dict_get "_created_at" existing = Some c ->
             dict_get "_created_at" merged = Some c) /\
  (dict_get "_created_at" existing = None ->
   dict_get "_created_at" merged = dict_get "_created_at" new) /\
  (forall k, k <> "messages" -> k <> "_created_at" ->
     dict_get k merged
     = match dict_get k new with Some v => Some v | None => dict_get k existing end) /\
  (forall old_msgs new_msgs,
     dict_get "messages" existing = Some (PyList old_msgs) ->
     dict_get "messages" new = Some (PyList new_msgs) ->
     (length old_msgs <= length new_msgs)%nat ->
     dict_get "messages" merged = Some (PyList new_msgs)) /\
  (dict_get "messages" new = None ->
   dict_get "messages" merged = dict_get "messages" existing).
Proof.
  intros Hnd. unfold _merge_thread_data.
  set (merged0 := dict_merge existing new).
  assert (H0 : forall k, dict_get k merged0
                         = match dict_get k new with
                           | Some v => Some v
                           | None => dict_get k existing
                           end)
    by (intros k; apply dict_get_merge; exact Hnd).
  set (merged1 := match dict_get "_created_at" existing with
                  | Some c => dict_set "_created_at" c merged0
                  | None => merged0
                  end).
  assert (H1 : forall k, k <> "_created_at" -> dict_get k merged1 = dict_get k merged0).
  { intros k Hk. subst merged1. destruct (dict_get "_created_at" existing);
      [now apply dict_get_set_ne|reflexivity]. }
  assert (H1c : dict_get "_created_at" merged1
                = match dict_get "_created_at" existing with
                  | Some c => Some c
                  | None => dict_get "_created_at" new
                  end).
  { subst merged1. destruct (dict_get "_created_at" existing) as [c|] eqn:E.
    - apply dict_get_set_eq.
    - rewrite H0. rewrite E. now destruct (dict_get "_created_at" new). }
  set (step := if dict_mem "messages" existing && dict_mem "messages" new
               then _ else _).
  assert (Hstep : forall merged2, step = inr merged2 ->
            (forall k, k <> "messages" -> dict_get k merged2 = dict_get k merged1) /\
            (forall old_msgs new_msgs,
               dict_get "messages" existing = Some (PyList old_msgs) ->
               dict_get "messages" new = Some (PyList new_msgs) ->
               (length old_msgs <= length new_msgs)%nat ->
               dict_get "messages" merged2 = Some (PyList new_msgs)) /\
            (dict_get "messages" new = None ->
             dict_get "messages" merged2 = dict_get "messages" merged1)).
  { intros merged2. subst step. unfold dict_mem, dict_get_default.
    destruct (dict_get "messages" existing) as [om|] eqn:Eo;
      destruct (dict_get "messages" new) as [nm|] eqn:En; cbn [andb];
      try (intros [= <-]; repeat split; congruence).
    destruct (py_len nm) as [e|ln] eqn:Eln; [discriminate|].
    destruct (py_len om) as [e|lo] eqn:Elo; [discriminate|]. cbn [bind].
    destruct (ln >=? lo) eqn:Ege.
    - intros [= <-]. split; [intros k Hk; now apply dict_get_set_ne|].
      split; [|discriminate]. intros old_msgs new_msgs [= ->] [= ->] _.
      apply dict_get_set_eq.
    - destruct om as [| | | | s|la|]; destruct nm as [| | | | s'|lb|];
        try discriminate.
      destruct (dedupe repr [] (la ++ lb)) as [e|all_msgs]; [discriminate|].
      cbn. intros [= <-]. split; [intros k Hk; now apply dict_get_set_ne|].
      split; [|discriminate]. intros old_msgs new_msgs [= ->] [= ->] Hle.
      cbn in Eln, Elo. injection Eln as <-. injection Elo as <-.
      rewrite Z.geb_leb in Ege. apply Z.leb_gt in Ege. lia. }
  destruct step as [e|merged2]; [discriminate|].
  destruct (Hstep merged2 eq_refl) as (Hk & Hm & Hn). clear Hstep.
  cbn [bind].
  destruct (py_len _) as [e|?]; [discriminate|]. cbn [bind].
  destruct (py_len _) as [e|?]; [discriminate|]. cbn [bind].
  destruct (py_len _) as [e|?]; [discriminate|]. cbn [bind ret].
  intros [= <-]. split; [|split; [|split; [|split]]].
  - intros c Hc. rewrite Hk by discriminate. rewrite H1c, Hc. reflexivity.
  - intros Hc. rewrite Hk by discriminate. rewrite H1c, Hc. reflexivity.
  - intros k Hkm Hkc. rewrite Hk, H1 by assumption. apply H0.
  - exact Hm.
  - intros Hnone. rewrite Hn by exact Hnone. rewrite H1 by discriminate.
    rewrite H0, Hnone. reflexivity.
Qed.


End MergeSemantics.

(** The theorem on the stored blob merged with a blob that has no
    messages and a later [_created_at]: the stored creation time stays. *)
Lemma merge_created_at_witness :
  exists merged,
    ChatHistory._merge_thread_data Scenarios.repr_stub
      (Py.PyDict Scenarios.stored_blob)
      [("_created_at", Py.PyStr "2025-06-01T00:00:00+00:00")] = inr merged /\
    Py.dict_get "_created_at" merged
    = Some (Py.PyStr "2024-01-01T00:00:00+00:00").
Proof.
  eexists. split; [reflexivity|].
  refine (proj1 (merge_new_overrides_but_created_at
                   Scenarios.repr_stub Scenarios.stored_blob
                   [("_created_at", Py.PyStr "2025-06-01T00:00:00+00:00")]
                   _ _ eq_refl) _ eq_refl).
  apply (bool_decide_unpack _). vm_compute. reflexivity.
Defined.

